(** * Document automation: the multi-strategy field-extraction pipeline

    A shallow embedding of [models.py], [extractors/passport_extractor.py],
    [extractors/llm_passport_extractor.py], [extractors/g28_extractor.py], of
    the merge step and the endpoints of [app.py] and of the two normalizers
    of [form_filler.py], with the properties of the design document stated
    against the code.

    Conventions.
    - A Python [str] is a [string], the bytes of its UTF-8 encoding: one
      [ascii] per character on ASCII text, where length, slicing, whitespace
      and case mapping are exact.  The two look-alike guillemets that the
      MRZ scanner rewrites are not ASCII and appear as their encodings.
    - An [Optional[...]] attribute is an [option]; Python truthiness of such
      an attribute ([if data.last_name:]) is [truthy].
    - Code that may raise returns an [Exc]; [try ... except] is [catch].
    - The external collaborators (OCR engine, MRZ checker, LLM service,
      regular-expression engine, entity recognizer, date parser, PDF reader)
      are fields of an environment record: the code is embedded around them.
    - Confidence scores are rationals.  Every score the code computes is a
      multiple of 1/8, which binary floating point represents exactly, and
      the literals 0.95, 0.7, 0.5, 0.3 and 0.0 stand for themselves; the
      only comparison, [> 0.3], has the same outcome on both. *)

From Stdlib Require Import ZArith QArith Ascii String List Lia Bool.
From Stdlib Require Import DecimalString.
From stdpp Require Import base option gmap strings list.

Open Scope string_scope.

(** ** Python strings *)

Module PyStr.

(** [bool(s)] for a string. *)
Definition nonempty (s : string) : bool :=
  match s with EmptyString => false | String _ _ => true end.

Definition code (c : ascii) : N := N_of_ascii c.

Definition in_range (lo hi c : ascii) : bool :=
  (code lo <=? code c)%N && (code c <=? code hi)%N.

(** [len(s)]: the number of code points of the text, which are the bytes
    of its encoding that are no continuation byte (0x80..0xbf). *)
Definition is_continuation (c : ascii) : bool :=
  (128 <=? code c)%N && (code c <? 192)%N.

Fixpoint len (s : string) : nat :=
  match s with
  | EmptyString => 0
  | String c s' => if is_continuation c then len s' else S (len s')
  end.

Definition is_digit (c : ascii) : bool := in_range "0" "9" c.
Definition is_upper (c : ascii) : bool := in_range "A" "Z" c.
Definition is_lower (c : ascii) : bool := in_range "a" "z" c.
Definition is_alpha (c : ascii) : bool := is_upper c || is_lower c.

(** [str.isspace] on one ASCII character: TAB, LF, VT, FF, CR, the four
    separators 0x1c..0x1f and the blank. *)
Definition is_space (c : ascii) : bool :=
  in_range "009" "013" c || in_range "028" "031" c || (code c =? 32)%N.

Definition upper_char (c : ascii) : ascii :=
  if is_lower c then ascii_of_N (code c - 32) else c.
Definition lower_char (c : ascii) : ascii :=
  if is_upper c then ascii_of_N (code c + 32) else c.

Fixpoint map (f : ascii -> ascii) (s : string) : string :=
  match s with
  | EmptyString => EmptyString
  | String c s' => String (f c) (map f s')
  end.

Fixpoint filter (p : ascii -> bool) (s : string) : string :=
  match s with
  | EmptyString => EmptyString
  | String c s' => if p c then String c (filter p s') else filter p s'
  end.

Fixpoint forallb (p : ascii -> bool) (s : string) : bool :=
  match s with
  | EmptyString => true
  | String c s' => p c && forallb p s'
  end.

Fixpoint existsb (p : ascii -> bool) (s : string) : bool :=
  match s with
  | EmptyString => false
  | String c s' => p c || existsb p s'
  end.

(** [s.upper()], [s.lower()]. *)
Definition upper : string -> string := map upper_char.
Definition lower : string -> string := map lower_char.

(** [c in s] for a one-character [c]. *)
Definition contains (c : ascii) (s : string) : bool :=
  existsb (fun x => if ascii_dec x c then true else false) s.

(** [s[:n]] and [s[n:]] for [n >= 0]. *)
Fixpoint take (n : nat) (s : string) : string :=
  match n, s with
  | S n', String c s' => String c (take n' s')
  | _, _ => EmptyString
  end.

Fixpoint drop (n : nat) (s : string) : string :=
  match n, s with
  | S n', String _ s' => drop n' s'
  | _, _ => s
  end.

(** [s[a:b]] for [0 <= a <= b]. *)
Definition slice (a b : nat) (s : string) : string := take (b - a) (drop a s).

Fixpoint app (s t : string) : string :=
  match s with
  | EmptyString => t
  | String c s' => String c (app s' t)
  end.

(** [c * n]. *)
Fixpoint repeat (c : ascii) (n : nat) : string :=
  match n with
  | O => EmptyString
  | S n' => String c (repeat c n')
  end.

Fixpoint rev_onto (s acc : string) : string :=
  match s with
  | EmptyString => acc
  | String c s' => rev_onto s' (String c acc)
  end.
Definition rev (s : string) : string := rev_onto s EmptyString.

Fixpoint lstrip (s : string) : string :=
  match s with
  | EmptyString => EmptyString
  | String c s' => if is_space c then lstrip s' else s
  end.

(** [s.strip()]. *)
Definition strip (s : string) : string := rev (lstrip (rev (lstrip s))).

Fixpoint is_prefix (p s : string) : bool :=
  match p, s with
  | EmptyString, _ => true
  | String a p', String b s' => (if ascii_dec a b then true else false) && is_prefix p' s'
  | String _ _, EmptyString => false
  end.

(** [s.replace(old, new)] for a non-empty [old]: occurrences are taken
    left to right and do not overlap.  [skip] counts the characters of the
    occurrence just replaced that are still to be passed over. *)
Fixpoint replace_go (old new : string) (skip : nat) (s : string) : string :=
  match s with
  | EmptyString => EmptyString
  | String c s' =>
      match skip with
      | S k => replace_go old new k s'
      | O =>
          if is_prefix old s
          then app new (replace_go old new (String.length old - 1) s')
          else String c (replace_go old new 0 s')
      end
  end.
Definition replace (old new s : string) : string := replace_go old new 0 s.

(** [s.split(sep)] for a non-empty string [sep]. *)
Fixpoint split_on_go (sep : string) (skip : nat) (cur : string) (s : string)
  : list string :=
  match s with
  | EmptyString => [rev cur]
  | String c s' =>
      match skip with
      | S k => split_on_go sep k cur s'
      | O =>
          if is_prefix sep s
          then rev cur :: split_on_go sep (String.length sep - 1) EmptyString s'
          else split_on_go sep 0 (String c cur) s'
      end
  end.
Definition split_on (sep s : string) : list string :=
  split_on_go sep 0 EmptyString s.

(** [sub in s] for a non-empty [sub]. *)
Fixpoint contains_sub (sub s : string) : bool :=
  match s with
  | EmptyString => false
  | String _ s' => is_prefix sub s || contains_sub sub s'
  end.

(** [s.split(sep)] for a one-character separator: always at least one
    piece. *)
Fixpoint split_go (sep : ascii) (cur : string) (s : string) : list string :=
  match s with
  | EmptyString => [rev cur]
  | String c s' =>
      if ascii_dec c sep then rev cur :: split_go sep EmptyString s'
      else split_go sep (String c cur) s'
  end.
Definition split (sep : ascii) (s : string) : list string :=
  split_go sep EmptyString s.

(** [s.split()]: the maximal runs of non-whitespace characters. *)
Fixpoint words_go (cur : string) (s : string) : list string :=
  match s with
  | EmptyString => if nonempty cur then [rev cur] else []
  | String c s' =>
      if is_space c
      then (if nonempty cur then rev cur :: words_go EmptyString s'
            else words_go EmptyString s')
      else words_go (String c cur) s'
  end.
Definition words (s : string) : list string := words_go EmptyString s.

(** [sep.join(l)]. *)
Fixpoint join (sep : string) (l : list string) : string :=
  match l with
  | [] => EmptyString
  | [x] => x
  | x :: l' => app x (app sep (join sep l'))
  end.

(** [s.title()]: a letter that follows a non-letter is upper-cased, a
    letter that follows a letter is lower-cased. *)
Fixpoint title_go (prev_cased : bool) (s : string) : string :=
  match s with
  | EmptyString => EmptyString
  | String c s' =>
      String (if is_alpha c
              then (if prev_cased then lower_char c else upper_char c)
              else c)
             (title_go (is_alpha c) s')
  end.
Definition title (s : string) : string := title_go false s.

(** *** [int(s)] in base 10

    Surrounding whitespace is dropped, one sign is allowed, and the digits
    may be separated by single underscores.  The whitespace that [int]
    drops from ASCII text is TAB, LF, VT, FF, CR and the blank: the four
    separators 0x1c..0x1f, which [str.strip] drops, are not part of it. *)
Definition is_int_space (c : ascii) : bool :=
  in_range "009" "013" c || (code c =? 32)%N.

Fixpoint int_lstrip (s : string) : string :=
  match s with
  | EmptyString => EmptyString
  | String c s' => if is_int_space c then int_lstrip s' else s
  end.

Definition int_strip (s : string) : string :=
  rev (int_lstrip (rev (int_lstrip s))).

Definition digit_val (c : ascii) : Z := Z.of_N (code c - code "0").

(** [prev_digit]: the previous character was a digit, so an underscore is
    allowed here; the number must end on a digit. *)
Fixpoint int_digits (prev_digit : bool) (acc : Z) (s : string) : option Z :=
  match s with
  | EmptyString => if prev_digit then Some acc else None
  | String c s' =>
      if is_digit c then int_digits true (acc * 10 + digit_val c) s'
      else if (if ascii_dec c "_" then true else false) && prev_digit
           then (match s' with
                 | String d _ => if is_digit d then int_digits false acc s' else None
                 | EmptyString => None
                 end)
           else None
  end.

Definition int (s : string) : option Z :=
  match int_strip s with
  | String "+" t => int_digits false 0 t
  | String "-" t => Z.opp <$> int_digits false 0 t
  | t => int_digits false 0 t
  end.

(** *** [f"{n:0wd}"]: sign-aware zero padding to width [w] *)
Definition dec (n : Z) : string := NilZero.string_of_uint (N.to_uint (Z.to_N (Z.abs n))).

Definition fmt_0d (w : nat) (n : Z) : string :=
  let d := dec n in
  if (n <? 0)%Z
  then String "-" (app (repeat "0" (w - 1 - String.length d)) d)
  else app (repeat "0" (w - String.length d)) d.

End PyStr.

(** ** Exceptions *)

Inductive Exc (A : Type) : Type :=
| Ok (a : A)
| Raise.
Arguments Ok {A} a.
Arguments Raise {A}.

Global Instance exc_ret : MRet Exc := fun A a => Ok a.
Global Instance exc_bind : MBind Exc := fun A B k m =>
  match m with Ok a => k a | Raise => Raise end.

Global Instance exc_fmap : FMap Exc := fun A B f m =>
  match m with Ok a => Ok (f a) | Raise => Raise end.

(** [try: m  except: h]. *)
Definition catch {A} (m : Exc A) (h : Exc A) : Exc A :=
  match m with Ok a => Ok a | Raise => h end.

(** Truthiness of an optional string attribute. *)
Definition truthy (o : option string) : bool :=
  match o with Some s => PyStr.nonempty s | None => false end.

(** [x or None] for a string [x]. *)
Definition or_none (s : string) : option string :=
  if PyStr.nonempty s then Some s else None.

(** ** [models.py] *)

Module PassportData.
Record t := mk {
  last_name : option string;
  first_name : option string;
  middle_name : option string;
  passport_number : option string;
  country_of_issue : option string;
  nationality : option string;
  date_of_birth : option string;
  place_of_birth : option string;
  sex : option string;
  date_of_issue : option string;
  date_of_expiration : option string;
  extraction_method : option string;
  confidence_score : option Q
}.

(** [PassportData()]. *)
Definition empty : t :=
  mk None None None None None None None None None None None None None.

(** The [Literal["M", "F", "X"]] constraint, checked when a record is
    constructed (assignments to an existing record are not validated). *)
Definition valid_sex (o : option string) : bool :=
  match o with
  | None => true
  | Some s => bool_decide (s = "M" \/ s = "F" \/ s = "X")
  end.

Definition set_last_name v d := mk v (first_name d) (middle_name d)
  (passport_number d) (country_of_issue d) (nationality d) (date_of_birth d)
  (place_of_birth d) (sex d) (date_of_issue d) (date_of_expiration d)
  (extraction_method d) (confidence_score d).
Definition set_first_name v d := mk (last_name d) v (middle_name d)
  (passport_number d) (country_of_issue d) (nationality d) (date_of_birth d)
  (place_of_birth d) (sex d) (date_of_issue d) (date_of_expiration d)
  (extraction_method d) (confidence_score d).
Definition set_middle_name v d := mk (last_name d) (first_name d) v
  (passport_number d) (country_of_issue d) (nationality d) (date_of_birth d)
  (place_of_birth d) (sex d) (date_of_issue d) (date_of_expiration d)
  (extraction_method d) (confidence_score d).
Definition set_passport_number v d := mk (last_name d) (first_name d)
  (middle_name d) v (country_of_issue d) (nationality d) (date_of_birth d)
  (place_of_birth d) (sex d) (date_of_issue d) (date_of_expiration d)
  (extraction_method d) (confidence_score d).
Definition set_date_of_birth v d := mk (last_name d) (first_name d)
  (middle_name d) (passport_number d) (country_of_issue d) (nationality d) v
  (place_of_birth d) (sex d) (date_of_issue d) (date_of_expiration d)
  (extraction_method d) (confidence_score d).
Definition set_sex v d := mk (last_name d) (first_name d)
  (middle_name d) (passport_number d) (country_of_issue d) (nationality d)
  (date_of_birth d) (place_of_birth d) v (date_of_issue d)
  (date_of_expiration d) (extraction_method d) (confidence_score d).
Definition set_extraction_method v d := mk (last_name d) (first_name d)
  (middle_name d) (passport_number d) (country_of_issue d) (nationality d)
  (date_of_birth d) (place_of_birth d) (sex d) (date_of_issue d)
  (date_of_expiration d) v (confidence_score d).
Definition set_confidence_score v d := mk (last_name d) (first_name d)
  (middle_name d) (passport_number d) (country_of_issue d) (nationality d)
  (date_of_birth d) (place_of_birth d) (sex d) (date_of_issue d)
  (date_of_expiration d) (extraction_method d) v.
End PassportData.

Module AttorneyData.
Record t := mk {
  last_name : option string;
  first_name : option string;
  middle_name : option string;
  street_address : option string;
  apt_ste_flr : option string;
  city : option string;
  state : option string;
  zip_code : option string;
  country : option string;
  daytime_phone : option string;
  mobile_phone : option string;
  email : option string;
  licensing_authority : option string;
  bar_number : option string;
  law_firm_name : option string;
  online_account_number : option string;
  extraction_method : option string;
  confidence_score : option Q
}.

(** [AttorneyData()]. *)
Definition empty : t :=
  mk None None None None None None None None None None None None None None
     None None None None.

(** The string-valued attributes that the extractors read and write by
    name ([getattr] / [setattr]). *)
Inductive attr :=
| a_last_name | a_first_name | a_middle_name | a_street_address
| a_apt_ste_flr | a_city | a_state | a_zip_code | a_country
| a_daytime_phone | a_mobile_phone | a_email | a_licensing_authority
| a_bar_number | a_law_firm_name.

Global Instance attr_eq_dec : EqDecision attr.
Proof. solve_decision. Defined.

Definition getattr (a : attr) (d : t) : option string :=
  match a with
  | a_last_name => last_name d | a_first_name => first_name d
  | a_middle_name => middle_name d | a_street_address => street_address d
  | a_apt_ste_flr => apt_ste_flr d | a_city => city d | a_state => state d
  | a_zip_code => zip_code d | a_country => country d
  | a_daytime_phone => daytime_phone d | a_mobile_phone => mobile_phone d
  | a_email => email d | a_licensing_authority => licensing_authority d
  | a_bar_number => bar_number d | a_law_firm_name => law_firm_name d
  end.

Definition setattr (a : attr) (v : option string) (d : t) : t :=
  let pick b := if bool_decide (a = b) then v else getattr b d in
  mk (pick a_last_name) (pick a_first_name) (pick a_middle_name)
     (pick a_street_address) (pick a_apt_ste_flr) (pick a_city)
     (pick a_state) (pick a_zip_code) (pick a_country)
     (pick a_daytime_phone) (pick a_mobile_phone) (pick a_email)
     (pick a_licensing_authority) (pick a_bar_number) (pick a_law_firm_name)
     (online_account_number d) (extraction_method d) (confidence_score d).

Definition set_extraction_method v d :=
  mk (last_name d) (first_name d) (middle_name d) (street_address d)
     (apt_ste_flr d) (city d) (state d) (zip_code d) (country d)
     (daytime_phone d) (mobile_phone d) (email d) (licensing_authority d)
     (bar_number d) (law_firm_name d) (online_account_number d)
     v (confidence_score d).
Definition set_confidence_score v d :=
  mk (last_name d) (first_name d) (middle_name d) (street_address d)
     (apt_ste_flr d) (city d) (state d) (zip_code d) (country d)
     (daytime_phone d) (mobile_phone d) (email d) (licensing_authority d)
     (bar_number d) (law_firm_name d) (online_account_number d)
     (extraction_method d) v.
End AttorneyData.

Definition US_STATES : gmap string string := list_to_map [
  ("alabama", "AL"); ("al", "AL"); ("alaska", "AK"); ("ak", "AK");
  ("arizona", "AZ"); ("az", "AZ"); ("arkansas", "AR"); ("ar", "AR");
  ("california", "CA"); ("ca", "CA"); ("colorado", "CO"); ("co", "CO");
  ("connecticut", "CT"); ("ct", "CT"); ("delaware", "DE"); ("de", "DE");
  ("district of columbia", "DC"); ("dc", "DC"); ("florida", "FL"); ("fl", "FL");
  ("georgia", "GA"); ("ga", "GA"); ("hawaii", "HI"); ("hi", "HI");
  ("idaho", "ID"); ("id", "ID"); ("illinois", "IL"); ("il", "IL");
  ("indiana", "IN"); ("in", "IN"); ("iowa", "IA"); ("ia", "IA");
  ("kansas", "KS"); ("ks", "KS"); ("kentucky", "KY"); ("ky", "KY");
  ("louisiana", "LA"); ("la", "LA"); ("maine", "ME"); ("me", "ME");
  ("maryland", "MD"); ("md", "MD"); ("massachusetts", "MA"); ("ma", "MA");
  ("michigan", "MI"); ("mi", "MI"); ("minnesota", "MN"); ("mn", "MN");
  ("mississippi", "MS"); ("ms", "MS"); ("missouri", "MO"); ("mo", "MO");
  ("montana", "MT"); ("mt", "MT"); ("nebraska", "NE"); ("ne", "NE");
  ("nevada", "NV"); ("nv", "NV"); ("new hampshire", "NH"); ("nh", "NH");
  ("new jersey", "NJ"); ("nj", "NJ"); ("new mexico", "NM"); ("nm", "NM");
  ("new york", "NY"); ("ny", "NY"); ("north carolina", "NC"); ("nc", "NC");
  ("north dakota", "ND"); ("nd", "ND"); ("ohio", "OH"); ("oh", "OH");
  ("oklahoma", "OK"); ("ok", "OK"); ("oregon", "OR"); ("or", "OR");
  ("pennsylvania", "PA"); ("pa", "PA"); ("rhode island", "RI"); ("ri", "RI");
  ("south carolina", "SC"); ("sc", "SC"); ("south dakota", "SD"); ("sd", "SD");
  ("tennessee", "TN"); ("tn", "TN"); ("texas", "TX"); ("tx", "TX");
  ("utah", "UT"); ("ut", "UT"); ("vermont", "VT"); ("vt", "VT");
  ("virginia", "VA"); ("va", "VA"); ("washington", "WA"); ("wa", "WA");
  ("west virginia", "WV"); ("wv", "WV"); ("wisconsin", "WI"); ("wi", "WI");
  ("wyoming", "WY"); ("wy", "WY")
].

(** [US_STATES.get(state_str.lower().strip(), state_str.upper()[:2])],
    behind the guard [if not state_str]. *)
Definition normalize_state (state_str : option string) : option string :=
  match state_str with
  | None => None
  | Some s =>
      if PyStr.nonempty s
      then Some (default (PyStr.take 2 (PyStr.upper s))
                         (US_STATES !! PyStr.strip (PyStr.lower s)))
      else None
  end.

(** ** External collaborators shared by the extractors *)

(** A page image: opaque to the extractors, which only hand it on. *)
Definition image := nat.

(** A successful [re.search]: [group(0)] and [group(1)]. *)
Record re_match := { group0 : string; group1 : string }.

(** The regular-expression engine: [re.search(pattern, text)], with
    [re.IGNORECASE] when the flag is set, and [re.sub(pattern, repl, s)]. *)
Record regex := {
  re_search : string -> bool -> string -> option re_match;
  re_sub : string -> string -> string -> string
}.

(** The [for pattern in [...]: ... break] idiom: the first pattern of the
    list that matches. *)
Fixpoint first_match (re : regex) (patterns : list string) (ic : bool)
    (text : string) : option re_match :=
  match patterns with
  | [] => None
  | p :: ps =>
      match re_search re p ic text with
      | Some m => Some m
      | None => first_match re ps ic text
      end
  end.

(** ** [extractors/llm_passport_extractor.py] *)

Module LLMPassportExtractor.

(** - [api_key]: [OPENAI_API_KEY] is set to a non-empty value;
    - [openai_installed]: [from openai import OpenAI] succeeds;
    - [encode_image]: the [try] block of [_prepare_image], giving the
      base64 JPEG, [None] when the document has no page;
    - [chat_completion]: the content of the first choice of the completion
      requested for that image;
    - [json_loads]: [json.loads], [Raise] standing for [JSONDecodeError]; a
      JSON [null] is an absent key, as [dict.get] answers [None] for both. *)
Record env := {
  api_key : bool;
  openai_installed : bool;
  encode_image : Exc (option string);
  chat_completion : string -> Exc string;
  json_loads : string -> Exc (gmap string string)
}.

Definition is_llm_available (e : env) : bool := api_key e.

(** The [client] property, as the truth value the caller tests. *)
Definition client (e : env) : bool := openai_installed e && api_key e.

Definition _prepare_image (e : env) : option string :=
  match encode_image e with Ok r => r | Raise => None end.

Definition fence_json : string := "```json".
Definition fence : string := "```".

Definition strip_fences (json_str : string) : string :=
  if PyStr.contains_sub fence_json json_str
  then default "" (head (PyStr.split_on fence
         (default "" (PyStr.split_on fence_json json_str !! 1%nat))))
  else if PyStr.contains_sub fence json_str
  then default "" (head (PyStr.split_on fence
         (default "" (PyStr.split_on fence json_str !! 1%nat))))
  else json_str.

(** [JSONDecodeError] is answered by [None]; a validation error of the
    record constructor is not caught here. *)
Definition _parse_response (e : env) (response_text : string)
    : Exc (option PassportData.t) :=
  let json_str := strip_fences (PyStr.strip response_text) in
  match json_loads e json_str with
  | Raise => Ok None
  | Ok data =>
      if PassportData.valid_sex (data !! "sex")
      then Ok (Some (PassportData.mk
             (data !! "last_name") (data !! "first_name")
             (data !! "middle_name") (data !! "passport_number")
             (data !! "country_of_issue") (data !! "nationality")
             (data !! "date_of_birth") (data !! "place_of_birth")
             (data !! "sex") (data !! "date_of_issue")
             (data !! "date_of_expiration") None None))
      else Raise
  end.

Definition extract (e : env) : Exc (option PassportData.t) :=
  if negb (client e) then Ok None
  else
    match _prepare_image e with
    | None => Ok None
    | Some image_base64 =>
        if negb (PyStr.nonempty image_base64) then Ok None
        else
          catch
            (content ← chat_completion e image_base64;
             result ← _parse_response e content;
             Ok (match result with
                 | Some r =>
                     Some (PassportData.set_confidence_score (Some (95 # 100))
                             (PassportData.set_extraction_method
                                (Some "LLM_OPENAI") r))
                 | None => None
                 end))
            (Ok None)
    end.

End LLMPassportExtractor.

(** ** [extractors/passport_extractor.py] *)

Definition COUNTRY_CODES : gmap string string := list_to_map [
  ("USA", "United States"); ("GBR", "United Kingdom"); ("CAN", "Canada");
  ("AUS", "Australia"); ("DEU", "Germany"); ("FRA", "France"); ("ITA", "Italy");
  ("ESP", "Spain"); ("JPN", "Japan"); ("CHN", "China"); ("IND", "India");
  ("BRA", "Brazil"); ("MEX", "Mexico"); ("KOR", "South Korea"); ("RUS", "Russia");
  ("NLD", "Netherlands"); ("BEL", "Belgium"); ("CHE", "Switzerland");
  ("AUT", "Austria"); ("SWE", "Sweden"); ("NOR", "Norway"); ("DNK", "Denmark");
  ("FIN", "Finland"); ("POL", "Poland"); ("PRT", "Portugal"); ("GRC", "Greece");
  ("IRL", "Ireland"); ("NZL", "New Zealand"); ("SGP", "Singapore");
  ("HKG", "Hong Kong"); ("TWN", "Taiwan"); ("THA", "Thailand"); ("VNM", "Vietnam");
  ("PHL", "Philippines"); ("IDN", "Indonesia"); ("MYS", "Malaysia");
  ("ARG", "Argentina"); ("CHL", "Chile"); ("COL", "Colombia"); ("PER", "Peru");
  ("ZAF", "South Africa"); ("EGY", "Egypt"); ("NGA", "Nigeria"); ("KEN", "Kenya");
  ("ISR", "Israel"); ("ARE", "United Arab Emirates"); ("SAU", "Saudi Arabia");
  ("TUR", "Turkey"); ("PAK", "Pakistan"); ("BGD", "Bangladesh")
].

Module PassportExtractor.

(** What [checker.fields()] answers.  The [mrz] package is no part of the
    sources, and the code reads the object with [fields.get(key, "")]: a
    [dict], which [_parse_mrz_fields] is annotated to receive, has that
    method; on an object that has not, such as a named tuple, the first
    call raises [AttributeError]. *)
Inductive mrz_fields :=
| fields_dict (d : gmap string string)
| fields_namedtuple (t : list (string * string)).

(** - [now_year]: [datetime.now().year];
    - [load_images]: the [try] block of [_get_images] (PIL itself is taken
      to be installed: it is imported before that block);
    - [pytesseract]: [None] when the import fails, else
      [image_to_string(image, config=...)];
    - [td3_code_checker]: [None] when [mrz] is not installed, else the
      checker built from the two lines: [Raise] when it raises, [Ok None]
      when [checker.result] is false, the object that [checker.fields()]
      answers otherwise;
    - [spacy_model]: the [nlp] property: [Raise] when [spacy] cannot be
      imported, [Ok None] when the model is missing ([OSError]), else the
      entities (text, label) of a text;
    - [dateparser_parse]: [dateparser.parse] followed by [strftime], [Raise]
      covering a failed import. *)
Record env := {
  now_year : Z;
  re : regex;
  llm : LLMPassportExtractor.env;
  load_images : Exc (list image);
  pytesseract : option (image -> string -> Exc string);
  td3_code_checker : option (string -> Exc (option mrz_fields));
  spacy_model : Exc (option (string -> Exc (list (string * string))));
  dateparser_parse : string -> Exc (option string)
}.

Definition _get_images (e : env) : list image :=
  match load_images e with Ok images => images | Raise => [] end.

Definition mrz_ocr_config : string :=
  "--psm 6 -c tessedit_char_whitelist=ABCDEFGHIJKLMNOPQRSTUVWXYZ0123456789<".

Definition _ocr_image (e : env) (img : image) : option string :=
  match pytesseract e with
  | None => None
  | Some image_to_string =>
      match image_to_string img mrz_ocr_config with
      | Ok text => Some text
      | Raise => None
      end
  end.

(** *** [_find_mrz_lines] *)

(** The class [[A-Z0-9<]]. *)
Definition mrz_char (c : ascii) : bool :=
  PyStr.is_upper c || PyStr.is_digit c || bool_decide (c = "<"%char).

(** U+00AB and U+2039. *)
Definition double_guillemet : string := String "194" (String "171" "").
Definition single_guillemet : string :=
  String "226" (String "128" (String "185" "")).

(** The two assignments to [cleaned] at the head of the loop body. *)
Definition clean_line (line : string) : string :=
  PyStr.filter mrz_char
    (PyStr.replace single_guillemet "<"
       (PyStr.replace double_guillemet "<" (PyStr.replace " " "" line))).

Definition mrz_run (s : string) : bool :=
  PyStr.forallb mrz_char s
  && (40 <=? String.length s)%nat && (String.length s <=? 50)%nat.

(** [mrz_pattern.match(s)] for [^[A-Z0-9<]{40,50}$]: the dollar also
    matches in front of one final newline. *)
Definition mrz_pattern (s : string) : bool :=
  mrz_run s
  || match PyStr.rev s with
     | String "010" r => mrz_run (PyStr.rev r)
     | _ => false
     end.

(** The width adjustment applied to a candidate. *)
Definition normalize_mrz_line (cleaned : string) : string :=
  if (String.length cleaned <? 44)%nat
  then PyStr.app cleaned (PyStr.repeat "<" (44 - String.length cleaned))
  else if (44 <? String.length cleaned)%nat
  then PyStr.take 44 cleaned
  else cleaned.

Definition is_candidate (cleaned : string) : bool :=
  mrz_pattern cleaned
  && (42 <=? String.length cleaned)%nat && (String.length cleaned <=? 46)%nat.

Fixpoint candidates (lines : list string) : list string :=
  match lines with
  | [] => []
  | line :: rest =>
      let cleaned := clean_line line in
      if is_candidate cleaned
      then normalize_mrz_line cleaned :: candidates rest
      else candidates rest
  end.

Definition _find_mrz_lines (text : string) : option (string * string) :=
  match candidates (PyStr.split "010" (PyStr.upper text)) with
  | c0 :: c1 :: _ => Some (c0, c1)
  | _ => None
  end.

(** *** [_parse_mrz_date] *)

Definition _parse_mrz_date (e : env) (date_str : string) : option string :=
  if negb (PyStr.nonempty date_str) || (String.length date_str <? 6)%nat
  then None
  else
    match PyStr.int (PyStr.slice 0 2 date_str),
          PyStr.int (PyStr.slice 2 4 date_str),
          PyStr.int (PyStr.slice 4 6 date_str) with
    | Some yy, Some mm, Some dd =>
        let current_year := (now_year e mod 100)%Z in
        let year := (if yy >? current_year + 10 then 1900 + yy else 2000 + yy)%Z in
        Some (PyStr.app (PyStr.fmt_0d 4 year)
               (PyStr.app "-" (PyStr.app (PyStr.fmt_0d 2 mm)
                 (PyStr.app "-" (PyStr.fmt_0d 2 dd)))))
    | _, _, _ => None
    end.

(** *** [_parse_mrz_fields] *)

(** [x.title() if x else None]. *)
Definition title_or_none (o : option string) : option string :=
  match o with
  | Some s => if PyStr.nonempty s then Some (PyStr.title s) else None
  | None => None
  end.

(** The record constructor validates [sex]; the other arguments are
    strings or [None] and pass. *)
Definition _parse_mrz_fields (e : env) (fields : gmap string string)
    : Exc PassportData.t :=
  let get k := default "" (fields !! k) in
  let surname := PyStr.strip (PyStr.replace "<" " " (get "surname")) in
  let given_names := PyStr.strip (PyStr.replace "<" " " (get "name")) in
  let name_parts := PyStr.words given_names in
  let first_name := head name_parts in
  let middle_name :=
    if (1 <? length name_parts)%nat
    then Some (PyStr.join " " (tail name_parts)) else None in
  let sex := or_none (PyStr.upper (get "sex")) in
  if PassportData.valid_sex sex
  then Ok (PassportData.mk
         (title_or_none (Some surname))
         (title_or_none first_name)
         (title_or_none middle_name)
         (Some (PyStr.replace "<" "" (get "document_number")))
         (Some (default (get "country") (COUNTRY_CODES !! get "country")))
         (Some (default (get "nationality") (COUNTRY_CODES !! get "nationality")))
         (_parse_mrz_date e (get "birth_date"))
         None
         sex
         None
         (_parse_mrz_date e (get "expiry_date"))
         None None)
  else Raise.

(** *** [_extract_mrz] *)

(** [self._parse_mrz_fields(checker.fields())]: the first statement of
    [_parse_mrz_fields] is a call of [fields.get]. *)
Definition parse_checker_fields (e : env) (fields : mrz_fields)
    : Exc PassportData.t :=
  match fields with
  | fields_dict d => _parse_mrz_fields e d
  | fields_namedtuple _ => Raise
  end.

Fixpoint mrz_pages (e : env)
    (checker : string -> Exc (option mrz_fields))
    (images : list image) : option PassportData.t :=
  match images with
  | [] => None
  | img :: rest =>
      match _ocr_image e img with
      | None => mrz_pages e checker rest
      | Some text =>
          if negb (PyStr.nonempty text) then mrz_pages e checker rest
          else
            match _find_mrz_lines text with
            | None => mrz_pages e checker rest
            | Some (l0, l1) =>
                match catch
                        (result ← checker (PyStr.app l0 (PyStr.app (String "010" "") l1));
                         match result with
                         | Some fields => Some <$> parse_checker_fields e fields
                         | None => Ok None
                         end)
                        (Ok None) with
                | Ok (Some data) => Some data
                | _ => mrz_pages e checker rest
                end
            end
      end
  end.

Definition _extract_mrz (e : env) (images : list image) : option PassportData.t :=
  match td3_code_checker e with
  | None => None
  | Some checker => mrz_pages e checker images
  end.

(** *** [_extract_from_text] *)

Definition passport_number_patterns : list string := [
  "(?:passport\s*(?:no|number|#)?[:\s]*)([A-Z0-9]{6,12})";
  "\b([A-Z]{1,2}\d{6,9})\b";
  "\b(\d{9})\b"
].

Definition date_of_birth_patterns : list string := [
  "(?:date\s+of\s+birth|dob|birth\s*date)[:\s]*(\d{1,2}[-/]\d{1,2}[-/]\d{2,4})";
  "(?:date\s+of\s+birth|dob|birth\s*date)[:\s]*(\d{1,2}\s+[A-Za-z]+\s+\d{2,4})"
].

Definition sex_pattern : string := "(?:sex|gender)[:\s]*(M|F|MALE|FEMALE|X)".

Definition _normalize_date (e : env) (date_str : string) : string :=
  match dateparser_parse e date_str with
  | Ok (Some parsed) => parsed
  | Ok None => date_str
  | Raise => date_str
  end.

(** [parts[1:-1]]. *)
Definition inner_parts (parts : list string) : list string :=
  removelast (tail parts).

(** The entity block: the first [PERSON] entity of at least two words
    gives the first and last name, and the middle names when there are more
    than two words. *)
Definition apply_persons (persons : list string) (data : PassportData.t)
    : PassportData.t :=
  match persons with
  | [] => data
  | person :: _ =>
      let parts := PyStr.words person in
      if (2 <=? length parts)%nat
      then
        let data := PassportData.set_first_name (head parts) data in
        let data := PassportData.set_last_name (last parts) data in
        if (2 <? length parts)%nat
        then PassportData.set_middle_name
               (Some (PyStr.join " " (inner_parts parts))) data
        else data
      else data
  end.

Definition _extract_from_text (e : env) (text : string) : Exc PassportData.t :=
  let data := PassportData.empty in
  let data :=
    match first_match (re e) passport_number_patterns true text with
    | Some m => PassportData.set_passport_number (Some (PyStr.upper (group1 m))) data
    | None => data
    end in
  nlp ← spacy_model e;
  data ← match nlp with
         | Some model =>
             ents ← model (PyStr.take 2000 text);
             let persons :=
               (filter (fun ent => snd ent = "PERSON") ents).*1 in
             Ok (apply_persons persons data)
         | None => Ok data
         end;
  let data :=
    match first_match (re e) date_of_birth_patterns true text with
    | Some m => PassportData.set_date_of_birth
                  (Some (_normalize_date e (group1 m))) data
    | None => data
    end in
  let data :=
    match re_search (re e) sex_pattern true text with
    | Some m =>
        let sex := PyStr.upper (group1 m) in
        PassportData.set_sex
          (Some (if bool_decide (sex = "M" \/ sex = "MALE") then "M"
                 else if bool_decide (sex = "F" \/ sex = "FEMALE") then "F"
                 else "X")) data
    | None => data
    end in
  Ok data.

(** *** [_extract_via_ocr] *)

Definition ocr_config : string := "--psm 3".

(** The body of the loop, inside its [try]: [Ok (Some data)] is the
    [return data]. *)
Definition ocr_page (e : env) (image_to_string : image -> string -> Exc string)
    (img : image) : Exc (option PassportData.t) :=
  text ← image_to_string img ocr_config;
  if PyStr.nonempty text && (50 <=? PyStr.len text)%nat
  then
    data ← _extract_from_text e text;
    if truthy (PassportData.passport_number data)
       || truthy (PassportData.last_name data)
    then Ok (Some data) else Ok None
  else Ok None.

Fixpoint ocr_pages (e : env) (image_to_string : image -> string -> Exc string)
    (images : list image) : option PassportData.t :=
  match images with
  | [] => None
  | img :: rest =>
      match catch (ocr_page e image_to_string img) (Ok None) with
      | Ok (Some data) => Some data
      | _ => ocr_pages e image_to_string rest
      end
  end.

Definition _extract_via_ocr (e : env) (images : list image)
    : option PassportData.t :=
  match pytesseract e with
  | None => None
  | Some image_to_string => ocr_pages e image_to_string images
  end.

(** *** [extract] *)

(** The [if use_llm:] block with its [try]: [Some result] is the
    [return result]. *)
Definition try_llm (e : env) (use_llm : bool) : option PassportData.t :=
  if use_llm
  then
    match catch
            (if LLMPassportExtractor.is_llm_available (llm e)
             then
               result ← LLMPassportExtractor.extract (llm e);
               Ok (match result with
                   | Some r =>
                       if truthy (PassportData.passport_number r)
                          || truthy (PassportData.last_name r)
                       then Some r else None
                   | None => None
                   end)
             else Ok None)
            (Ok None) with
    | Ok r => r
    | Raise => None
    end
  else None.

Definition FAILED : PassportData.t :=
  PassportData.set_confidence_score (Some (0 # 1))
    (PassportData.set_extraction_method (Some "FAILED") PassportData.empty).

(** [mrz_data and mrz_data.passport_number]. *)
Definition accepted_mrz (e : env) (images : list image) : option PassportData.t :=
  match _extract_mrz e images with
  | Some mrz_data =>
      if truthy (PassportData.passport_number mrz_data) then Some mrz_data else None
  | None => None
  end.

(** The strategies after the vision model: MRZ, then OCR, then [FAILED]. *)
Definition extract_without_llm (e : env) : Exc PassportData.t :=
  let images := _get_images e in
  match accepted_mrz e images with
  | Some mrz_data =>
      Ok (PassportData.set_confidence_score (Some (95 # 100))
            (PassportData.set_extraction_method (Some "MRZ") mrz_data))
  | None =>
      match _extract_via_ocr e images with
      | Some ocr_data =>
          Ok (PassportData.set_confidence_score (Some (7 # 10))
                (PassportData.set_extraction_method (Some "OCR+NLP") ocr_data))
      | None => Ok FAILED
      end
  end.

Definition extract (e : env) (use_llm : bool) : Exc PassportData.t :=
  match try_llm e use_llm with
  | Some result => Ok result
  | None => extract_without_llm e
  end.

End PassportExtractor.

(** ** [extractors/g28_extractor.py] *)

Module G28Extractor.

(** - [suffix]: [file_path.suffix];
    - [pdf_widgets]: the name and value of every form widget, in page
      order, as read through [fitz]; [Raise] when the import, the opening
      of the document or the reading fails;
    - [load_images], [pytesseract]: as for the passport extractor. *)
Record env := {
  re : regex;
  suffix : string;
  pdf_widgets : Exc (list (option string * option string));
  load_images : Exc (list image);
  pytesseract : option (image -> string -> Exc string)
}.

(** *** [_calculate_confidence] *)

Definition required : list AttorneyData.attr :=
  [AttorneyData.a_last_name; AttorneyData.a_first_name].
Definition important : list AttorneyData.attr :=
  [AttorneyData.a_street_address; AttorneyData.a_city;
   AttorneyData.a_state; AttorneyData.a_email].

(** [sum(1 for f in fields if getattr(data, f))]. *)
Definition present (fields : list AttorneyData.attr) (data : AttorneyData.t) : nat :=
  length (filter (fun f => truthy (AttorneyData.getattr f data) = true) fields).

(** The score is kept in lowest terms, the rational counterpart of a
    floating-point value having one representation. *)
Definition _calculate_confidence (data : AttorneyData.t) : Q :=
  let req_score :=
    (inject_Z (Z.of_nat (present required data))
     / inject_Z (Z.of_nat (length required)) * (5 # 10))%Q in
  let imp_score :=
    (inject_Z (Z.of_nat (present important data))
     / inject_Z (Z.of_nat (length important)) * (5 # 10))%Q in
  let total := (req_score + imp_score)%Q in
  Qred (if Qle_bool 1 total then 1 else total)%Q.

(** [score > 0.3]. *)
Definition above_threshold (score : Q) : bool := negb (Qle_bool score (3 # 10)).

(** *** [_extract_pdf_form_fields] *)

(** The dictionary filled from the widgets: each value under the field
    name and under its lower-cased form. *)
Definition add_widget (form_fields : gmap string string)
    (widget : option string * option string) : gmap string string :=
  match widget with
  | (Some field_name, Some field_value) =>
      if PyStr.nonempty field_name && PyStr.nonempty field_value
      then <[PyStr.lower field_name := field_value]>
             (<[field_name := field_value]> form_fields)
      else form_fields
  | _ => form_fields
  end.

Definition read_form_fields (widgets : list (option string * option string))
    : gmap string string :=
  fold_left add_widget widgets ∅.

(** [value and value.strip() and value.strip().upper() != 'N/A']. *)
Definition usable (value : string) : bool :=
  PyStr.nonempty value && PyStr.nonempty (PyStr.strip value)
  && negb (bool_decide (PyStr.upper (PyStr.strip value) = "N/A")).

(** [for key in [name, name.lower()]]: the first key that holds a usable
    value ends the loop. *)
Fixpoint first_usable (form_fields : gmap string string) (keys : list string)
    : option string :=
  match keys with
  | [] => None
  | key :: rest =>
      match form_fields !! key with
      | Some value =>
          if usable value then Some (PyStr.strip value)
          else first_usable form_fields rest
      | None => first_usable form_fields rest
      end
  end.

(** One entry of a mapping table: the attribute, as its setter, and the
    field names that may hold it. *)
Definition apply_entry {T} (form_fields : gmap string string)
    (data : T) (entry : (option string -> T -> T) * list string) : T :=
  fold_left
    (fun d name =>
       match first_usable form_fields [name; PyStr.lower name] with
       | Some v => entry.1 (Some v) d
       | None => d
       end)
    entry.2 data.

Definition apply_mappings {T} (form_fields : gmap string string)
    (table : list ((option string -> T -> T) * list string)) (data : T) : T :=
  fold_left (apply_entry form_fields) table data.

Definition mappings
    : list ((option string -> AttorneyData.t -> AttorneyData.t) * list string) := [
  (AttorneyData.setattr AttorneyData.a_last_name, ["Pt1Line2a_FamilyName[0]"]);
  (AttorneyData.setattr AttorneyData.a_first_name, ["Pt1Line2b_GivenName[0]"]);
  (AttorneyData.setattr AttorneyData.a_middle_name, ["Pt1Line2c_MiddleName[0]"]);
  (AttorneyData.setattr AttorneyData.a_street_address, ["Line3a_StreetNumber[0]"]);
  (AttorneyData.setattr AttorneyData.a_apt_ste_flr, ["Line3b_AptSteFlrNumber[0]"]);
  (AttorneyData.setattr AttorneyData.a_city, ["Line3c_CityOrTown[0]"]);
  (AttorneyData.setattr AttorneyData.a_state, ["Line3d_State[0]"]);
  (AttorneyData.setattr AttorneyData.a_zip_code, ["Line3e_ZipCode[0]"]);
  (AttorneyData.setattr AttorneyData.a_country, ["Line3h_Country[0]"]);
  (AttorneyData.setattr AttorneyData.a_daytime_phone, ["Line4_DaytimeTelephoneNumber[0]"]);
  (AttorneyData.setattr AttorneyData.a_mobile_phone, ["Line7_MobileTelephoneNumber[0]"]);
  (AttorneyData.setattr AttorneyData.a_email, ["Line6_EMail[0]"]);
  (AttorneyData.setattr AttorneyData.a_bar_number, ["Pt2Line1b_BarNumber[0]"]);
  (AttorneyData.setattr AttorneyData.a_licensing_authority, ["Pt2Line1a_LicensingAuthority[0]"]);
  (AttorneyData.setattr AttorneyData.a_law_firm_name, ["Pt2Line1d_NameofFirmOrOrganization[0]"])
].

Definition beneficiary_mappings
    : list ((option string -> PassportData.t -> PassportData.t) * list string) := [
  (PassportData.set_last_name, ["Pt3Line5a_FamilyName[0]"]);
  (PassportData.set_first_name, ["Pt3Line5b_GivenName[0]"]);
  (PassportData.set_middle_name, ["Pt3Line5c_MiddleName[0]"])
].

(** The block under [#email in wrong field]. *)
Definition repair_email (data : AttorneyData.t) : AttorneyData.t :=
  match AttorneyData.mobile_phone data with
  | Some phone =>
      if PyStr.nonempty phone && PyStr.contains "@" phone
      then
        let data :=
          if negb (truthy (AttorneyData.email data))
          then AttorneyData.setattr AttorneyData.a_email (Some phone) data
          else data in
        AttorneyData.setattr AttorneyData.a_mobile_phone None data
      else data
  | None => data
  end.

Definition tag_beneficiary (beneficiary : PassportData.t) : option PassportData.t :=
  if truthy (PassportData.last_name beneficiary)
     || truthy (PassportData.first_name beneficiary)
  then Some (PassportData.set_confidence_score (Some (5 # 10))
               (PassportData.set_extraction_method (Some "G28_BENEFICIARY")
                  beneficiary))
  else None.

(** What the function computes from a non-empty dictionary. *)
Definition from_form_fields (form_fields : gmap string string)
    : AttorneyData.t * option PassportData.t :=
  let data := apply_mappings form_fields mappings AttorneyData.empty in
  let data := repair_email data in
  let beneficiary :=
    tag_beneficiary (apply_mappings form_fields beneficiary_mappings PassportData.empty) in
  (AttorneyData.set_confidence_score (Some (_calculate_confidence data)) data,
   beneficiary).

Definition _extract_pdf_form_fields (e : env)
    : option AttorneyData.t * option PassportData.t :=
  match pdf_widgets e with
  | Raise => (None, None)
  | Ok widgets =>
      let form_fields := read_form_fields widgets in
      if bool_decide (form_fields = ∅) then (None, None)
      else
        let r := from_form_fields form_fields in
        (Some r.1, r.2)
  end.

Definition _get_images (e : env) : list image :=
  match load_images e with Ok images => images | Raise => [] end.

Definition ocr_config : string := "--psm 3".

Definition _ocr_image (e : env) (img : image) : option string :=
  match pytesseract e with
  | None => None
  | Some image_to_string =>
      match image_to_string img ocr_config with
      | Ok text => Some text
      | Raise => None
      end
  end.

(** *** [_extract_from_text] *)

Definition name_patterns : list (string * AttorneyData.attr) := [
  ("(?:Family\s*Name|Last\s*Name)[^A-Za-z]*([A-Za-z][A-Za-z\-\']+)", AttorneyData.a_last_name);
  ("(?:Given\s*Name|First\s*Name)[^A-Za-z]*([A-Za-z][A-Za-z\-\']+)", AttorneyData.a_first_name);
  ("(?:Middle\s*Name)[^A-Za-z]*([A-Za-z][A-Za-z\-\']*)", AttorneyData.a_middle_name)
].

Definition label_words : list string :=
  ["name"; "last"; "first"; "given"; "family"; "middle"].

Definition apply_name_pattern (re : regex) (text : string)
    (data : AttorneyData.t) (entry : string * AttorneyData.attr) : AttorneyData.t :=
  if negb (truthy (AttorneyData.getattr entry.2 data))
  then
    match re_search re entry.1 true text with
    | Some m =>
        let value := PyStr.strip (group1 m) in
        if bool_decide (PyStr.lower value ∈ label_words) then data
        else AttorneyData.setattr entry.2 (Some (PyStr.title value)) data
    | None => data
    end
  else data.

Definition street_pattern : string := "(?:Street|Address)[^A-Za-z0-9]*(\d+[^,\n]{5,50})".
Definition city_pattern : string := "(?:City|Town)[^A-Za-z]*([A-Z][A-Za-z\s]{2,30}?)(?:,|\s+[A-Z]{2}\s)".
Definition state_pattern : string := "(?:State)[^A-Za-z]*([A-Z]{2})\b".
Definition zip_pattern : string := "(?:ZIP|Postal)[^0-9]*(\d{5}(?:-\d{4})?)".
Definition email_pattern : string := "\b[A-Za-z0-9._%+-]+@[A-Za-z0-9.-]+\.[A-Z|a-z]{2,}\b".
Definition bar_pattern : string := "(?:Bar\s*Number)[^A-Za-z0-9]*([A-Z0-9]{4,12})".
Definition licensing_pattern : string := "(?:Licensing\s*Authority)[^A-Za-z]*([A-Za-z][A-Za-z\s]+?)(?:,|\.)".
Definition firm_pattern : string := "(?:Law\s*Firm|Organization)[^A-Za-z]*([A-Za-z][^,\n]{5,60})".

(** [if match: data.attr = f(match)]. *)
Definition set_from_match (m : option re_match) (a : AttorneyData.attr)
    (f : re_match -> option string) (data : AttorneyData.t) : AttorneyData.t :=
  match m with
  | Some m => AttorneyData.setattr a (f m) data
  | None => data
  end.

(** The closing rule of the function: a state without a country means the
    United States. *)
Definition infer_country (data : AttorneyData.t) : AttorneyData.t :=
  if negb (truthy (AttorneyData.country data)) && truthy (AttorneyData.state data)
  then AttorneyData.setattr AttorneyData.a_country (Some "United States") data
  else data.

Definition _extract_from_text (re : regex) (text : string) : AttorneyData.t :=
  let data := fold_left (apply_name_pattern re text) name_patterns AttorneyData.empty in
  let data :=
    set_from_match (re_search re street_pattern true text)
      AttorneyData.a_street_address
      (fun m => Some (PyStr.take 100 (re_sub re "\s+" " " (PyStr.strip (group1 m)))))
      data in
  let data :=
    set_from_match (re_search re city_pattern false text)
      AttorneyData.a_city
      (fun m => Some (re_sub re "\s+[A-Z]{2}$" "" (PyStr.strip (group1 m))))
      data in
  let data :=
    set_from_match (re_search re state_pattern false text)
      AttorneyData.a_state
      (fun m => normalize_state (Some (group1 m)))
      data in
  let data :=
    set_from_match (re_search re zip_pattern true text)
      AttorneyData.a_zip_code (fun m => Some (group1 m)) data in
  let data :=
    set_from_match (re_search re email_pattern false text)
      AttorneyData.a_email (fun m => Some (PyStr.lower (group0 m))) data in
  let data :=
    set_from_match (re_search re bar_pattern true text)
      AttorneyData.a_bar_number (fun m => Some (group1 m)) data in
  let data :=
    set_from_match (re_search re licensing_pattern true text)
      AttorneyData.a_licensing_authority
      (fun m => Some (PyStr.title (PyStr.strip (group1 m)))) data in
  let data :=
    set_from_match (re_search re firm_pattern true text)
      AttorneyData.a_law_firm_name
      (fun m => Some (re_sub re "\s+" " " (PyStr.strip (group1 m)))) data in
  infer_country data.

(** *** [extract] *)

Definition FAILED : AttorneyData.t :=
  AttorneyData.set_confidence_score (Some (0 # 1))
    (AttorneyData.set_extraction_method (Some "FAILED") AttorneyData.empty).

(** The [if file_path.suffix.lower() == ".pdf":] block: [Some] is its
    [return]. *)
Definition try_pdf_form_fields (e : env)
    : option (AttorneyData.t * option PassportData.t) :=
  if bool_decide (PyStr.lower (suffix e) = ".pdf")
  then
    match _extract_pdf_form_fields e with
    | (Some form_data, beneficiary) =>
        if above_threshold (_calculate_confidence form_data)
        then Some (AttorneyData.set_extraction_method (Some "PDF_FORM_FIELDS") form_data,
                   beneficiary)
        else None
    | (None, _) => None
    end
  else None.

(** The loop that gathers the text of all pages. *)
Definition ocr_full_text (e : env) (images : list image) : string :=
  fold_left
    (fun full_text img =>
       match _ocr_image e img with
       | Some text =>
           if PyStr.nonempty text
           then PyStr.app full_text (PyStr.app text (String "010" ""))
           else full_text
       | None => full_text
       end)
    images "".

(** The OCR fallback and the final [FAILED] record. *)
Definition extract_via_ocr (e : env) : Exc (AttorneyData.t * option PassportData.t) :=
  let full_text := ocr_full_text e (_get_images e) in
  if PyStr.nonempty full_text
  then
    let data := _extract_from_text (re e) full_text in
    let data := AttorneyData.set_extraction_method (Some "OCR+NLP") data in
    Ok (AttorneyData.set_confidence_score (Some (_calculate_confidence data)) data,
        None)
  else Ok (FAILED, None).

Definition extract (e : env) : Exc (AttorneyData.t * option PassportData.t) :=
  match try_pdf_form_fields e with
  | Some r => Ok r
  | None => extract_via_ocr e
  end.

End G28Extractor.

(** ** [app.py]: the session store and the merge of [upload_g28] *)

Module App.

Record ExtractedFormData := {
  passport : option PassportData.t;
  attorney : option AttorneyData.t
}.

(** [if not existing.f: existing.f = beneficiary_data.f]. *)
Definition fill (existing beneficiary : option string) : option string :=
  if negb (truthy existing) then beneficiary else existing.

(** The three guarded assignments on the stored passport record. *)
Definition merge_names (existing beneficiary_data : PassportData.t) : PassportData.t :=
  let existing :=
    PassportData.set_last_name
      (fill (PassportData.last_name existing) (PassportData.last_name beneficiary_data))
      existing in
  let existing :=
    PassportData.set_first_name
      (fill (PassportData.first_name existing) (PassportData.first_name beneficiary_data))
      existing in
  PassportData.set_middle_name
    (fill (PassportData.middle_name existing) (PassportData.middle_name beneficiary_data))
    existing.

(** The block under [# Merge beneficiary data into passport section]. *)
Definition merge_beneficiary (stored : option PassportData.t)
    (beneficiary_data : option PassportData.t) : option PassportData.t :=
  match beneficiary_data with
  | Some b =>
      match stored with
      | Some existing => Some (merge_names existing b)
      | None => Some b
      end
  | None => stored
  end.

(** The effect of [upload_g28] on [extraction_store], once the extractor
    has answered. *)
Definition store_g28 (session_id : string)
    (attorney_data : AttorneyData.t) (beneficiary_data : option PassportData.t)
    (extraction_store : gmap string ExtractedFormData)
    : gmap string ExtractedFormData :=
  let entry := default {| passport := None; attorney := None |}
                       (extraction_store !! session_id) in
  <[session_id :=
      {| passport := merge_beneficiary (passport entry) beneficiary_data;
         attorney := Some attorney_data |}]> extraction_store.

End App.

(** ** [app.py]: the endpoints *)

Module Endpoints.

(** What an endpoint answers.  [HTTPException] carries the status code and
    the literal detail text; the detail of a 500, which is the text of the
    exception caught, is left out. *)
Inductive response :=
| ExtractionResponse (message : string) (session_id : string)
    (data : App.ExtractedFormData)
| Deleted
| HTTPException (status_code : nat) (detail : option string).

(** One upload request:
    - [filename_suffix]: [Path(file.filename or "").suffix];
    - [session_id]: the query parameter, when given;
    - [fresh_session_id]: what [generate_session_id()] answers;
    - [save_file]: reading the upload and writing it to the upload folder;
    - [remove_file]: [file_path.unlink(missing_ok=True)]. *)
Record request := {
  filename_suffix : string;
  session_id : option string;
  fresh_session_id : string;
  save_file : Exc unit;
  remove_file : Exc unit
}.

Definition allowed_extensions : list string := [".pdf"; ".jpg"; ".jpeg"; ".png"].

Definition unsupported : response :=
  HTTPException 400 (Some "Unsupported file type. Use PDF, JPEG, or PNG.").

Definition not_found : response := HTTPException 404 (Some "Session not found").

(** [if not session_id: session_id = generate_session_id()]. *)
Definition session_of (rq : request) : string :=
  match session_id rq with
  | Some sid => if PyStr.nonempty sid then sid else fresh_session_id rq
  | None => fresh_session_id rq
  end.

(** [f"... ({data.extraction_method})"]. *)
Definition extracted_message (what : string) (method : option string) : string :=
  PyStr.app what (PyStr.app " extracted (" (PyStr.app (default "None" method) ")")).

Definition empty_entry : App.ExtractedFormData :=
  {| App.passport := None; App.attorney := None |}.

(** The three statements that store a passport record. *)
Definition store_passport (sid : string) (passport_data : PassportData.t)
    (extraction_store : gmap string App.ExtractedFormData)
    : gmap string App.ExtractedFormData :=
  let entry := default empty_entry (extraction_store !! sid) in
  <[sid := {| App.passport := Some passport_data;
              App.attorney := App.attorney entry |}]> extraction_store.

Definition upload_passport (e : PassportExtractor.env) (rq : request)
    (extraction_store : gmap string App.ExtractedFormData)
    : response * gmap string App.ExtractedFormData :=
  let ext := PyStr.lower (filename_suffix rq) in
  if negb (bool_decide (ext ∈ allowed_extensions)) then (unsupported, extraction_store)
  else
    let sid := session_of rq in
    match save_file rq with
    | Raise => (HTTPException 500 None, extraction_store)
    | Ok _ =>
        match PassportExtractor.extract e true with
        | Raise => (HTTPException 500 None, extraction_store)
        | Ok passport_data =>
            let st := store_passport sid passport_data extraction_store in
            match remove_file rq with
            | Raise => (HTTPException 500 None, st)
            | Ok _ =>
                (ExtractionResponse
                   (extracted_message "Passport"
                      (PassportData.extraction_method passport_data))
                   sid (default empty_entry (st !! sid)),
                 st)
            end
        end
    end.

(** The extractor is handed the path [g28_<session><ext>], whose suffix is
    [ext]. *)
Definition g28_env (ext : string) (e : G28Extractor.env) : G28Extractor.env := {|
  G28Extractor.re := G28Extractor.re e;
  G28Extractor.suffix := ext;
  G28Extractor.pdf_widgets := G28Extractor.pdf_widgets e;
  G28Extractor.load_images := G28Extractor.load_images e;
  G28Extractor.pytesseract := G28Extractor.pytesseract e
|}.

Definition upload_g28 (e : G28Extractor.env) (rq : request)
    (extraction_store : gmap string App.ExtractedFormData)
    : response * gmap string App.ExtractedFormData :=
  let ext := PyStr.lower (filename_suffix rq) in
  if negb (bool_decide (ext ∈ allowed_extensions)) then (unsupported, extraction_store)
  else
    let sid := session_of rq in
    match save_file rq with
    | Raise => (HTTPException 500 None, extraction_store)
    | Ok _ =>
        match G28Extractor.extract (g28_env ext e) with
        | Raise => (HTTPException 500 None, extraction_store)
        | Ok (attorney_data, beneficiary_data) =>
            let st := App.store_g28 sid attorney_data beneficiary_data extraction_store in
            match remove_file rq with
            | Raise => (HTTPException 500 None, st)
            | Ok _ =>
                (ExtractionResponse
                   (extracted_message "G-28"
                      (AttorneyData.extraction_method attorney_data))
                   sid (default empty_entry (st !! sid)),
                 st)
            end
        end
    end.

Definition get_extraction (sid : string)
    (extraction_store : gmap string App.ExtractedFormData) : response :=
  match extraction_store !! sid with
  | None => not_found
  | Some data => ExtractionResponse "Data retrieved" sid data
  end.

Definition delete_session (sid : string)
    (extraction_store : gmap string App.ExtractedFormData)
    : response * gmap string App.ExtractedFormData :=
  match extraction_store !! sid with
  | Some _ => (Deleted, delete sid extraction_store)
  | None => (not_found, extraction_store)
  end.

(** The two checks that [fill_form] makes before it starts the browser:
    [None] when both pass. *)
Definition fill_form_refusal (sid : string)
    (extraction_store : gmap string App.ExtractedFormData) : option response :=
  match extraction_store !! sid with
  | None => Some not_found
  | Some data =>
      match App.passport data, App.attorney data with
      | None, None => Some (HTTPException 400 (Some "No data available"))
      | _, _ => None
      end
  end.

End Endpoints.

(** ** [form_filler.py]: the two normalizers *)

Definition STATE_CODES : gmap string string := list_to_map [
  ("alabama", "AL"); ("alaska", "AK"); ("arizona", "AZ"); ("arkansas", "AR");
  ("california", "CA"); ("colorado", "CO"); ("connecticut", "CT"); ("delaware", "DE");
  ("district of columbia", "DC"); ("florida", "FL"); ("georgia", "GA"); ("hawaii", "HI");
  ("idaho", "ID"); ("illinois", "IL"); ("indiana", "IN"); ("iowa", "IA");
  ("kansas", "KS"); ("kentucky", "KY"); ("louisiana", "LA"); ("maine", "ME");
  ("maryland", "MD"); ("massachusetts", "MA"); ("michigan", "MI"); ("minnesota", "MN");
  ("mississippi", "MS"); ("missouri", "MO"); ("montana", "MT"); ("nebraska", "NE");
  ("nevada", "NV"); ("new hampshire", "NH"); ("new jersey", "NJ"); ("new mexico", "NM");
  ("new york", "NY"); ("north carolina", "NC"); ("north dakota", "ND"); ("ohio", "OH");
  ("oklahoma", "OK"); ("oregon", "OR"); ("pennsylvania", "PA"); ("rhode island", "RI");
  ("south carolina", "SC"); ("south dakota", "SD"); ("tennessee", "TN"); ("texas", "TX");
  ("utah", "UT"); ("vermont", "VT"); ("virginia", "VA"); ("washington", "WA");
  ("west virginia", "WV"); ("wisconsin", "WI"); ("wyoming", "WY")
].

Module FormFiller.

(** [_normalize_state_code]. *)
Definition _normalize_state_code (state : string) : string :=
  if (String.length state =? 2)%nat then PyStr.upper state
  else default (PyStr.take 2 (PyStr.upper state)) (STATE_CODES !! PyStr.lower state).

(** [date_str[i] == c], for an index within the string. *)
Definition char_at (i : nat) (c : ascii) (s : string) : bool :=
  match String.get i s with
  | Some d => bool_decide (d = c)
  | None => false
  end.

(** [_normalize_date]; [dateparser_parse] is [dateparser.parse] followed by
    [strftime], [Raise] covering a failed import. *)
Definition _normalize_date (dateparser_parse : string -> Exc (option string))
    (date_str : string) : string :=
  if negb (PyStr.nonempty date_str) then ""
  else if (String.length date_str =? 10)%nat
          && char_at 4 "-" date_str && char_at 7 "-" date_str
  then date_str
  else
    match dateparser_parse date_str with
    | Ok (Some parsed) => parsed
    | Ok None => date_str
    | Raise => date_str
    end.

End FormFiller.

(** * Properties *)

(** ** Records *)

Lemma getattr_setattr (a b : AttorneyData.attr) v d :
  AttorneyData.getattr b (AttorneyData.setattr a v d)
  = if bool_decide (a = b) then v else AttorneyData.getattr b d.
Proof. destruct a, b; reflexivity. Qed.

Lemma getattr_setattr_ne (a b : AttorneyData.attr) v d :
  a <> b ->
  AttorneyData.getattr b (AttorneyData.setattr a v d) = AttorneyData.getattr b d.
Proof. intros H. rewrite getattr_setattr. by rewrite bool_decide_eq_false_2. Qed.

Lemma provenance_setattr a v d :
  AttorneyData.extraction_method (AttorneyData.setattr a v d)
    = AttorneyData.extraction_method d
  /\ AttorneyData.confidence_score (AttorneyData.setattr a v d)
    = AttorneyData.confidence_score d.
Proof. split; reflexivity. Qed.

Lemma truthy_Some_nonempty s : s <> "" -> truthy (Some s) = true.
Proof. destruct s; [congruence | reflexivity]. Qed.

Lemma truthy_is_Some o : truthy o = true -> exists s, o = Some s /\ s <> "".
Proof. destruct o as [[|c s]|]; try discriminate. intros _. by eexists. Qed.

(** ** The merge of beneficiary names (C2) *)

Lemma fill_populated existing beneficiary :
  truthy existing = true -> App.fill existing beneficiary = existing.
Proof. unfold App.fill. by intros ->. Qed.

Lemma fill_unset existing beneficiary :
  truthy existing = false -> App.fill existing beneficiary = beneficiary.
Proof. unfold App.fill. by intros ->. Qed.

Lemma fill_changed existing beneficiary :
  App.fill existing beneficiary <> existing ->
  truthy existing = false /\ App.fill existing beneficiary = beneficiary.
Proof.
  unfold App.fill. destruct (truthy existing); simpl; [congruence | done].
Qed.

(** What the merge does to one name field: [e] before, [b] offered by the
    beneficiary record, [m] after.  A field counts as populated when it
    passes the test of the code, [if not existing.f], that is when it holds
    a non-empty string. *)
Definition gap_filled (e b m : option string) : Prop :=
  (truthy e = true -> m = e)
  /\ (truthy e = false -> m = b)
  /\ (e = None -> m = b)
  /\ (m <> e -> truthy e = false /\ m = b).

Lemma fill_gap_filled e b : gap_filled e b (App.fill e b).
Proof.
  unfold gap_filled. split; [|split; [|split]].
  - apply fill_populated.
  - apply fill_unset.
  - intros ->. reflexivity.
  - apply fill_changed.
Qed.

(** The fields of a passport record that the merge must leave alone. *)
Definition same_other_fields (x y : PassportData.t) : Prop :=
  PassportData.passport_number x = PassportData.passport_number y
  /\ PassportData.country_of_issue x = PassportData.country_of_issue y
  /\ PassportData.nationality x = PassportData.nationality y
  /\ PassportData.date_of_birth x = PassportData.date_of_birth y
  /\ PassportData.place_of_birth x = PassportData.place_of_birth y
  /\ PassportData.sex x = PassportData.sex y
  /\ PassportData.date_of_issue x = PassportData.date_of_issue y
  /\ PassportData.date_of_expiration x = PassportData.date_of_expiration y
  /\ PassportData.extraction_method x = PassportData.extraction_method y
  /\ PassportData.confidence_score x = PassportData.confidence_score y.

(** C2.  Cross-document merge policy.  When [upload_g28] receives a
    beneficiary record [b] for a session:
    - if the session already holds a passport record [existing], the stored
      record becomes [merge_names existing b]: each of last, first and
      middle name keeps its value when populated and takes the
      beneficiary's value only when unset (so a change of a name field
      implies that it was unset), and every other field, provenance
      included, is the one of [existing];
    - if the session holds no passport record (or does not exist yet), [b]
      is stored as it is;
    - the attorney record is stored and no other session is touched. *)
Theorem merge_policy (existing b : PassportData.t) (att : AttorneyData.t)
    (sid : string) (st : gmap string App.ExtractedFormData) :
  let merged := App.merge_names existing b in
  gap_filled (PassportData.last_name existing) (PassportData.last_name b)
             (PassportData.last_name merged)
  /\ gap_filled (PassportData.first_name existing) (PassportData.first_name b)
                (PassportData.first_name merged)
  /\ gap_filled (PassportData.middle_name existing) (PassportData.middle_name b)
                (PassportData.middle_name merged)
  /\ same_other_fields merged existing
  /\ (forall entry, st !! sid = Some entry ->
        App.passport entry = Some existing ->
        App.store_g28 sid att (Some b) st !! sid
        = Some {| App.passport := Some merged; App.attorney := Some att |})
  /\ (forall entry, st !! sid = Some entry ->
        App.passport entry = None ->
        App.store_g28 sid att (Some b) st !! sid
        = Some {| App.passport := Some b; App.attorney := Some att |})
  /\ (st !! sid = None ->
        App.store_g28 sid att (Some b) st !! sid
        = Some {| App.passport := Some b; App.attorney := Some att |})
  /\ (forall sid', sid' <> sid ->
        App.store_g28 sid att (Some b) st !! sid' = st !! sid').
Proof.
  intros merged. subst merged. unfold App.merge_names. simpl.
  split; [apply fill_gap_filled|].
  split; [apply fill_gap_filled|].
  split; [apply fill_gap_filled|].
  split; [repeat split|].
  unfold App.store_g28.
  split; [|split; [|split]].
  - intros entry Hs Hp. rewrite lookup_insert_eq, Hs. simpl. by rewrite Hp.
  - intros entry Hs Hp. rewrite lookup_insert_eq, Hs. simpl. by rewrite Hp.
  - intros Hs. rewrite lookup_insert_eq, Hs. reflexivity.
  - intros sid' Hne. by rewrite lookup_insert_ne.
Qed.

(** The example of the design document: a stored record with first name
    Ana and no last name, a beneficiary record Maria Silva. *)
Definition record_ana : PassportData.t :=
  PassportData.mk None (Some "Ana") None (Some "X1234567") None None None None
    None None None (Some "MRZ") (Some (95 # 100)).
Definition record_maria : PassportData.t :=
  PassportData.mk (Some "Silva") (Some "Maria") None None None None None None
    None None None (Some "G28_BENEFICIARY") (Some (5 # 10)).

Lemma merge_policy_witness :
  App.merge_names record_ana record_maria
  = PassportData.mk (Some "Silva") (Some "Ana") None (Some "X1234567") None
      None None None None None None (Some "MRZ") (Some (95 # 100))
  /\ App.store_g28 "s1" AttorneyData.empty (Some record_maria)
       {["s1" := {| App.passport := Some record_ana; App.attorney := None |}]}
     !! "s1"
     = Some {| App.passport := Some (App.merge_names record_ana record_maria);
               App.attorney := Some AttorneyData.empty |}.
Proof.
  split; [reflexivity|].
  eapply (merge_policy record_ana record_maria AttorneyData.empty "s1").
  - apply lookup_singleton_eq.
  - reflexivity.
Defined.

(** ** State normalization and its use by the text extractor (C10) *)

Lemma US_STATES_values_nonempty k v : US_STATES !! k = Some v -> v <> "".
Proof.
  assert (H : map_Forall (fun _ v => v <> "") US_STATES).
  { apply (bool_decide_unpack _). vm_compute. exact I. }
  intros Hk. exact (H k v Hk).
Qed.

Lemma US_STATES_no_ZZ k : US_STATES !! k <> Some "ZZ".
Proof.
  assert (H : map_Forall (fun _ v => v <> "ZZ") US_STATES).
  { apply (bool_decide_unpack _). vm_compute. exact I. }
  intros Hk. exact (H k _ Hk eq_refl).
Qed.

Lemma take_upper_nonempty s : s <> "" -> PyStr.take 2 (PyStr.upper s) <> "".
Proof. destruct s; [congruence | discriminate]. Qed.

Lemma normalize_state_nonempty s :
  s <> "" -> exists code, normalize_state (Some s) = Some code /\ code <> "".
Proof.
  intros Hs. unfold normalize_state.
  destruct s as [|c s]; [congruence|]. simpl PyStr.nonempty. cbv iota.
  destruct (US_STATES !! _) as [code|] eqn:Hk; simpl.
  - exists code. split; [reflexivity | by eapply US_STATES_values_nonempty].
  - eexists. split; [reflexivity | discriminate].
Qed.

Lemma getattr_set_from_match_ne m a f d b :
  a <> b ->
  AttorneyData.getattr b (G28Extractor.set_from_match m a f d)
  = AttorneyData.getattr b d.
Proof.
  intros H. destruct m; simpl; [by apply getattr_setattr_ne | reflexivity].
Qed.

Lemma getattr_name_pattern_ne re text d entry b :
  entry.2 <> b ->
  AttorneyData.getattr b (G28Extractor.apply_name_pattern re text d entry)
  = AttorneyData.getattr b d.
Proof.
  intros H. unfold G28Extractor.apply_name_pattern.
  destruct (negb _); [|reflexivity].
  destruct (re_search _ _ _ _); [|reflexivity].
  case_bool_decide; [reflexivity | by apply getattr_setattr_ne].
Qed.

Lemma getattr_name_patterns_ne re text b d :
  b <> AttorneyData.a_last_name -> b <> AttorneyData.a_first_name ->
  b <> AttorneyData.a_middle_name ->
  AttorneyData.getattr b
    (fold_left (G28Extractor.apply_name_pattern re text)
               G28Extractor.name_patterns d)
  = AttorneyData.getattr b d.
Proof.
  intros H1 H2 H3. simpl.
  rewrite !getattr_name_pattern_ne; simpl; congruence.
Qed.

Lemma getattr_infer_country_ne d b :
  b <> AttorneyData.a_country ->
  AttorneyData.getattr b (G28Extractor.infer_country d) = AttorneyData.getattr b d.
Proof.
  intros H. unfold G28Extractor.infer_country.
  destruct (_ && _); [by apply getattr_setattr_ne | reflexivity].
Qed.

Lemma set_from_match_Some m a f d :
  G28Extractor.set_from_match (Some m) a f d = AttorneyData.setattr a (f m) d.
Proof. reflexivity. Qed.

Lemma set_from_match_None a f d : G28Extractor.set_from_match None a f d = d.
Proof. reflexivity. Qed.

(** The state and the country that the text extractor of the G-28 reports,
    and the mobile phone, which it never fills. *)
Lemma text_state re text :
  AttorneyData.state (G28Extractor._extract_from_text re text)
  = match re_search re G28Extractor.state_pattern false text with
    | Some m => normalize_state (Some (group1 m))
    | None => None
    end.
Proof.
  change (AttorneyData.state ?d) with (AttorneyData.getattr AttorneyData.a_state d).
  unfold G28Extractor._extract_from_text. cbv zeta.
  rewrite getattr_infer_country_ne by discriminate.
  rewrite !getattr_set_from_match_ne by discriminate.
  destruct (re_search re G28Extractor.state_pattern false text).
  - rewrite set_from_match_Some.
    by rewrite getattr_setattr, bool_decide_eq_true_2.
  - rewrite set_from_match_None.
    rewrite !getattr_set_from_match_ne by discriminate.
    by rewrite getattr_name_patterns_ne.
Qed.

Lemma infer_country_unset d :
  AttorneyData.country d = None ->
  AttorneyData.country (G28Extractor.infer_country d)
  = if truthy (AttorneyData.state d) then Some "United States" else None.
Proof.
  intros Hc. unfold G28Extractor.infer_country. rewrite Hc.
  change (negb (truthy None)) with true. rewrite andb_true_l.
  destruct (truthy (AttorneyData.state d)); [|exact Hc].
  change (AttorneyData.country ?d) with (AttorneyData.getattr AttorneyData.a_country d).
  by rewrite getattr_setattr, bool_decide_eq_true_2.
Qed.

Lemma infer_country_state d :
  AttorneyData.state (G28Extractor.infer_country d) = AttorneyData.state d.
Proof.
  change (AttorneyData.state ?d) with (AttorneyData.getattr AttorneyData.a_state d).
  by apply getattr_infer_country_ne.
Qed.

Lemma text_country re text :
  AttorneyData.country (G28Extractor._extract_from_text re text)
  = if truthy (AttorneyData.state (G28Extractor._extract_from_text re text))
    then Some "United States" else None.
Proof.
  unfold G28Extractor._extract_from_text. cbv zeta.
  rewrite infer_country_state. apply infer_country_unset.
  change (AttorneyData.country ?d) with (AttorneyData.getattr AttorneyData.a_country d).
  rewrite !getattr_set_from_match_ne by discriminate.
  by rewrite getattr_name_patterns_ne.
Qed.

Lemma text_mobile_phone re text :
  AttorneyData.mobile_phone (G28Extractor._extract_from_text re text) = None.
Proof.
  change (AttorneyData.mobile_phone ?d)
    with (AttorneyData.getattr AttorneyData.a_mobile_phone d).
  unfold G28Extractor._extract_from_text. cbv zeta.
  rewrite getattr_infer_country_ne by discriminate.
  rewrite !getattr_set_from_match_ne by discriminate.
  by rewrite getattr_name_patterns_ne.
Qed.

(** C10.  State normalization is total and lossy on unknown inputs.
    - [None] and the empty string give [None];
    - every non-empty string gives a non-empty string, never [None];
    - a non-empty string whose lower-cased, stripped form is not a key of
      [US_STATES] gives the first two characters of its upper-cased form;
    - such a result need not be a state code: ["zz"] gives ["ZZ"], which is
      no value of the table;
    - the text extractor of the G-28 stores whatever [normalize_state]
      answers for the matched state, and then infers the country
      "United States" from it, recognized or not. *)
Theorem normalize_state_total_lossy :
  normalize_state None = None
  /\ normalize_state (Some "") = None
  /\ (forall s, s <> "" ->
        exists code, normalize_state (Some s) = Some code /\ code <> "")
  /\ (forall s, s <> "" ->
        US_STATES !! PyStr.strip (PyStr.lower s) = None ->
        normalize_state (Some s) = Some (PyStr.take 2 (PyStr.upper s)))
  /\ (normalize_state (Some "zz") = Some "ZZ"
      /\ forall k, US_STATES !! k <> Some "ZZ")
  /\ (forall re text m,
        re_search re G28Extractor.state_pattern false text = Some m ->
        group1 m <> "" ->
        AttorneyData.state (G28Extractor._extract_from_text re text)
        = normalize_state (Some (group1 m))
        /\ AttorneyData.country (G28Extractor._extract_from_text re text)
           = Some "United States").
Proof.
  split; [reflexivity|]. split; [reflexivity|].
  split; [apply normalize_state_nonempty|].
  split.
  { intros s Hs Hk. unfold normalize_state.
    destruct s; [congruence|]. cbn [PyStr.nonempty]. by rewrite Hk. }
  split.
  { split; [vm_compute; reflexivity | apply US_STATES_no_ZZ]. }
  intros re text m Hm Hg.
  rewrite text_country, text_state, Hm. split; [reflexivity|].
  destruct (normalize_state_nonempty _ Hg) as (code & -> & Hc).
  by rewrite truthy_Some_nonempty.
Qed.

(** A regular-expression engine that finds the state "ZZ" and nothing
    else. *)
Definition re_state_ZZ : regex := {|
  re_search := fun pattern _ _ =>
    if bool_decide (pattern = G28Extractor.state_pattern)
    then Some {| group0 := "State: ZZ"; group1 := "ZZ" |} else None;
  re_sub := fun _ _ s => s
|}.

Lemma normalize_state_total_lossy_witness :
  AttorneyData.state (G28Extractor._extract_from_text re_state_ZZ "State: ZZ 00000")
  = normalize_state (Some "ZZ")
  /\ AttorneyData.country (G28Extractor._extract_from_text re_state_ZZ "State: ZZ 00000")
     = Some "United States".
Proof.
  destruct normalize_state_total_lossy as (_ & _ & _ & _ & _ & H).
  apply (H re_state_ZZ "State: ZZ 00000" {| group0 := "State: ZZ"; group1 := "ZZ" |}).
  - reflexivity.
  - discriminate.
Defined.

(** ** The repair of an e-mail address found in the mobile-phone field (C5) *)

Lemma contains_nonempty c s : PyStr.contains c s = true -> PyStr.nonempty s = true.
Proof. destruct s; [discriminate | reflexivity]. Qed.

Lemma repair_email_relocates d p :
  AttorneyData.mobile_phone d = Some p ->
  PyStr.contains "@" p = true ->
  AttorneyData.mobile_phone (G28Extractor.repair_email d) = None
  /\ AttorneyData.email (G28Extractor.repair_email d)
     = (if truthy (AttorneyData.email d) then AttorneyData.email d else Some p)
  /\ forall a, a <> AttorneyData.a_mobile_phone -> a <> AttorneyData.a_email ->
       AttorneyData.getattr a (G28Extractor.repair_email d)
       = AttorneyData.getattr a d.
Proof.
  intros Hm Hat. unfold G28Extractor.repair_email.
  rewrite Hm, Hat, (contains_nonempty _ _ Hat). cbn [andb].
  split; [reflexivity|]. split.
  - destruct (truthy (AttorneyData.email d)); cbn [negb].
    + reflexivity.
    + change (AttorneyData.email ?d) with (AttorneyData.getattr AttorneyData.a_email d).
      rewrite getattr_setattr_ne by discriminate.
      by rewrite getattr_setattr, bool_decide_eq_true_2.
  - intros a H1 H2. rewrite getattr_setattr_ne by congruence.
    destruct (negb _); [|reflexivity].
    by rewrite getattr_setattr_ne by congruence.
Qed.

Lemma repair_email_clean d p :
  AttorneyData.mobile_phone (G28Extractor.repair_email d) = Some p ->
  PyStr.contains "@" p = false.
Proof.
  unfold G28Extractor.repair_email.
  destruct (AttorneyData.mobile_phone d) as [q|] eqn:Hm.
  - destruct (PyStr.nonempty q && PyStr.contains "@" q) eqn:Hc.
    + discriminate.
    + rewrite Hm. intros [= <-].
      destruct q; [reflexivity|]. exact Hc.
  - rewrite Hm. discriminate.
Qed.

Lemma pdf_form_fields_clean e data beneficiary p :
  G28Extractor._extract_pdf_form_fields e = (Some data, beneficiary) ->
  AttorneyData.mobile_phone data = Some p ->
  PyStr.contains "@" p = false.
Proof.
  unfold G28Extractor._extract_pdf_form_fields.
  destruct (G28Extractor.pdf_widgets e) as [widgets|]; [|discriminate].
  case_bool_decide; [discriminate|].
  intros [= <- _]. unfold G28Extractor.from_form_fields. cbv zeta.
  apply repair_email_clean.
Qed.

Lemma g28_extract_clean e data beneficiary p :
  G28Extractor.extract e = Ok (data, beneficiary) ->
  AttorneyData.mobile_phone data = Some p ->
  PyStr.contains "@" p = false.
Proof.
  unfold G28Extractor.extract.
  destruct (G28Extractor.try_pdf_form_fields e) as [r|] eqn:Hpdf.
  - intros [= ->]. revert Hpdf. unfold G28Extractor.try_pdf_form_fields.
    case_bool_decide; [|discriminate].
    destruct (G28Extractor._extract_pdf_form_fields e) as [[form_data|] b] eqn:Hf;
      [|discriminate].
    destruct (G28Extractor.above_threshold _); [|discriminate].
    intros [= <- _] Hp. eapply pdf_form_fields_clean; [exact Hf | exact Hp].
  - unfold G28Extractor.extract_via_ocr. cbv zeta.
    destruct (PyStr.nonempty _).
    + intros [= <- _].
      change (AttorneyData.mobile_phone
                (AttorneyData.set_confidence_score ?c
                   (AttorneyData.set_extraction_method ?m ?d)))
        with (AttorneyData.mobile_phone d).
      by rewrite text_mobile_phone.
    + intros [= <- _]. discriminate.
Qed.

(** The form of the example: one widget, the mobile-phone field, holding an
    address. *)
Definition jane_widgets : list (option string * option string) :=
  [(Some "Line7_MobileTelephoneNumber[0]", Some "jane@example.com")].

Definition jane_env : G28Extractor.env := {|
  G28Extractor.re := re_state_ZZ;
  G28Extractor.suffix := ".pdf";
  G28Extractor.pdf_widgets := Ok jane_widgets;
  G28Extractor.load_images := Ok [];
  G28Extractor.pytesseract := None
|}.

Definition jane_record : AttorneyData.t :=
  AttorneyData.mk None None None None None None None None None None None
    (Some "jane@example.com") None None None None None (Some (1 # 8)).

(** C5.  Mobile-phone/e-mail repair at the ingestion of PDF form fields.
    - When the mobile-phone value read from the form contains ['@'], the
      mobile-phone field is cleared; the value is moved to the e-mail field
      when that field is not already set, and an e-mail value already set
      is kept; no other field changes.
    - Hence no value containing ['@'] is left in the mobile-phone field of
      the record that [_extract_pdf_form_fields] returns, nor of the record
      that the orchestrator returns.
    - A form whose only field is the mobile phone "jane@example.com" gives
      the record with that e-mail address and no mobile phone. *)
Theorem mobile_email_repair :
  (forall d p,
     AttorneyData.mobile_phone d = Some p ->
     PyStr.contains "@" p = true ->
     AttorneyData.mobile_phone (G28Extractor.repair_email d) = None
     /\ AttorneyData.email (G28Extractor.repair_email d)
        = (if truthy (AttorneyData.email d) then AttorneyData.email d else Some p)
     /\ forall a, a <> AttorneyData.a_mobile_phone -> a <> AttorneyData.a_email ->
          AttorneyData.getattr a (G28Extractor.repair_email d)
          = AttorneyData.getattr a d)
  /\ (forall form_fields,
        let raw := G28Extractor.apply_mappings form_fields G28Extractor.mappings
                     AttorneyData.empty in
        let data := (G28Extractor.from_form_fields form_fields).1 in
        AttorneyData.mobile_phone data
        = AttorneyData.mobile_phone (G28Extractor.repair_email raw)
        /\ AttorneyData.email data
           = AttorneyData.email (G28Extractor.repair_email raw))
  /\ (forall e data beneficiary p,
        G28Extractor._extract_pdf_form_fields e = (Some data, beneficiary) ->
        AttorneyData.mobile_phone data = Some p ->
        PyStr.contains "@" p = false)
  /\ (forall e data beneficiary p,
        G28Extractor.extract e = Ok (data, beneficiary) ->
        AttorneyData.mobile_phone data = Some p ->
        PyStr.contains "@" p = false)
  /\ G28Extractor._extract_pdf_form_fields jane_env = (Some jane_record, None).
Proof.
  split; [apply repair_email_relocates|].
  split; [intros ff; split; reflexivity|].
  split; [apply pdf_form_fields_clean|].
  split; [apply g28_extract_clean|].
  vm_compute. reflexivity.
Qed.

Lemma mobile_email_repair_witness :
  AttorneyData.mobile_phone
    (G28Extractor.repair_email
       (AttorneyData.setattr AttorneyData.a_mobile_phone
          (Some "jane@example.com") AttorneyData.empty)) = None
  /\ AttorneyData.email
       (G28Extractor.repair_email
          (AttorneyData.setattr AttorneyData.a_mobile_phone
             (Some "jane@example.com") AttorneyData.empty))
     = Some "jane@example.com".
Proof.
  destruct mobile_email_repair as (H & _).
  destruct (H (AttorneyData.setattr AttorneyData.a_mobile_phone
                 (Some "jane@example.com") AttorneyData.empty)
              "jane@example.com" eq_refl eq_refl) as (Hm & He & _).
  split; [exact Hm | exact He].
Defined.

(** ** The passport orchestrator *)

Lemma llm_extract_inv e r :
  LLMPassportExtractor.extract e = Ok (Some r) ->
  LLMPassportExtractor.is_llm_available e = true
  /\ PassportData.extraction_method r = Some "LLM_OPENAI"
  /\ PassportData.confidence_score r = Some (95 # 100).
Proof.
  unfold LLMPassportExtractor.extract, LLMPassportExtractor.client,
    LLMPassportExtractor.is_llm_available.
  destruct (LLMPassportExtractor.openai_installed e),
    (LLMPassportExtractor.api_key e); try discriminate. cbn [andb negb].
  destruct (LLMPassportExtractor._prepare_image e); [|discriminate].
  destruct (negb (PyStr.nonempty s)); [discriminate|].
  unfold mbind, exc_bind, catch.
  destruct (LLMPassportExtractor.chat_completion e s); [|discriminate].
  destruct (LLMPassportExtractor._parse_response e a) as [[r0|]|]; try discriminate.
  intros [= <-]. repeat split.
Qed.

Lemma llm_extract_never_raises e : LLMPassportExtractor.extract e <> Raise.
Proof.
  unfold LLMPassportExtractor.extract.
  destruct (negb _); [discriminate|].
  destruct (LLMPassportExtractor._prepare_image e); [|discriminate].
  destruct (negb (PyStr.nonempty s)); [discriminate|].
  unfold mbind, exc_bind, catch.
  destruct (LLMPassportExtractor.chat_completion e s); [|discriminate].
  destruct (LLMPassportExtractor._parse_response e a) as [[r0|]|]; discriminate.
Qed.

(** The record that the vision model alone would make the orchestrator
    return. *)
Definition llm_accepts (r : PassportData.t) : bool :=
  truthy (PassportData.passport_number r) || truthy (PassportData.last_name r).

Lemma try_llm_Some e use_llm r :
  PassportExtractor.try_llm e use_llm = Some r <->
  use_llm = true
  /\ LLMPassportExtractor.extract (PassportExtractor.llm e) = Ok (Some r)
  /\ llm_accepts r = true.
Proof.
  unfold PassportExtractor.try_llm, llm_accepts. split.
  - destruct use_llm; [|discriminate].
    destruct (LLMPassportExtractor.is_llm_available _); [|discriminate].
    unfold mbind, exc_bind, catch.
    destruct (LLMPassportExtractor.extract _) as [[r0|]|]; try discriminate.
    destruct (_ || _) eqn:Hacc; [|discriminate].
    intros [= <-]. auto.
  - intros (-> & Hx & Hacc).
    destruct (llm_extract_inv _ _ Hx) as (-> & _).
    unfold mbind, exc_bind, catch. by rewrite Hx, Hacc.
Qed.

Lemma try_llm_None e use_llm :
  PassportExtractor.try_llm e use_llm = None <->
  use_llm = false
  \/ LLMPassportExtractor.is_llm_available (PassportExtractor.llm e) = false
  \/ LLMPassportExtractor.extract (PassportExtractor.llm e) = Ok None
  \/ exists r, LLMPassportExtractor.extract (PassportExtractor.llm e) = Ok (Some r)
               /\ llm_accepts r = false.
Proof.
  unfold PassportExtractor.try_llm, llm_accepts. split.
  - destruct use_llm; [|auto].
    destruct (LLMPassportExtractor.is_llm_available _); [|auto].
    unfold mbind, exc_bind, catch.
    destruct (LLMPassportExtractor.extract _) as [[r0|]|] eqn:Hx.
    + destruct (_ || _) eqn:Hacc; [discriminate|]. intros _. right. right. right.
      by exists r0.
    + auto.
    + by destruct (llm_extract_never_raises _ Hx).
  - intros [->|[Ha|[Hx|(r & Hx & Hacc)]]].
    + reflexivity.
    + destruct use_llm; [|reflexivity]. by rewrite Ha.
    + destruct use_llm; [|reflexivity].
      destruct (LLMPassportExtractor.is_llm_available _); [|reflexivity].
      unfold mbind, exc_bind, catch. by rewrite Hx.
    + destruct use_llm; [|reflexivity].
      destruct (LLMPassportExtractor.is_llm_available _); [|reflexivity].
      unfold mbind, exc_bind, catch. by rewrite Hx, Hacc.
Qed.

(** The four ways in which [extract] ends. *)
Inductive passport_outcome (e : PassportExtractor.env) (use_llm : bool)
    : PassportData.t -> Prop :=
| by_llm r :
    PassportExtractor.try_llm e use_llm = Some r ->
    passport_outcome e use_llm r
| by_mrz d :
    PassportExtractor.try_llm e use_llm = None ->
    PassportExtractor.accepted_mrz e (PassportExtractor._get_images e) = Some d ->
    passport_outcome e use_llm
      (PassportData.set_confidence_score (Some (95 # 100))
         (PassportData.set_extraction_method (Some "MRZ") d))
| by_ocr d :
    PassportExtractor.try_llm e use_llm = None ->
    PassportExtractor.accepted_mrz e (PassportExtractor._get_images e) = None ->
    PassportExtractor._extract_via_ocr e (PassportExtractor._get_images e) = Some d ->
    passport_outcome e use_llm
      (PassportData.set_confidence_score (Some (7 # 10))
         (PassportData.set_extraction_method (Some "OCR+NLP") d))
| by_failure :
    PassportExtractor.try_llm e use_llm = None ->
    PassportExtractor.accepted_mrz e (PassportExtractor._get_images e) = None ->
    PassportExtractor._extract_via_ocr e (PassportExtractor._get_images e) = None ->
    passport_outcome e use_llm PassportExtractor.FAILED.

Lemma passport_extract_outcome e use_llm :
  exists r, PassportExtractor.extract e use_llm = Ok r
            /\ passport_outcome e use_llm r.
Proof.
  unfold PassportExtractor.extract.
  destruct (PassportExtractor.try_llm e use_llm) as [r|] eqn:Hl.
  - exists r. split; [reflexivity | by constructor].
  - unfold PassportExtractor.extract_without_llm. cbv zeta.
    destruct (PassportExtractor.accepted_mrz _ _) as [d|] eqn:Hm.
    + eexists. split; [reflexivity | by constructor].
    + destruct (PassportExtractor._extract_via_ocr _ _) as [d|] eqn:Ho.
      * eexists. split; [reflexivity | by constructor].
      * eexists. split; [reflexivity | by constructor].
Qed.

Lemma passport_outcome_provenance e use_llm r :
  passport_outcome e use_llm r ->
  is_Some (PassportData.extraction_method r)
  /\ is_Some (PassportData.confidence_score r).
Proof.
  destruct 1 as [r Hl| | |]; try (split; eexists; reflexivity).
  apply try_llm_Some in Hl as (_ & Hx & _).
  apply llm_extract_inv in Hx as (_ & -> & ->). split; eexists; reflexivity.
Qed.

(** ** The representative orchestrator *)

Lemma tag_beneficiary_Some x ben :
  G28Extractor.tag_beneficiary x = Some ben ->
  PassportData.extraction_method ben = Some "G28_BENEFICIARY"
  /\ PassportData.confidence_score ben = Some (5 # 10)
  /\ (truthy (PassportData.last_name ben) || truthy (PassportData.first_name ben)) = true.
Proof.
  unfold G28Extractor.tag_beneficiary.
  destruct (_ || _) eqn:H; [|discriminate]. intros [= <-]. auto.
Qed.

Lemma pdf_form_fields_inv e data beneficiary :
  G28Extractor._extract_pdf_form_fields e = (Some data, beneficiary) ->
  exists form_fields,
    data = (G28Extractor.from_form_fields form_fields).1
    /\ beneficiary = (G28Extractor.from_form_fields form_fields).2.
Proof.
  unfold G28Extractor._extract_pdf_form_fields.
  destruct (G28Extractor.pdf_widgets e) as [widgets|]; [|discriminate].
  case_bool_decide; [discriminate|].
  intros [= <- <-]. by eexists.
Qed.

Lemma pdf_form_fields_None e beneficiary :
  G28Extractor._extract_pdf_form_fields e = (None, beneficiary) ->
  beneficiary = None.
Proof.
  unfold G28Extractor._extract_pdf_form_fields.
  destruct (G28Extractor.pdf_widgets e) as [widgets|]; [|by intros [= <-]].
  case_bool_decide; [by intros [= <-] | discriminate].
Qed.

Lemma pdf_beneficiary_provenance e data ben :
  G28Extractor._extract_pdf_form_fields e = (data, Some ben) ->
  PassportData.extraction_method ben = Some "G28_BENEFICIARY"
  /\ PassportData.confidence_score ben = Some (5 # 10).
Proof.
  destruct data as [data|].
  - intros (ff & _ & Hb)%pdf_form_fields_inv.
    symmetry in Hb. apply tag_beneficiary_Some in Hb. tauto.
  - intros H%pdf_form_fields_None. discriminate.
Qed.

(** The score stored by [_extract_pdf_form_fields] is the score of the
    record itself: the provenance fields do not enter it. *)
Lemma confidence_ignores_provenance data m c :
  G28Extractor._calculate_confidence
    (AttorneyData.set_confidence_score c (AttorneyData.set_extraction_method m data))
  = G28Extractor._calculate_confidence data
  /\ G28Extractor._calculate_confidence (AttorneyData.set_confidence_score c data)
     = G28Extractor._calculate_confidence data
  /\ G28Extractor._calculate_confidence (AttorneyData.set_extraction_method m data)
     = G28Extractor._calculate_confidence data.
Proof. repeat split. Qed.

(** The three ways in which [extract] ends. *)
Inductive g28_outcome (e : G28Extractor.env)
    : AttorneyData.t * option PassportData.t -> Prop :=
| by_pdf_form_fields form_data beneficiary :
    PyStr.lower (G28Extractor.suffix e) = ".pdf" ->
    G28Extractor._extract_pdf_form_fields e = (Some form_data, beneficiary) ->
    G28Extractor.above_threshold (G28Extractor._calculate_confidence form_data) = true ->
    g28_outcome e
      (AttorneyData.set_extraction_method (Some "PDF_FORM_FIELDS") form_data,
       beneficiary)
| by_ocr_text :
    G28Extractor.try_pdf_form_fields e = None ->
    G28Extractor.ocr_full_text e (G28Extractor._get_images e) <> "" ->
    let data :=
      AttorneyData.set_extraction_method (Some "OCR+NLP")
        (G28Extractor._extract_from_text (G28Extractor.re e)
           (G28Extractor.ocr_full_text e (G28Extractor._get_images e))) in
    g28_outcome e
      (AttorneyData.set_confidence_score
         (Some (G28Extractor._calculate_confidence data)) data, None)
| by_no_text :
    G28Extractor.try_pdf_form_fields e = None ->
    G28Extractor.ocr_full_text e (G28Extractor._get_images e) = "" ->
    g28_outcome e (G28Extractor.FAILED, None).

Lemma try_pdf_form_fields_Some e r :
  G28Extractor.try_pdf_form_fields e = Some r ->
  exists form_data beneficiary,
    r = (AttorneyData.set_extraction_method (Some "PDF_FORM_FIELDS") form_data,
         beneficiary)
    /\ PyStr.lower (G28Extractor.suffix e) = ".pdf"
    /\ G28Extractor._extract_pdf_form_fields e = (Some form_data, beneficiary)
    /\ G28Extractor.above_threshold (G28Extractor._calculate_confidence form_data) = true.
Proof.
  unfold G28Extractor.try_pdf_form_fields.
  case_bool_decide as Hs; [|discriminate].
  destruct (G28Extractor._extract_pdf_form_fields e) as [[form_data|] b] eqn:Hf;
    [|discriminate].
  destruct (G28Extractor.above_threshold _) eqn:Ht; [|discriminate].
  intros [= <-]. by exists form_data, b.
Qed.

Lemma g28_extract_outcome e :
  exists r, G28Extractor.extract e = Ok r /\ g28_outcome e r.
Proof.
  unfold G28Extractor.extract.
  destruct (G28Extractor.try_pdf_form_fields e) as [r|] eqn:Hp.
  - exists r. split; [reflexivity|].
    apply try_pdf_form_fields_Some in Hp as (fd & b & -> & ? & ? & ?).
    by constructor.
  - unfold G28Extractor.extract_via_ocr. cbv zeta.
    destruct (G28Extractor.ocr_full_text e (G28Extractor._get_images e)) eqn:Ht.
    + eexists. split; [reflexivity|]. by constructor.
    + eexists. split; [reflexivity|].
      rewrite <- Ht. apply by_ocr_text; [done | by rewrite Ht].
Qed.

Lemma g28_outcome_provenance e r :
  g28_outcome e r ->
  is_Some (AttorneyData.extraction_method r.1)
  /\ is_Some (AttorneyData.confidence_score r.1)
  /\ forall ben, r.2 = Some ben ->
       is_Some (PassportData.extraction_method ben)
       /\ is_Some (PassportData.confidence_score ben).
Proof.
  destruct 1 as [form_data b Hs Hf Ht| |].
  - split; [by eexists|]. split.
    + apply pdf_form_fields_inv in Hf as (ff & -> & _). by eexists.
    + intros ben Hb. cbn [snd] in Hb. subst b.
      apply pdf_beneficiary_provenance in Hf as [-> ->].
      split; by eexists.
  - split; [by eexists|]. split; [by eexists | discriminate].
  - split; [by eexists|]. split; [by eexists | discriminate].
Qed.

(** ** Concrete environments *)

(** A regular-expression engine that never finds anything. *)
Definition re_nothing : regex := {|
  re_search := fun _ _ _ => None;
  re_sub := fun _ _ s => s
|}.

(** No API key: the vision model is unavailable. *)
Definition llm_off : LLMPassportExtractor.env := {|
  LLMPassportExtractor.api_key := false;
  LLMPassportExtractor.openai_installed := true;
  LLMPassportExtractor.encode_image := Ok (Some "base64");
  LLMPassportExtractor.chat_completion := fun _ => Raise;
  LLMPassportExtractor.json_loads := fun _ => Raise
|}.

(** A vision model that reads a passport number and a last name. *)
Definition llm_on : LLMPassportExtractor.env := {|
  LLMPassportExtractor.api_key := true;
  LLMPassportExtractor.openai_installed := true;
  LLMPassportExtractor.encode_image := Ok (Some "base64");
  LLMPassportExtractor.chat_completion := fun _ => Ok "{...}";
  LLMPassportExtractor.json_loads := fun _ =>
    Ok (list_to_map [("passport_number", "X1234567"); ("last_name", "Doe")])
|}.

(** Eighty characters of page text, in which none of the patterns of the
    text extractor has a match. *)
Definition page_text : string :=
  "Republic of Utopia    Travel document    Surname / Given names    Jane Doe   UTO".

(** One page; the vision model is unavailable; the OCR pass of the MRZ
    strategy reads nothing; the plain OCR pass reads [page_text], in which
    the entity recognizer finds the person "Jane Doe" and no pattern
    matches. *)
Definition env_ocr_only : PassportExtractor.env := {|
  PassportExtractor.now_year := 2024;
  PassportExtractor.re := re_nothing;
  PassportExtractor.llm := llm_off;
  PassportExtractor.load_images := Ok [0%nat];
  PassportExtractor.pytesseract := Some (fun _ config =>
    if bool_decide (config = PassportExtractor.ocr_config) then Ok page_text else Ok "");
  PassportExtractor.td3_code_checker := Some (fun _ => Ok None);
  PassportExtractor.spacy_model := Ok (Some (fun _ => Ok [("Jane Doe", "PERSON")]));
  PassportExtractor.dateparser_parse := fun _ => Raise
|}.

(** The same page read by an available vision model. *)
Definition env_llm : PassportExtractor.env := {|
  PassportExtractor.now_year := 2024;
  PassportExtractor.re := re_nothing;
  PassportExtractor.llm := llm_on;
  PassportExtractor.load_images := Ok [0%nat];
  PassportExtractor.pytesseract := None;
  PassportExtractor.td3_code_checker := None;
  PassportExtractor.spacy_model := Raise;
  PassportExtractor.dateparser_parse := fun _ => Raise
|}.

(** Every collaborator fails. *)
Definition env_all_fail : PassportExtractor.env := {|
  PassportExtractor.now_year := 2024;
  PassportExtractor.re := re_nothing;
  PassportExtractor.llm := llm_off;
  PassportExtractor.load_images := Raise;
  PassportExtractor.pytesseract := Some (fun _ _ => Raise);
  PassportExtractor.td3_code_checker := Some (fun _ => Raise);
  PassportExtractor.spacy_model := Raise;
  PassportExtractor.dateparser_parse := fun _ => Raise
|}.

(** A scanned G-28 (an image, not a PDF) on which OCR reads a few words
    and no pattern matches. *)
Definition env_png_no_fields : G28Extractor.env := {|
  G28Extractor.re := re_nothing;
  G28Extractor.suffix := ".png";
  G28Extractor.pdf_widgets := Raise;
  G28Extractor.load_images := Ok [0%nat];
  G28Extractor.pytesseract := Some (fun _ _ => Ok "hello")
|}.

(** A G-28 of which nothing can be read. *)
Definition env_g28_all_fail : G28Extractor.env := {|
  G28Extractor.re := re_nothing;
  G28Extractor.suffix := ".pdf";
  G28Extractor.pdf_widgets := Raise;
  G28Extractor.load_images := Raise;
  G28Extractor.pytesseract := Some (fun _ _ => Raise)
|}.

(** ** Provenance (C9) *)

(** C9.  Provenance invariant.  Every record returned by the passport
    orchestrator, every record returned by the representative orchestrator
    and every beneficiary record (returned by the orchestrator, or by
    [_extract_pdf_form_fields]) has both [extraction_method] and
    [confidence_score] set; in particular one is set if and only if the
    other is. *)
Theorem provenance_invariant :
  (forall e use_llm r,
     PassportExtractor.extract e use_llm = Ok r ->
     (is_Some (PassportData.confidence_score r)
      <-> is_Some (PassportData.extraction_method r))
     /\ is_Some (PassportData.extraction_method r))
  /\ (forall e data beneficiary,
        G28Extractor.extract e = Ok (data, beneficiary) ->
        (is_Some (AttorneyData.confidence_score data)
         <-> is_Some (AttorneyData.extraction_method data))
        /\ is_Some (AttorneyData.extraction_method data)
        /\ forall ben, beneficiary = Some ben ->
             (is_Some (PassportData.confidence_score ben)
              <-> is_Some (PassportData.extraction_method ben))
             /\ is_Some (PassportData.extraction_method ben))
  /\ (forall e data ben,
        G28Extractor._extract_pdf_form_fields e = (data, Some ben) ->
        (is_Some (PassportData.confidence_score ben)
         <-> is_Some (PassportData.extraction_method ben))
        /\ is_Some (PassportData.extraction_method ben)).
Proof.
  split; [|split].
  - intros e u r Hr.
    destruct (passport_extract_outcome e u) as (r' & Hr' & Ho).
    rewrite Hr in Hr'. injection Hr' as <-.
    apply passport_outcome_provenance in Ho as [? ?]. tauto.
  - intros e data b Hr.
    destruct (g28_extract_outcome e) as (r' & Hr' & Ho).
    rewrite Hr in Hr'. injection Hr' as <-.
    apply g28_outcome_provenance in Ho as (? & ? & Hb). cbn [fst snd] in *.
    split; [tauto|]. split; [done|].
    intros ben Hben. destruct (Hb ben Hben). tauto.
  - intros e data ben [-> ->]%pdf_beneficiary_provenance.
    split; [split; intros _|]; by eexists.
Qed.

Lemma provenance_invariant_witness :
  (is_Some (PassportData.confidence_score
              (PassportData.set_confidence_score (Some (7 # 10))
                 (PassportData.set_extraction_method (Some "OCR+NLP")
                    (PassportData.set_last_name (Some "Doe")
                       (PassportData.set_first_name (Some "Jane") PassportData.empty)))))
   <-> is_Some (Some "OCR+NLP"))
  /\ is_Some (Some "OCR+NLP").
Proof.
  destruct provenance_invariant as (H & _).
  apply (H env_ocr_only true). vm_compute. reflexivity.
Defined.

(** ** Total failure (C8) *)

(** C8.  Total extraction failure.  Whatever the collaborators do, raising
    included, both orchestrators return a record and never raise.  The
    passport orchestrator returns the [FAILED] record (method ["FAILED"],
    confidence 0.0, every data field unset) when none of its strategies has
    given an accepted record, and the representative orchestrator returns
    it when no form fields are accepted and OCR reads no text.  But when
    OCR reads some text, the representative orchestrator returns the record
    of the text extractor under the method ["OCR+NLP"] whatever that record
    scores: with a score of 0.3 or less, which the threshold policy does
    not accept, every strategy is exhausted without an accepted result and
    the record returned is still not the [FAILED] record. *)
Theorem exhausted_strategies_are_not_always_FAILED :
  (forall e use_llm, exists r, PassportExtractor.extract e use_llm = Ok r)
  /\ (forall e use_llm,
        PassportExtractor.try_llm e use_llm = None ->
        PassportExtractor.accepted_mrz e (PassportExtractor._get_images e) = None ->
        PassportExtractor._extract_via_ocr e (PassportExtractor._get_images e) = None ->
        PassportExtractor.extract e use_llm = Ok PassportExtractor.FAILED)
  /\ PassportExtractor.FAILED
     = PassportData.mk None None None None None None None None None None None
         (Some "FAILED") (Some (0 # 1))
  /\ (forall e, exists r, G28Extractor.extract e = Ok r)
  /\ (forall e,
        G28Extractor.try_pdf_form_fields e = None ->
        G28Extractor.ocr_full_text e (G28Extractor._get_images e) = "" ->
        G28Extractor.extract e = Ok (G28Extractor.FAILED, None))
  /\ G28Extractor.FAILED
     = AttorneyData.mk None None None None None None None None None None None
         None None None None None (Some "FAILED") (Some (0 # 1))
  /\ (forall e,
        G28Extractor.try_pdf_form_fields e = None ->
        G28Extractor.ocr_full_text e (G28Extractor._get_images e) <> "" ->
        (G28Extractor._calculate_confidence
           (G28Extractor._extract_from_text (G28Extractor.re e)
              (G28Extractor.ocr_full_text e (G28Extractor._get_images e)))
         <= 3 # 10)%Q ->
        exists r score,
          G28Extractor.extract e = Ok (r, None)
          /\ AttorneyData.extraction_method r = Some "OCR+NLP"
          /\ AttorneyData.confidence_score r = Some score
          /\ (score <= 3 # 10)%Q
          /\ r <> G28Extractor.FAILED).
Proof.
  split; [|split; [|split; [|split; [|split; [|split]]]]].
  - intros e u. destruct (passport_extract_outcome e u) as (r & Hr & _). eauto.
  - intros e u Hl Hm Ho. unfold PassportExtractor.extract. rewrite Hl.
    unfold PassportExtractor.extract_without_llm. cbv zeta. by rewrite Hm, Ho.
  - reflexivity.
  - intros e. destruct (g28_extract_outcome e) as (r & Hr & _). eauto.
  - intros e Hp Ht. unfold G28Extractor.extract. rewrite Hp.
    unfold G28Extractor.extract_via_ocr. cbv zeta. by rewrite Ht.
  - reflexivity.
  - intros e Hp Ht Hscore. unfold G28Extractor.extract. rewrite Hp.
    unfold G28Extractor.extract_via_ocr. cbv zeta.
    destruct (G28Extractor.ocr_full_text e (G28Extractor._get_images e))
      as [|c text]; [done|].
    cbn [PyStr.nonempty]. eexists. eexists. split; [reflexivity|].
    split; [reflexivity|]. split; [reflexivity|].
    split; [|discriminate].
    by rewrite (proj2 (proj2 (confidence_ignores_provenance _ _ None))).
Qed.

(** The three cases: a passport of which nothing can be read, a G-28 of
    which nothing can be read, and a scanned G-28 on which OCR reads a word
    and the text extractor finds no field. *)
Lemma exhausted_strategies_are_not_always_FAILED_witness :
  PassportExtractor.extract env_all_fail true = Ok PassportExtractor.FAILED
  /\ G28Extractor.extract env_g28_all_fail = Ok (G28Extractor.FAILED, None)
  /\ exists r score,
       G28Extractor.extract env_png_no_fields = Ok (r, None)
       /\ AttorneyData.extraction_method r = Some "OCR+NLP"
       /\ AttorneyData.confidence_score r = Some score
       /\ (score <= 3 # 10)%Q
       /\ r <> G28Extractor.FAILED.
Proof.
  destruct exhausted_strategies_are_not_always_FAILED
    as (_ & Hp & _ & _ & Hg & _ & Hd).
  split; [|split].
  - apply (Hp env_all_fail true); reflexivity.
  - apply (Hg env_g28_all_fail); reflexivity.
  - apply (Hd env_png_no_fields).
    + reflexivity.
    + vm_compute. discriminate.
    + vm_compute. discriminate.
Defined.

(** ** The acceptance threshold of the representative orchestrator (C3) *)

Lemma above_threshold_spec score :
  G28Extractor.above_threshold score = true <-> (3 # 10 < score)%Q.
Proof.
  unfold G28Extractor.above_threshold. rewrite negb_true_iff.
  rewrite <- not_true_iff_false, Qle_bool_iff. split.
  - apply Qnot_le_lt.
  - apply Qlt_not_le.
Qed.

(** The form-field strategy applies the threshold: its record is returned
    exactly when its score exceeds 0.3. *)
Lemma pdf_strategy_threshold e form_data beneficiary :
  PyStr.lower (G28Extractor.suffix e) = ".pdf" ->
  G28Extractor._extract_pdf_form_fields e = (Some form_data, beneficiary) ->
  (G28Extractor.try_pdf_form_fields e
   = Some (AttorneyData.set_extraction_method (Some "PDF_FORM_FIELDS") form_data,
           beneficiary)
   <-> (3 # 10 < G28Extractor._calculate_confidence form_data)%Q)
  /\ (G28Extractor.try_pdf_form_fields e = None
      <-> (G28Extractor._calculate_confidence form_data <= 3 # 10)%Q).
Proof.
  intros Hs Hf. unfold G28Extractor.try_pdf_form_fields.
  rewrite bool_decide_eq_true_2 by done. rewrite Hf.
  destruct (G28Extractor.above_threshold _) eqn:Ht.
  - apply above_threshold_spec in Ht. split; split; try done.
    intros Hle. by apply Qlt_not_le in Ht.
  - assert (Hn : ~ (3 # 10 < G28Extractor._calculate_confidence form_data)%Q).
    { rewrite <- above_threshold_spec. by rewrite Ht. }
    split; split; try done. intros _. by apply Qnot_lt_le.
Qed.

(** The OCR strategy does not: any non-empty page text is answered by its
    record, whatever the score. *)
Lemma ocr_strategy_no_threshold e :
  G28Extractor.try_pdf_form_fields e = None ->
  G28Extractor.ocr_full_text e (G28Extractor._get_images e) <> "" ->
  exists data,
    G28Extractor.extract e = Ok (data, None)
    /\ AttorneyData.extraction_method data = Some "OCR+NLP"
    /\ AttorneyData.confidence_score data
       = Some (G28Extractor._calculate_confidence data).
Proof.
  intros Hp Ht. unfold G28Extractor.extract. rewrite Hp.
  unfold G28Extractor.extract_via_ocr. cbv zeta.
  destruct (G28Extractor.ocr_full_text e (G28Extractor._get_images e)); [done|].
  cbn [PyStr.nonempty]. eexists. split; [reflexivity|]. split; reflexivity.
Qed.

(** C3.  Threshold policy of the representative orchestrator, at a scanned
    G-28 on which OCR reads text in which no field is found: the OCR record
    scores 0.0, which does not exceed 0.3, and is returned all the same,
    with method ["OCR+NLP"], where the policy asks for the [FAILED]
    record. *)
Theorem ocr_result_below_threshold_is_returned :
  G28Extractor.try_pdf_form_fields env_png_no_fields = None
  /\ G28Extractor.extract env_png_no_fields
     = Ok (AttorneyData.mk None None None None None None None None None None
             None None None None None None (Some "OCR+NLP") (Some (0 # 1)),
           None)
  /\ G28Extractor.above_threshold (0 # 1) = false
  /\ G28Extractor.extract env_png_no_fields <> Ok (G28Extractor.FAILED, None).
Proof.
  split; [reflexivity|]. split; [vm_compute; reflexivity|].
  split; [reflexivity|]. vm_compute. discriminate.
Qed.

(** ** Acceptance of the vision model (C6) *)

(** The record that the vision model of [env_llm] returns. *)
Definition llm_record : PassportData.t :=
  PassportData.mk (Some "Doe") None None (Some "X1234567") None None None None
    None None None (Some "LLM_OPENAI") (Some (95 # 100)).

(** C6, as stated, at [env_llm]: the vision model returns a record with a
    passport number and a last name, and the orchestrator returns it with
    confidence 0.95, but under the method ["LLM_OPENAI"], not
    ["LLM_VISION"]. *)
Lemma llm_method_is_not_LLM_VISION :
  LLMPassportExtractor.extract (PassportExtractor.llm env_llm) = Ok (Some llm_record)
  /\ llm_accepts llm_record = true
  /\ PassportExtractor.extract env_llm true = Ok llm_record
  /\ PassportData.extraction_method llm_record = Some "LLM_OPENAI"
  /\ PassportData.extraction_method llm_record <> Some "LLM_VISION".
Proof.
  split; [vm_compute; reflexivity|]. split; [reflexivity|].
  split; [vm_compute; reflexivity|]. split; [reflexivity | discriminate].
Qed.

(** C6, amended.  With the vision model enabled ([use_llm], the default):
    when the vision-model extractor returns a record holding a passport
    number or a last name, the orchestrator stops and returns that record,
    whose confidence is 0.95 and whose method is ["LLM_OPENAI"].  In every
    other case (the model is switched off or unavailable, the extractor
    returns nothing, which includes every failure inside it, or its record
    holds neither field) the orchestrator goes on with the MRZ strategy and
    what follows it. *)
Theorem llm_acceptance :
  (forall e r,
     LLMPassportExtractor.extract (PassportExtractor.llm e) = Ok (Some r) ->
     llm_accepts r = true ->
     PassportExtractor.extract e true = Ok r
     /\ PassportData.extraction_method r = Some "LLM_OPENAI"
     /\ PassportData.confidence_score r = Some (95 # 100))
  /\ (forall e use_llm,
        use_llm = false
        \/ LLMPassportExtractor.is_llm_available (PassportExtractor.llm e) = false
        \/ LLMPassportExtractor.extract (PassportExtractor.llm e) = Ok None
        \/ (exists r,
              LLMPassportExtractor.extract (PassportExtractor.llm e) = Ok (Some r)
              /\ llm_accepts r = false) ->
        PassportExtractor.extract e use_llm = PassportExtractor.extract_without_llm e)
  /\ (forall e, LLMPassportExtractor.extract e <> Raise)
  /\ (forall e mrz_data,
        PassportExtractor.accepted_mrz e (PassportExtractor._get_images e)
        = Some mrz_data ->
        PassportExtractor.extract_without_llm e
        = Ok (PassportData.set_confidence_score (Some (95 # 100))
                (PassportData.set_extraction_method (Some "MRZ") mrz_data))).
Proof.
  split; [|split; [|split]].
  - intros e r Hx Hacc.
    destruct (llm_extract_inv _ _ Hx) as (_ & Hm & Hc).
    split; [|by split].
    unfold PassportExtractor.extract.
    by rewrite (proj2 (try_llm_Some e true r)).
  - intros e u H. apply try_llm_None in H.
    unfold PassportExtractor.extract. by rewrite H.
  - apply llm_extract_never_raises.
  - intros e d Hm. unfold PassportExtractor.extract_without_llm. cbv zeta.
    by rewrite Hm.
Qed.

Lemma llm_acceptance_witness :
  PassportExtractor.extract env_llm true = Ok llm_record
  /\ PassportData.extraction_method llm_record = Some "LLM_OPENAI"
  /\ PassportData.confidence_score llm_record = Some (95 # 100).
Proof.
  destruct llm_acceptance as (H & _).
  apply (H env_llm llm_record).
  - vm_compute. reflexivity.
  - reflexivity.
Defined.

(** ** The OCR fallback of the passport orchestrator (C1) *)

Lemma length_nonempty s : (50 <= PyStr.len s)%nat -> PyStr.nonempty s = true.
Proof. destruct s; simpl; [lia | reflexivity]. Qed.

(** A page on which OCR reads at least 50 characters from which the text
    extractor obtains a passport number or a last name. *)
Definition ocr_hit (e : PassportExtractor.env)
    (image_to_string : image -> string -> Exc string) (img : image)
    (data : PassportData.t) : Prop :=
  exists text,
    image_to_string img PassportExtractor.ocr_config = Ok text
    /\ (50 <= PyStr.len text)%nat
    /\ PassportExtractor._extract_from_text e text = Ok data
    /\ (truthy (PassportData.passport_number data) = true
        \/ truthy (PassportData.last_name data) = true).

Lemma ocr_page_hit e image_to_string img data :
  ocr_hit e image_to_string img data ->
  PassportExtractor.ocr_page e image_to_string img = Ok (Some data).
Proof.
  intros (text & Ht & Hlen & Hd & Hf). unfold PassportExtractor.ocr_page.
  rewrite Ht. unfold mbind, exc_bind.
  rewrite (length_nonempty _ Hlen). apply Nat.leb_le in Hlen. rewrite Hlen.
  cbn [andb]. rewrite Hd.
  destruct Hf as [-> | ->]; [reflexivity | by rewrite orb_true_r].
Qed.

Lemma ocr_page_Some e image_to_string img data :
  PassportExtractor.ocr_page e image_to_string img = Ok (Some data) ->
  ocr_hit e image_to_string img data.
Proof.
  unfold PassportExtractor.ocr_page, ocr_hit, mbind, exc_bind.
  destruct (image_to_string img _) as [text|] eqn:Ht; [|discriminate].
  destruct (PyStr.nonempty text && _) eqn:Hlen; [|discriminate].
  destruct (PassportExtractor._extract_from_text e text) as [d|] eqn:Hd;
    [|discriminate].
  destruct (_ || _) eqn:Hf; [|discriminate].
  intros [= <-]. exists text. apply andb_true_iff in Hlen as [_ Hlen%Nat.leb_le].
  apply orb_true_iff in Hf. split; [reflexivity|]. split; [exact Hlen|].
  split; [exact Hd | exact Hf].
Qed.

(** The loop over the pages answers the first page that is a hit: the
    pages in front of it are none. *)
Lemma ocr_pages_hit e image_to_string images img data :
  img ∈ images ->
  ocr_hit e image_to_string img data ->
  exists pre img' post data',
    images = (pre ++ img' :: post)%list
    /\ (forall p, p ∈ pre -> forall d, ~ ocr_hit e image_to_string p d)
    /\ ocr_hit e image_to_string img' data'
    /\ PassportExtractor.ocr_pages e image_to_string images = Some data'.
Proof.
  intros Hin Hhit. induction images as [|i rest IH]; [by apply elem_of_nil in Hin|].
  cbn [PassportExtractor.ocr_pages]. unfold catch.
  destruct (PassportExtractor.ocr_page e image_to_string i) as [[d|]|] eqn:Hp.
  - exists [], i, rest, d. split; [reflexivity|].
    split; [intros p Hp'; by apply elem_of_nil in Hp'|].
    split; [by apply ocr_page_Some | reflexivity].
  - assert (Hmiss : forall d, ~ ocr_hit e image_to_string i d).
    { intros d Hd. apply ocr_page_hit in Hd. congruence. }
    apply elem_of_cons in Hin as [-> | Hin]; [by destruct (Hmiss data)|].
    destruct (IH Hin) as (pre & i' & post & d' & -> & Hpre & Hhit' & Hres).
    exists (i :: pre), i', post, d'. split; [reflexivity|].
    split; [|done].
    intros p [-> | Hp']%elem_of_cons; [exact Hmiss | by apply Hpre].
  - assert (Hmiss : forall d, ~ ocr_hit e image_to_string i d).
    { intros d Hd. apply ocr_page_hit in Hd. congruence. }
    apply elem_of_cons in Hin as [-> | Hin]; [by destruct (Hmiss data)|].
    destruct (IH Hin) as (pre & i' & post & d' & -> & Hpre & Hhit' & Hres).
    exists (i :: pre), i', post, d'. split; [reflexivity|].
    split; [|done].
    intros p [-> | Hp']%elem_of_cons; [exact Hmiss | by apply Hpre].
Qed.

(** The record that the orchestrator returns at [env_ocr_only]. *)
Definition ocr_record : PassportData.t :=
  PassportData.mk (Some "Doe") (Some "Jane") None None None None None None
    None None None (Some "OCR+NLP") (Some (7 # 10)).

(** C1, as stated, at [env_ocr_only]: the vision model is unavailable, the
    MRZ strategy finds nothing, the page text has 80 characters and yields
    a last name; the record returned has confidence 0.7 and is not the
    [FAILED] record, but its method is ["OCR+NLP"], not ["OCR_PATTERN"]. *)
Lemma ocr_method_is_not_OCR_PATTERN :
  PassportExtractor.try_llm env_ocr_only true = None
  /\ PassportExtractor.accepted_mrz env_ocr_only
       (PassportExtractor._get_images env_ocr_only) = None
  /\ PyStr.len page_text = 80%nat
  /\ PassportData.last_name
       <$> PassportExtractor._extract_from_text env_ocr_only page_text
     = Ok (Some "Doe")
  /\ PassportExtractor.extract env_ocr_only true = Ok ocr_record
  /\ PassportData.extraction_method ocr_record = Some "OCR+NLP"
  /\ PassportData.extraction_method ocr_record <> Some "OCR_PATTERN".
Proof.
  split; [reflexivity|]. split; [vm_compute; reflexivity|].
  split; [reflexivity|]. split; [vm_compute; reflexivity|].
  split; [vm_compute; reflexivity|]. split; [reflexivity | discriminate].
Qed.

(** C1, amended.  Fallback ordering of the passport orchestrator.  If the
    vision-model strategy gives no accepted record (it is switched off,
    unavailable or fails) and the MRZ strategy gives no validated record
    with a passport number, while OCR is available and on some page reads a
    text of at least 50 characters from which the text extractor obtains a
    passport number or a last name, then the orchestrator returns the record
    of the first such page (no page in front of it is one) with extraction
    method ["OCR+NLP"] and confidence 0.7, and never the [FAILED] record. *)
Theorem ocr_fallback e use_llm image_to_string img data :
  PassportExtractor.try_llm e use_llm = None ->
  PassportExtractor.accepted_mrz e (PassportExtractor._get_images e) = None ->
  PassportExtractor.pytesseract e = Some image_to_string ->
  img ∈ PassportExtractor._get_images e ->
  ocr_hit e image_to_string img data ->
  exists pre img' post data' r,
    PassportExtractor._get_images e = (pre ++ img' :: post)%list
    /\ (forall p, p ∈ pre -> forall d, ~ ocr_hit e image_to_string p d)
    /\ ocr_hit e image_to_string img' data'
    /\ r = PassportData.set_confidence_score (Some (7 # 10))
             (PassportData.set_extraction_method (Some "OCR+NLP") data')
    /\ PassportExtractor.extract e use_llm = Ok r
    /\ PassportData.extraction_method r = Some "OCR+NLP"
    /\ PassportData.confidence_score r = Some (7 # 10)
    /\ r <> PassportExtractor.FAILED.
Proof.
  intros Hl Hm Hocr Hin Hhit.
  destruct (ocr_pages_hit _ _ _ _ _ Hin Hhit)
    as (pre & img' & post & data' & Himgs & Hpre & Hhit' & Hp).
  exists pre, img', post, data'. eexists. split; [exact Himgs|].
  split; [exact Hpre|]. split; [exact Hhit'|].
  split; [reflexivity|]. split; [|split; [reflexivity|split; [reflexivity|discriminate]]].
  unfold PassportExtractor.extract. rewrite Hl.
  unfold PassportExtractor.extract_without_llm. cbv zeta. rewrite Hm.
  unfold PassportExtractor._extract_via_ocr. by rewrite Hocr, Hp.
Qed.

(** A second page, on which another name stands. *)
Definition page_text_2 : string :=
  "Republic of Utopia    Travel document    Surname / Given names    John Roe   UTO".

Definition two_pages_ocr (img : image) (config : string) : Exc string :=
  if bool_decide (config = PassportExtractor.ocr_config)
  then Ok (if bool_decide (img = 0%nat) then page_text else page_text_2)
  else Ok "".

(** Two pages, each with a name that the entity recognizer finds; the rest
    as in [env_ocr_only]. *)
Definition env_two_pages : PassportExtractor.env := {|
  PassportExtractor.now_year := 2024;
  PassportExtractor.re := re_nothing;
  PassportExtractor.llm := llm_off;
  PassportExtractor.load_images := Ok [0%nat; 1%nat];
  PassportExtractor.pytesseract := Some two_pages_ocr;
  PassportExtractor.td3_code_checker := Some (fun _ => Ok None);
  PassportExtractor.spacy_model := Ok (Some (fun text =>
    if PyStr.contains_sub "Jane Doe" text then Ok [("Jane Doe", "PERSON")]
    else Ok [("John Roe", "PERSON")]));
  PassportExtractor.dateparser_parse := fun _ => Raise
|}.

(** Both pages of [env_two_pages] yield a last name; the theorem, applied to
    the second one, answers with the first. *)
Lemma ocr_fallback_witness :
  exists pre img' post data' r,
    PassportExtractor._get_images env_two_pages = (pre ++ img' :: post)%list
    /\ (forall p, p ∈ pre -> forall d, ~ ocr_hit env_two_pages two_pages_ocr p d)
    /\ ocr_hit env_two_pages two_pages_ocr img' data'
    /\ r = PassportData.set_confidence_score (Some (7 # 10))
             (PassportData.set_extraction_method (Some "OCR+NLP") data')
    /\ PassportExtractor.extract env_two_pages true = Ok r
    /\ PassportData.extraction_method r = Some "OCR+NLP"
    /\ PassportData.confidence_score r = Some (7 # 10)
    /\ r <> PassportExtractor.FAILED.
Proof.
  apply (ocr_fallback env_two_pages true _ 1%nat
           (PassportData.set_last_name (Some "Roe")
              (PassportData.set_first_name (Some "John") PassportData.empty))).
  - reflexivity.
  - vm_compute. reflexivity.
  - reflexivity.
  - right. left.
  - exists page_text_2. split; [reflexivity|]. split; [vm_compute; lia|].
    split; [vm_compute; reflexivity | right; reflexivity].
Defined.

(** ** The dates of the MRZ (C4) *)

(** Checking a property of characters on all 256 of them. *)
Definition all_ascii : list ascii := List.map ascii_of_nat (seq 0 256).

Lemma all_ascii_complete c : In c all_ascii.
Proof.
  unfold all_ascii. rewrite <- (ascii_nat_embedding c).
  apply in_map, in_seq. pose proof (nat_ascii_bounded c). lia.
Qed.

Lemma forall_ascii (P : ascii -> bool) :
  List.forallb P all_ascii = true -> forall c, P c = true.
Proof.
  intros H c. rewrite List.forallb_forall in H. apply H, all_ascii_complete.
Qed.

Lemma forall_ascii2 (P : ascii -> ascii -> bool) :
  List.forallb (fun a => List.forallb (P a) all_ascii) all_ascii = true ->
  forall a b, P a b = true.
Proof.
  intros H a b. apply (forall_ascii (P a)).
  exact (forall_ascii (fun a => List.forallb (P a) all_ascii) H a).
Qed.

(** A two-character group of a date. *)
Definition two (a b : ascii) : string := String a (String b "").

Definition is_sign (c : ascii) : bool :=
  bool_decide (c = "+"%char) || bool_decide (c = "-"%char).

(** The two-character strings that [int] accepts: two digits, or one digit
    behind a sign or a whitespace character, or one digit in front of a
    whitespace character. *)
Definition int2_accepts (a b : ascii) : bool :=
  (PyStr.is_digit a && PyStr.is_digit b)
  || ((PyStr.is_int_space a || is_sign a) && PyStr.is_digit b)
  || (PyStr.is_digit a && PyStr.is_int_space b).

Definition is_some {A} (o : option A) : bool :=
  match o with Some _ => true | None => false end.

Lemma int_two_accepts a b : is_some (PyStr.int (two a b)) = int2_accepts a b.
Proof.
  apply Bool.eqb_prop. revert a b.
  apply (forall_ascii2
           (fun a b => Bool.eqb (is_some (PyStr.int (two a b))) (int2_accepts a b))).
  vm_compute. reflexivity.
Qed.

Lemma int_two_digits a b :
  PyStr.is_digit a = true -> PyStr.is_digit b = true ->
  let v := (10 * PyStr.digit_val a + PyStr.digit_val b)%Z in
  PyStr.int (two a b) = Some v
  /\ PyStr.fmt_0d 2 v = two a b
  /\ PyStr.fmt_0d 4 (1900 + v) = String "1" (String "9" (two a b))
  /\ PyStr.fmt_0d 4 (2000 + v) = String "2" (String "0" (two a b)).
Proof.
  intros Ha Hb v. subst v. revert Ha Hb.
  set (P := fun a b =>
    if PyStr.is_digit a && PyStr.is_digit b
    then
      let v := (10 * PyStr.digit_val a + PyStr.digit_val b)%Z in
      bool_decide (PyStr.int (two a b) = Some v)
      && (bool_decide (PyStr.fmt_0d 2 v = two a b)
      && (bool_decide (PyStr.fmt_0d 4 (1900 + v) = String "1" (String "9" (two a b)))
      && bool_decide (PyStr.fmt_0d 4 (2000 + v) = String "2" (String "0" (two a b)))))
    else true).
  assert (H : forall a b, P a b = true).
  { apply forall_ascii2. vm_compute. reflexivity. }
  intros Ha Hb. specialize (H a b). unfold P in H. rewrite Ha, Hb in H.
  cbn [andb] in H. cbv zeta in H.
  apply andb_true_iff in H as [H1 H].
  apply andb_true_iff in H as [H2 H].
  apply andb_true_iff in H as [H3 H4].
  apply bool_decide_eq_true in H1, H2, H3, H4. auto.
Qed.

(** The six leading characters of a date string and what follows them. *)
Definition six (c0 c1 c2 c3 c4 c5 : ascii) (rest : string) : string :=
  String c0 (String c1 (String c2 (String c3 (String c4 (String c5 rest))))).

Lemma parse_mrz_date_six e c0 c1 c2 c3 c4 c5 rest :
  PassportExtractor._parse_mrz_date e (six c0 c1 c2 c3 c4 c5 rest)
  = match PyStr.int (two c0 c1), PyStr.int (two c2 c3), PyStr.int (two c4 c5) with
    | Some yy, Some mm, Some dd =>
        let year := (if yy >? PassportExtractor.now_year e mod 100 + 10
                     then 1900 + yy else 2000 + yy)%Z in
        Some (PyStr.app (PyStr.fmt_0d 4 year)
               (PyStr.app "-" (PyStr.app (PyStr.fmt_0d 2 mm)
                 (PyStr.app "-" (PyStr.fmt_0d 2 dd)))))
    | _, _, _ => None
    end.
Proof. reflexivity. Qed.

Lemma six_of_length s :
  (6 <= String.length s)%nat ->
  exists c0 c1 c2 c3 c4 c5 rest, s = six c0 c1 c2 c3 c4 c5 rest.
Proof.
  destruct s as [|c0 [|c1 [|c2 [|c3 [|c4 [|c5 rest]]]]]]; simpl; try lia.
  intros _. by exists c0, c1, c2, c3, c4, c5, rest.
Qed.

Lemma parse_mrz_date_None_iff e c0 c1 c2 c3 c4 c5 rest :
  PassportExtractor._parse_mrz_date e (six c0 c1 c2 c3 c4 c5 rest) = None
  <-> int2_accepts c0 c1 && int2_accepts c2 c3 && int2_accepts c4 c5 = false.
Proof.
  rewrite parse_mrz_date_six, <- !int_two_accepts.
  destruct (PyStr.int (two c0 c1)), (PyStr.int (two c2 c3)),
    (PyStr.int (two c4 c5)); simpl; split; congruence.
Qed.

(** On the alphabet of the MRZ, which has neither sign nor whitespace, the
    accepted groups are the pairs of digits. *)
Lemma int2_accepts_mrz a b :
  PassportExtractor.mrz_char a = true -> PassportExtractor.mrz_char b = true ->
  int2_accepts a b = PyStr.is_digit a && PyStr.is_digit b.
Proof.
  assert (H : forall c, (if PassportExtractor.mrz_char c
                         then negb (PyStr.is_int_space c || is_sign c)
                         else true) = true).
  { apply forall_ascii. vm_compute. reflexivity. }
  intros Ha Hb. pose proof (H a) as Ha'. pose proof (H b) as Hb'.
  rewrite Ha in Ha'. rewrite Hb in Hb'.
  apply negb_true_iff in Ha', Hb'.
  apply orb_false_iff in Hb' as [Hb' _].
  unfold int2_accepts. rewrite Ha', Hb'. cbn [andb].
  by rewrite andb_false_r, !orb_false_r.
Qed.

(** An ASCII character that is neither a sign nor whitespace to [int]; the
    characters of the MRZ alphabet are such. *)
Definition plain_char (c : ascii) : bool :=
  (PyStr.code c <? 128)%N && negb (PyStr.is_int_space c || is_sign c).

Lemma mrz_char_plain c : PassportExtractor.mrz_char c = true -> plain_char c = true.
Proof.
  assert (H : forall c, (if PassportExtractor.mrz_char c then plain_char c
                         else true) = true).
  { apply forall_ascii. vm_compute. reflexivity. }
  intros Hc. specialize (H c). by rewrite Hc in H.
Qed.

Lemma int2_accepts_plain a b :
  plain_char a = true -> plain_char b = true ->
  int2_accepts a b = PyStr.is_digit a && PyStr.is_digit b.
Proof.
  unfold plain_char. intros [_ Ha%negb_true_iff]%andb_true_iff
                            [_ Hb%negb_true_iff]%andb_true_iff.
  apply orb_false_iff in Hb as [Hb _].
  unfold int2_accepts. rewrite Ha, Hb. cbn [andb].
  by rewrite andb_false_r, !orb_false_r.
Qed.

(** The hypothesis of the last two parts of the theorem below is needed:
    [int] reads a digit behind a sign or a blank as a number.  A separator
    0x1c..0x1f is no such blank. *)
Lemma parse_mrz_date_outside_the_alphabet :
  PassportExtractor._parse_mrz_date env_all_fail "+10203" = Some "2001-02-03"
  /\ PassportExtractor._parse_mrz_date env_all_fail " 10203" = Some "2001-02-03"
  /\ PassportExtractor._parse_mrz_date env_all_fail "-1-1-1" = Some "1999--1--1"
  /\ PassportExtractor._parse_mrz_date env_all_fail (String "031" "10203") = None.
Proof. repeat split; vm_compute; reflexivity. Qed.

(** C4.  Date disambiguation of the MRZ, with [pivot = now_year mod 100],
    on the text that reaches [_parse_mrz_date]: a field of a validated MRZ
    line, which holds characters of the MRZ alphabet only.
    - For six digits YYMMDD the result is the ten characters
      [CCYY-MM-DD], where the century [CC] is 19 when [yy > pivot + 10] and
      20 otherwise, so that the year is [1900 + yy], respectively
      [2000 + yy]; the boundary [yy = pivot + 10] gives the 2000s.
    - An input shorter than 6 characters gives [None].
    - An input of at least 6 characters, the first six of them of the MRZ
      alphabet, gives [None] exactly when one of these six is not a digit.
    - The same holds when the first six characters are any ASCII characters
      other than a sign and whitespace.
    No case raises: the result is a date or [None]. *)
Theorem parse_mrz_date_spec e :
  let pivot := (PassportExtractor.now_year e mod 100)%Z in
  (forall y1 y2 m1 m2 d1 d2,
     PyStr.is_digit y1 = true -> PyStr.is_digit y2 = true ->
     PyStr.is_digit m1 = true -> PyStr.is_digit m2 = true ->
     PyStr.is_digit d1 = true -> PyStr.is_digit d2 = true ->
     let yy := (10 * PyStr.digit_val y1 + PyStr.digit_val y2)%Z in
     let year := (if yy >? pivot + 10 then 1900 + yy else 2000 + yy)%Z in
     let century := if (yy >? pivot + 10)%Z then "19" else "20" in
     PassportExtractor._parse_mrz_date e (six y1 y2 m1 m2 d1 d2 "")
     = Some (PyStr.app (PyStr.fmt_0d 4 year)
               (String "-" (String m1 (String m2
                  (String "-" (String d1 (String d2 "")))))))
     /\ PyStr.fmt_0d 4 year = PyStr.app century (two y1 y2)
     /\ (yy = pivot + 10 -> year = 2000 + yy)%Z)
  /\ (forall s, (String.length s < 6)%nat ->
        PassportExtractor._parse_mrz_date e s = None)
  /\ (forall c0 c1 c2 c3 c4 c5 rest,
        PyStr.forallb PassportExtractor.mrz_char (six c0 c1 c2 c3 c4 c5 "") = true ->
        PassportExtractor._parse_mrz_date e (six c0 c1 c2 c3 c4 c5 rest) = None
        <-> PyStr.forallb PyStr.is_digit (six c0 c1 c2 c3 c4 c5 "") = false)
  /\ (forall c0 c1 c2 c3 c4 c5 rest,
        PyStr.forallb plain_char (six c0 c1 c2 c3 c4 c5 "") = true ->
        PassportExtractor._parse_mrz_date e (six c0 c1 c2 c3 c4 c5 rest) = None
        <-> PyStr.forallb PyStr.is_digit (six c0 c1 c2 c3 c4 c5 "") = false).
Proof.
  intros pivot. split; [|split; [|split]].
  - intros y1 y2 m1 m2 d1 d2 Hy1 Hy2 Hm1 Hm2 Hd1 Hd2 yy year century.
    destruct (int_two_digits y1 y2 Hy1 Hy2) as (Hy & _ & H19 & H20).
    destruct (int_two_digits m1 m2 Hm1 Hm2) as (Hm & Hfm & _).
    destruct (int_two_digits d1 d2 Hd1 Hd2) as (Hd & Hfd & _).
    cbv zeta in Hy, Hm, Hd, Hfm, Hfd, H19, H20.
    rewrite parse_mrz_date_six, Hy, Hm, Hd. cbv zeta. rewrite Hfm, Hfd.
    fold pivot yy year. split; [reflexivity|]. split.
    + subst year century. fold yy in H19, H20.
      destruct (yy >? pivot + 10)%Z; [exact H19 | exact H20].
    + intros Heq. subst year.
      destruct (yy >? pivot + 10)%Z eqn:Hgt; [lia | reflexivity].
  - intros s Hlen. unfold PassportExtractor._parse_mrz_date.
    apply Nat.ltb_lt in Hlen. rewrite Hlen. by rewrite orb_true_r.
  - intros c0 c1 c2 c3 c4 c5 rest Hm. cbn [six PyStr.forallb] in Hm |- *.
    repeat (apply andb_true_iff in Hm as [? Hm]).
    rewrite parse_mrz_date_None_iff, !int2_accepts_mrz by assumption.
    rewrite andb_true_r.
    by rewrite <- !andb_assoc.
  - intros c0 c1 c2 c3 c4 c5 rest Hm. cbn [six PyStr.forallb] in Hm |- *.
    repeat (apply andb_true_iff in Hm as [? Hm]).
    rewrite parse_mrz_date_None_iff, !int2_accepts_plain by assumption.
    rewrite andb_true_r.
    by rewrite <- !andb_assoc.
Qed.

(** The boundary year 34 read in 2024, and a birth date in which OCR has
    put the letter O for a zero. *)
Lemma parse_mrz_date_spec_witness :
  (PassportExtractor._parse_mrz_date env_all_fail (six "3" "4" "0" "1" "3" "1" "")
   = Some (PyStr.app (PyStr.fmt_0d 4 2034) "-01-31")
   /\ PyStr.fmt_0d 4 2034 = "2034"
   /\ (34 = 2024 mod 100 + 10 -> 2034 = 2000 + 34)%Z)
  /\ PassportExtractor._parse_mrz_date env_all_fail "74O812" = None
  /\ PassportExtractor._parse_mrz_date env_all_fail "74.08." = None.
Proof.
  destruct (parse_mrz_date_spec env_all_fail) as (H & _ & Hn & Hp).
  split; [|split].
  - exact (H "3"%char "4"%char "0"%char "1"%char "3"%char "1"%char
             eq_refl eq_refl eq_refl eq_refl eq_refl eq_refl).
  - apply (Hn "7"%char "4"%char "O"%char "8"%char "1"%char "2"%char "").
    + reflexivity.
    + reflexivity.
  - apply (Hp "7"%char "4"%char "."%char "0"%char "8"%char "."%char "").
    + reflexivity.
    + reflexivity.
Defined.

(** ** The MRZ line scanner (C7) *)

Lemma length_app s t :
  String.length (PyStr.app s t) = (String.length s + String.length t)%nat.
Proof. induction s as [|c s IH]; simpl; [reflexivity | by rewrite IH]. Qed.

Lemma length_repeat c n : String.length (PyStr.repeat c n) = n.
Proof. induction n as [|n IH]; simpl; [reflexivity | by rewrite IH]. Qed.

Lemma length_take n s :
  String.length (PyStr.take n s) = Nat.min n (String.length s).
Proof.
  revert s. induction n as [|n IH]; intros [|c s]; simpl; try reflexivity.
  by rewrite IH.
Qed.

Lemma app_empty_r s : PyStr.app s "" = s.
Proof. induction s as [|c s IH]; simpl; [reflexivity | by rewrite IH]. Qed.

Lemma take_all n s : (String.length s <= n)%nat -> PyStr.take n s = s.
Proof.
  revert s. induction n as [|n IH]; intros [|c s]; simpl; try reflexivity.
  - lia.
  - intros H. rewrite IH; [reflexivity | lia].
Qed.

Lemma forallb_app p s t :
  PyStr.forallb p (PyStr.app s t) = PyStr.forallb p s && PyStr.forallb p t.
Proof.
  induction s as [|c s IH]; simpl; [reflexivity|]. by rewrite IH, andb_assoc.
Qed.

Lemma forallb_repeat p c n : p c = true -> PyStr.forallb p (PyStr.repeat c n) = true.
Proof. intros H. induction n as [|n IH]; simpl; [reflexivity | by rewrite H, IH]. Qed.

Lemma forallb_take p n s :
  PyStr.forallb p s = true -> PyStr.forallb p (PyStr.take n s) = true.
Proof.
  revert s. induction n as [|n IH]; intros [|c s]; simpl; try reflexivity.
  intros [-> H]%andb_true_iff. by rewrite IH.
Qed.

Lemma forallb_filter p s : PyStr.forallb p (PyStr.filter p s) = true.
Proof.
  induction s as [|c s IH]; simpl; [reflexivity|].
  destruct (p c) eqn:H; simpl; [by rewrite H, IH | exact IH].
Qed.

Lemma filter_id p s : PyStr.forallb p s = true -> PyStr.filter p s = s.
Proof.
  induction s as [|c s IH]; simpl; [reflexivity|].
  intros [-> H]%andb_true_iff. by rewrite IH.
Qed.

Lemma map_id f p s :
  (forall c, p c = true -> f c = c) ->
  PyStr.forallb p s = true -> PyStr.map f s = s.
Proof.
  intros Hf. induction s as [|c s IH]; simpl; [reflexivity|].
  intros [Hc H]%andb_true_iff. by rewrite (Hf c Hc), IH.
Qed.

(** A string in which the first character of [old] does not occur is left
    alone by [replace]. *)
Lemma replace_id c0 old' new p s :
  (forall c, p c = true -> c <> c0) ->
  PyStr.forallb p s = true ->
  PyStr.replace (String c0 old') new s = s.
Proof.
  intros Hp. unfold PyStr.replace.
  induction s as [|c s IH]; [reflexivity|].
  intros [Hc H]%andb_true_iff. cbn [PyStr.replace_go PyStr.is_prefix].
  destruct (ascii_dec c0 c) as [<-|_]; [by destruct (Hp c0 Hc)|].
  cbn [andb]. by rewrite IH.
Qed.

Lemma rev_onto_twice s acc acc' :
  PyStr.rev_onto (PyStr.rev_onto s acc) acc' = PyStr.rev_onto acc (PyStr.app s acc').
Proof.
  revert acc acc'. induction s as [|c s IH]; intros acc acc'; simpl; [reflexivity|].
  by rewrite IH.
Qed.

Lemma rev_involutive s : PyStr.rev (PyStr.rev s) = s.
Proof. unfold PyStr.rev. rewrite rev_onto_twice. simpl. apply app_empty_r. Qed.

(** A text without line feed is one line. *)
Lemma split_one_line p s :
  (forall c, p c = true -> c <> "010"%char) ->
  PyStr.forallb p s = true ->
  PyStr.split "010" s = [s].
Proof.
  intros Hp Hs. unfold PyStr.split.
  assert (H : forall cur,
    PyStr.split_go "010" cur s = [PyStr.rev (PyStr.rev_onto s cur)]).
  { induction s as [|c s IH]; intros cur; [reflexivity|].
    apply andb_true_iff in Hs as [Hc Hs]. cbn [PyStr.split_go PyStr.rev_onto].
    destruct (ascii_dec c "010") as [->|_]; [by destruct (Hp _ Hc)|].
    by apply IH. }
  rewrite H. f_equal. apply rev_involutive.
Qed.

(** What the characters of the MRZ alphabet are not. *)
Lemma mrz_char_facts c :
  PassportExtractor.mrz_char c = true ->
  PyStr.upper_char c = c
  /\ c <> " "%char /\ c <> "194"%char /\ c <> "226"%char /\ c <> "010"%char.
Proof.
  set (P := fun c =>
    if PassportExtractor.mrz_char c
    then bool_decide (PyStr.upper_char c = c)
         && (negb (bool_decide (c = " "%char))
         && (negb (bool_decide (c = "194"%char))
         && (negb (bool_decide (c = "226"%char))
         && negb (bool_decide (c = "010"%char)))))
    else true).
  assert (H : forall c, P c = true).
  { apply forall_ascii. vm_compute. reflexivity. }
  intros Hc. specialize (H c). unfold P in H. rewrite Hc in H.
  apply andb_true_iff in H as [H1 H].
  apply andb_true_iff in H as [H2 H].
  apply andb_true_iff in H as [H3 H].
  apply andb_true_iff in H as [H4 H5].
  apply bool_decide_eq_true in H1.
  apply negb_true_iff, bool_decide_eq_false in H2, H3, H4, H5. auto.
Qed.

Lemma clean_line_mrz l :
  PyStr.forallb PassportExtractor.mrz_char l = true ->
  PassportExtractor.clean_line l = l.
Proof.
  intros H. unfold PassportExtractor.clean_line,
    PassportExtractor.single_guillemet, PassportExtractor.double_guillemet.
  rewrite (replace_id " " "" "" PassportExtractor.mrz_char l)
    by (exact H || (intros c Hc; by apply mrz_char_facts in Hc as (_ & ? & _))).
  rewrite (replace_id "194" _ "<" PassportExtractor.mrz_char l)
    by (exact H || (intros c Hc; by apply mrz_char_facts in Hc as (_ & _ & ? & _))).
  rewrite (replace_id "226" _ "<" PassportExtractor.mrz_char l)
    by (exact H || (intros c Hc; by apply mrz_char_facts in Hc as (_ & _ & _ & ? & _))).
  by apply filter_id.
Qed.

Lemma clean_line_alphabet line :
  PyStr.forallb PassportExtractor.mrz_char (PassportExtractor.clean_line line) = true.
Proof. apply forallb_filter. Qed.

Lemma is_candidate_iff c :
  PyStr.forallb PassportExtractor.mrz_char c = true ->
  PassportExtractor.is_candidate c = true
  <-> (42 <= String.length c <= 46)%nat.
Proof.
  intros Hc. unfold PassportExtractor.is_candidate. split.
  - intros [[_ H1%Nat.leb_le]%andb_true_iff H2%Nat.leb_le]%andb_true_iff. lia.
  - intros [H1 H2].
    assert (Hrun : PassportExtractor.mrz_run c = true).
    { unfold PassportExtractor.mrz_run. rewrite Hc. cbn [andb].
      apply andb_true_iff. split; apply Nat.leb_le; lia. }
    unfold PassportExtractor.mrz_pattern. rewrite Hrun. cbn [orb andb].
    apply andb_true_iff. split; by apply Nat.leb_le.
Qed.

Lemma normalize_length c :
  String.length (PassportExtractor.normalize_mrz_line c) = 44%nat.
Proof.
  unfold PassportExtractor.normalize_mrz_line.
  destruct (String.length c <? 44)%nat eqn:H1.
  - apply Nat.ltb_lt in H1. rewrite length_app, length_repeat. lia.
  - apply Nat.ltb_ge in H1. destruct (44 <? String.length c)%nat eqn:H2.
    + apply Nat.ltb_lt in H2. rewrite length_take. lia.
    + apply Nat.ltb_ge in H2. lia.
Qed.

Lemma normalize_short c :
  (String.length c <= 44)%nat ->
  PassportExtractor.normalize_mrz_line c
  = PyStr.app c (PyStr.repeat "<" (44 - String.length c)).
Proof.
  intros H. unfold PassportExtractor.normalize_mrz_line.
  destruct (String.length c <? 44)%nat eqn:H1; [reflexivity|].
  apply Nat.ltb_ge in H1. assert (Heq : String.length c = 44%nat) by lia.
  rewrite Heq. cbn [Nat.ltb Nat.leb Nat.sub PyStr.repeat]. simpl.
  by rewrite app_empty_r.
Qed.

Lemma normalize_long c :
  (44 <= String.length c)%nat ->
  PassportExtractor.normalize_mrz_line c = PyStr.take 44 c.
Proof.
  intros H. unfold PassportExtractor.normalize_mrz_line.
  destruct (String.length c <? 44)%nat eqn:H1; [apply Nat.ltb_lt in H1; lia|].
  destruct (44 <? String.length c)%nat eqn:H2; [reflexivity|].
  apply Nat.ltb_ge in H2. symmetry. apply take_all. lia.
Qed.

Lemma normalize_fixed l :
  String.length l = 44%nat -> PassportExtractor.normalize_mrz_line l = l.
Proof.
  intros H. rewrite normalize_long by lia. apply take_all. lia.
Qed.

Lemma normalize_alphabet c :
  PyStr.forallb PassportExtractor.mrz_char c = true ->
  PyStr.forallb PassportExtractor.mrz_char (PassportExtractor.normalize_mrz_line c)
  = true.
Proof.
  intros H. unfold PassportExtractor.normalize_mrz_line.
  destruct (_ <? 44)%nat.
  - rewrite forallb_app, H. by apply forallb_repeat.
  - destruct (44 <? _)%nat; [by apply forallb_take | exact H].
Qed.

(** Every candidate that the scanner keeps is 44 characters of the MRZ
    alphabet. *)
Lemma candidates_normalized lines :
  Forall (fun c => String.length c = 44%nat
                   /\ PyStr.forallb PassportExtractor.mrz_char c = true)
         (PassportExtractor.candidates lines).
Proof.
  induction lines as [|line rest IH]; [constructor|].
  cbn [PassportExtractor.candidates]. cbv zeta.
  destruct (PassportExtractor.is_candidate _); [|exact IH].
  constructor; [|exact IH]. split.
  - apply normalize_length.
  - apply normalize_alphabet, clean_line_alphabet.
Qed.

(** The scanner, run on a line that is already normalized, keeps it as it
    is. *)
Lemma scan_normalized_line l :
  String.length l = 44%nat ->
  PyStr.forallb PassportExtractor.mrz_char l = true ->
  PassportExtractor.candidates (PyStr.split "010" (PyStr.upper l)) = [l].
Proof.
  intros Hlen Hl.
  assert (Hup : PyStr.upper l = l).
  { apply (map_id _ PassportExtractor.mrz_char); [|exact Hl].
    intros c Hc. by apply mrz_char_facts in Hc as (? & _). }
  rewrite Hup.
  rewrite (split_one_line PassportExtractor.mrz_char) by
    (exact Hl || (intros c Hc; by apply mrz_char_facts in Hc as (_ & _ & _ & _ & ?))).
  cbn [PassportExtractor.candidates]. cbv zeta. rewrite (clean_line_mrz l Hl).
  rewrite (proj2 (is_candidate_iff l Hl)) by lia.
  by rewrite normalize_fixed.
Qed.

Lemma split_go_app sep cur a b :
  PyStr.split_go sep cur (PyStr.app a (String sep b))
  = (PyStr.split_go sep cur a ++ PyStr.split_go sep "" b)%list.
Proof.
  revert cur. induction a as [|c a IH]; intros cur.
  - cbn [PyStr.app PyStr.split_go]. by destruct (ascii_dec sep sep).
  - cbn [PyStr.app PyStr.split_go].
    destruct (ascii_dec c sep); [by rewrite IH | apply IH].
Qed.

Lemma upper_app a b : PyStr.upper (PyStr.app a b) = PyStr.app (PyStr.upper a) (PyStr.upper b).
Proof.
  unfold PyStr.upper. induction a as [|c a IH]; [reflexivity|].
  cbn [PyStr.app PyStr.map]. by rewrite IH.
Qed.

Lemma candidates_app l1 l2 :
  PassportExtractor.candidates (l1 ++ l2)%list
  = (PassportExtractor.candidates l1 ++ PassportExtractor.candidates l2)%list.
Proof.
  induction l1 as [|line l1 IH]; [reflexivity|].
  cbn [app PassportExtractor.candidates]. cbv zeta.
  destruct (PassportExtractor.is_candidate _); [|exact IH].
  by rewrite IH.
Qed.

(** The candidates of a text: the normalized candidate lines, in the order
    of the text. *)
Definition text_candidates (text : string) : list string :=
  PassportExtractor.candidates (PyStr.split "010" (PyStr.upper text)).

Lemma text_candidates_lines a b :
  text_candidates (PyStr.app a (String "010" b))
  = (text_candidates a ++ text_candidates b)%list.
Proof.
  unfold text_candidates, PyStr.split. rewrite upper_app.
  change (PyStr.upper (String "010" b)) with (String "010" (PyStr.upper b)).
  by rewrite split_go_app, candidates_app.
Qed.

Definition not_newline (c : ascii) : bool := negb (bool_decide (c = "010"%char)).

Lemma split_no_newline s :
  PyStr.forallb not_newline s = true ->
  PyStr.split "010" (PyStr.upper s) = [PyStr.upper s].
Proof.
  intros Hs. apply (split_one_line not_newline).
  - intros c Hc ->. discriminate Hc.
  - assert (Hc : forall c, (if not_newline c then not_newline (PyStr.upper_char c)
                            else true) = true).
    { apply forall_ascii. vm_compute. reflexivity. }
    unfold PyStr.upper. induction s as [|c s IH]; [reflexivity|].
    cbn [PyStr.forallb PyStr.map] in Hs |- *.
    apply andb_true_iff in Hs as [Hc' Hs].
    pose proof (Hc c) as Hu. rewrite Hc' in Hu. rewrite Hu. by apply IH.
Qed.

Lemma candidates_filter lines :
  PassportExtractor.candidates lines
  = List.map (fun line =>
                PassportExtractor.normalize_mrz_line (PassportExtractor.clean_line line))
      (List.filter (fun line =>
                      PassportExtractor.is_candidate (PassportExtractor.clean_line line))
         lines).
Proof.
  induction lines as [|line rest IH]; [reflexivity|].
  cbn [PassportExtractor.candidates List.filter]. cbv zeta.
  destruct (PassportExtractor.is_candidate _); [|exact IH].
  cbn [List.map]. by rewrite IH.
Qed.

(** A text of one line whose cleaned form has 42 to 46 characters. *)
Lemma text_candidates_line s :
  PyStr.forallb not_newline s = true ->
  (42 <= String.length (PassportExtractor.clean_line (PyStr.upper s)) <= 46)%nat ->
  text_candidates s
  = [PassportExtractor.normalize_mrz_line
       (PassportExtractor.clean_line (PyStr.upper s))].
Proof.
  intros Hs Hlen. unfold text_candidates. rewrite (split_no_newline s Hs).
  cbn [PassportExtractor.candidates]. cbv zeta.
  by rewrite (proj2 (is_candidate_iff _ (clean_line_alphabet _)) Hlen).
Qed.

(** The two lines of the specimen passport of ICAO Doc 9303. *)
Definition specimen_line1 : string := "P<UTOERIKSSON<<ANNA<MARIA<<<<<<<<<<<<<<<<<<<".
Definition specimen_line2 : string := "L898902C36UTO7408122F1204159ZE184226B<<<<<10".

(** C7.  Normalization of MRZ candidates.
    - A cleaned line consists of characters of the MRZ alphabet only, and is
      a candidate exactly when its length lies in [42, 46].
    - The candidates of a list of lines are the normalized forms of the
      cleaned lines that are candidates, in the order of the lines.
    - Normalization gives exactly 44 characters of the alphabet: the line
      followed by fillers when it is shorter, its first 44 characters when
      it is longer; so every candidate that the scanner keeps is such a
      line.
    - Normalization is idempotent, a line of 44 characters is returned
      unchanged, and the scanner run on an already normalized line keeps
      that line unchanged.
    - With fewer than two candidates no MRZ is found; otherwise the first
      two candidates are the pair.  So a text of two lines whose cleaned
      forms have 42 to 46 characters gives the pair of their normalized
      forms, padded or truncated. *)
Theorem mrz_normalization :
  (forall line,
     PyStr.forallb PassportExtractor.mrz_char (PassportExtractor.clean_line line) = true
     /\ (PassportExtractor.is_candidate (PassportExtractor.clean_line line) = true
         <-> (42 <= String.length (PassportExtractor.clean_line line) <= 46)%nat))
  /\ (forall lines,
        PassportExtractor.candidates lines
        = List.map (fun line =>
                      PassportExtractor.normalize_mrz_line
                        (PassportExtractor.clean_line line))
            (List.filter (fun line =>
                            PassportExtractor.is_candidate
                              (PassportExtractor.clean_line line))
               lines))
  /\ (forall c,
        String.length (PassportExtractor.normalize_mrz_line c) = 44%nat
        /\ ((String.length c <= 44)%nat ->
            PassportExtractor.normalize_mrz_line c
            = PyStr.app c (PyStr.repeat "<" (44 - String.length c)))
        /\ ((44 <= String.length c)%nat ->
            PassportExtractor.normalize_mrz_line c = PyStr.take 44 c)
        /\ (PyStr.forallb PassportExtractor.mrz_char c = true ->
            PyStr.forallb PassportExtractor.mrz_char
              (PassportExtractor.normalize_mrz_line c) = true))
  /\ (forall lines,
        Forall (fun c => String.length c = 44%nat
                         /\ PyStr.forallb PassportExtractor.mrz_char c = true)
               (PassportExtractor.candidates lines))
  /\ (forall c,
        PassportExtractor.normalize_mrz_line (PassportExtractor.normalize_mrz_line c)
        = PassportExtractor.normalize_mrz_line c)
  /\ (forall l, String.length l = 44%nat ->
        PassportExtractor.normalize_mrz_line l = l)
  /\ (forall l,
        String.length l = 44%nat ->
        PyStr.forallb PassportExtractor.mrz_char l = true ->
        PassportExtractor.candidates (PyStr.split "010" (PyStr.upper l)) = [l])
  /\ (forall text,
        (length (PassportExtractor.candidates
                   (PyStr.split "010" (PyStr.upper text))) < 2)%nat ->
        PassportExtractor._find_mrz_lines text = None)
  /\ (forall text c0 c1 rest,
        PassportExtractor.candidates (PyStr.split "010" (PyStr.upper text))
        = c0 :: c1 :: rest ->
        PassportExtractor._find_mrz_lines text = Some (c0, c1))
  /\ (forall a b,
        PyStr.forallb not_newline a = true ->
        PyStr.forallb not_newline b = true ->
        (42 <= String.length (PassportExtractor.clean_line (PyStr.upper a)) <= 46)%nat ->
        (42 <= String.length (PassportExtractor.clean_line (PyStr.upper b)) <= 46)%nat ->
        PassportExtractor._find_mrz_lines (PyStr.app a (String "010" b))
        = Some (PassportExtractor.normalize_mrz_line
                  (PassportExtractor.clean_line (PyStr.upper a)),
                PassportExtractor.normalize_mrz_line
                  (PassportExtractor.clean_line (PyStr.upper b)))).
Proof.
  split; [|split; [|split; [|split; [|split; [|split; [|split; [|split; [|split]]]]]]]].
  - intros line. split; [apply clean_line_alphabet|].
    apply is_candidate_iff, clean_line_alphabet.
  - apply candidates_filter.
  - intros c. split; [apply normalize_length|].
    split; [apply normalize_short|]. split; [apply normalize_long|].
    apply normalize_alphabet.
  - apply candidates_normalized.
  - intros c. apply normalize_fixed, normalize_length.
  - apply normalize_fixed.
  - apply scan_normalized_line.
  - intros text. unfold PassportExtractor._find_mrz_lines.
    destruct (PassportExtractor.candidates _) as [|c0 [|c1 rest]];
      simpl; [reflexivity | reflexivity | lia].
  - intros text c0 c1 rest H. unfold PassportExtractor._find_mrz_lines.
    by rewrite H.
  - intros a b Ha Hb Hla Hlb. unfold PassportExtractor._find_mrz_lines.
    fold (text_candidates (PyStr.app a (String "010" b))).
    rewrite text_candidates_lines.
    by rewrite (text_candidates_line a Ha Hla), (text_candidates_line b Hb Hlb).
Qed.

(** A first line that lacks two fillers and a second line, in lower case
    and with a blank, that has two characters too many: the pair found is
    the pair of the specimen.  One line alone gives no pair. *)
Lemma mrz_normalization_witness :
  PassportExtractor._find_mrz_lines
    (PyStr.app "P<UTOERIKSSON<<ANNA<MARIA<<<<<<<<<<<<<<<<<"
       (String "010" "l898902c36uto 7408122f1204159ze184226b<<<<<10xy"))
  = Some (specimen_line1, specimen_line2)
  /\ PassportExtractor.candidates (PyStr.split "010" (PyStr.upper specimen_line2))
     = [specimen_line2]
  /\ PassportExtractor._find_mrz_lines specimen_line2 = None.
Proof.
  destruct mrz_normalization as (_ & _ & _ & _ & _ & _ & Hscan & Hnone & _ & Hpair).
  split; [|split].
  - apply (Hpair "P<UTOERIKSSON<<ANNA<MARIA<<<<<<<<<<<<<<<<<"
                 "l898902c36uto 7408122f1204159ze184226b<<<<<10xy").
    + reflexivity.
    + reflexivity.
    + vm_compute. lia.
    + vm_compute. lia.
  - apply (Hscan specimen_line2); reflexivity.
  - apply (Hnone specimen_line2). vm_compute. lia.
Defined.

(** * The embedding on concrete inputs *)

Example int_examples :
  PyStr.int "07" = Some 7%Z /\ PyStr.int " 7" = Some 7%Z
  /\ PyStr.int "-7" = Some (-7)%Z /\ PyStr.int "7_" = None
  /\ PyStr.int "1_2" = Some 12%Z /\ PyStr.int "<<" = None
  /\ PyStr.int (String "009" "7") = Some 7%Z
  /\ PyStr.int (String "031" "7") = None
  /\ PyStr.strip (String "031" "7") = "7".
Proof. repeat split. Qed.

Example len_examples :
  PyStr.len "" = 0%nat /\ PyStr.len "MRZ" = 3%nat
  /\ PyStr.len PassportExtractor.double_guillemet = 1%nat
  /\ PyStr.len PassportExtractor.single_guillemet = 1%nat.
Proof. repeat split. Qed.

Example format_examples :
  PyStr.fmt_0d 2 0 = "00" /\ PyStr.fmt_0d 2 (-1) = "-1"
  /\ PyStr.fmt_0d 3 (-1) = "-01" /\ PyStr.fmt_0d 4 1999 = "1999".
Proof. repeat split. Qed.

Example string_examples :
  PyStr.replace "<" " " "A<<B<" = "A  B "
  /\ PyStr.replace "aa" "b" "aaaxaa" = "baxb"
  /\ PyStr.split "a" "xaay" = ["x"; ""; "y"]
  /\ PyStr.words "  ab  c " = ["ab"; "c"]
  /\ PyStr.title "o'NEIL mc-x" = "O'Neil Mc-X"
  /\ PyStr.strip "  a b  " = "a b"
  /\ PyStr.split_on "```" "a```b```c" = ["a"; "b"; "c"].
Proof. repeat split. Qed.

Example normalize_state_examples :
  normalize_state (Some " New York ") = Some "NY"
  /\ normalize_state (Some "tx") = Some "TX"
  /\ normalize_state (Some "Ontario") = Some "ON".
Proof. repeat split; vm_compute; reflexivity. Qed.

(** The dates of the design document, read in 2024. *)
Example date_examples :
  PassportExtractor._parse_mrz_date env_all_fail "300101" = Some "2030-01-01"
  /\ PassportExtractor._parse_mrz_date env_all_fail "700101" = Some "1970-01-01"
  /\ PassportExtractor._parse_mrz_date env_all_fail "340101" = Some "2034-01-01"
  /\ PassportExtractor._parse_mrz_date env_all_fail "350101" = Some "1935-01-01"
  /\ PassportExtractor._parse_mrz_date env_all_fail "3001<1" = None
  /\ PassportExtractor._parse_mrz_date env_all_fail "30010" = None.
Proof. repeat split; vm_compute; reflexivity. Qed.

(** The specimen lines as OCR may read them: one filler short, and in
    lower case with blanks. *)
Example find_mrz_lines_example :
  PassportExtractor._find_mrz_lines
    (PyStr.app "P<UTOERIKSSON<<ANNA<MARIA<<<<<<<<<<<<<<<<<<"
       (String "010"
          (PyStr.app "l898902c36uto7408122f1204159ze184226b<<<<<10 "
             (String "010" "Signature"))))
  = Some (specimen_line1, specimen_line2).
Proof. vm_compute. reflexivity. Qed.

(** The scores of the design document: both names and nothing else, and
    no field at all. *)
Example confidence_examples :
  G28Extractor._calculate_confidence
    (AttorneyData.setattr AttorneyData.a_last_name (Some "Smith")
       (AttorneyData.setattr AttorneyData.a_first_name (Some "John")
          AttorneyData.empty)) = 1 # 2
  /\ G28Extractor.above_threshold (1 # 2) = true
  /\ G28Extractor._calculate_confidence AttorneyData.empty = 0 # 1
  /\ G28Extractor.above_threshold (0 # 1) = false.
Proof. repeat split. Qed.

(** * Further properties of the extractors *)

(** ** The confidence score of a representative record *)

Lemma present_le fields data :
  (G28Extractor.present fields data <= length fields)%nat.
Proof. unfold G28Extractor.present. apply length_filter. Qed.

(** The score as a function of the two counts. *)
Definition score_of (r i : nat) : Q :=
  let total := (inject_Z (Z.of_nat r) / inject_Z 2 * (5 # 10)
                + inject_Z (Z.of_nat i) / inject_Z 4 * (5 # 10))%Q in
  Qred (if Qle_bool 1 total then 1 else total)%Q.

Lemma calculate_confidence_counts data :
  G28Extractor._calculate_confidence data
  = score_of (G28Extractor.present G28Extractor.required data)
             (G28Extractor.present G28Extractor.important data).
Proof. reflexivity. Qed.

Lemma score_of_table r i :
  (r <= 2)%nat -> (i <= 4)%nat ->
  score_of r i = Qred (Z.of_nat (2 * r + i) # 8)
  /\ (0 <= score_of r i)%Q /\ (score_of r i <= 1)%Q
  /\ (G28Extractor.above_threshold (score_of r i) = true <-> (3 <= 2 * r + i)%nat).
Proof.
  intros Hr Hi.
  assert (Hr' : (r = 0 \/ r = 1 \/ r = 2)%nat) by lia.
  assert (Hi' : (i = 0 \/ i = 1 \/ i = 2 \/ i = 3 \/ i = 4)%nat) by lia.
  destruct Hr' as [-> | [-> | ->]]; destruct Hi' as [-> | [-> | [-> | [-> | ->]]]];
    (split; [reflexivity|]; split; [discriminate|]; split; [discriminate|];
     split; [intros H; vm_compute in H; try discriminate H; lia
            | intros H; vm_compute; first [reflexivity | lia]]).
Qed.

(** X1.  The score of a representative record is one eighth of (twice the
    number of required fields present plus the number of important fields
    present).  It lies in [0, 1], so the cap at 1.0 never cuts anything, and
    it exceeds the threshold 0.3 exactly when that weighted count is at
    least 3: both names, or one name and an important field, or three
    important fields. *)
Theorem confidence_is_weighted_count data :
  let r := G28Extractor.present G28Extractor.required data in
  let i := G28Extractor.present G28Extractor.important data in
  (r <= 2)%nat /\ (i <= 4)%nat
  /\ G28Extractor._calculate_confidence data = Qred (Z.of_nat (2 * r + i) # 8)
  /\ (0 <= G28Extractor._calculate_confidence data)%Q
  /\ (G28Extractor._calculate_confidence data <= 1)%Q
  /\ (G28Extractor.above_threshold (G28Extractor._calculate_confidence data) = true
      <-> (3 <= 2 * r + i)%nat).
Proof.
  intros r i.
  assert (Hr : (r <= 2)%nat) by apply present_le.
  assert (Hi : (i <= 4)%nat) by apply present_le.
  split; [exact Hr|]. split; [exact Hi|].
  rewrite calculate_confidence_counts. fold r i.
  apply score_of_table; assumption.
Qed.

(** ** What the passport orchestrator can return *)

Lemma ocr_pages_Some e image_to_string images data :
  PassportExtractor.ocr_pages e image_to_string images = Some data ->
  exists img, img ∈ images /\ ocr_hit e image_to_string img data.
Proof.
  induction images as [|i rest IH]; [discriminate|].
  cbn [PassportExtractor.ocr_pages]. unfold catch.
  destruct (PassportExtractor.ocr_page e image_to_string i) as [[d|]|] eqn:Hp.
  - intros [= <-]. exists i. split; [left | by apply ocr_page_Some].
  - intros (img & ? & ?)%IH. exists img. split; [by right | done].
  - intros (img & ? & ?)%IH. exists img. split; [by right | done].
Qed.

Lemma extract_via_ocr_Some e images data :
  PassportExtractor._extract_via_ocr e images = Some data ->
  exists image_to_string img,
    PassportExtractor.pytesseract e = Some image_to_string
    /\ img ∈ images /\ ocr_hit e image_to_string img data.
Proof.
  unfold PassportExtractor._extract_via_ocr.
  destruct (PassportExtractor.pytesseract e) as [f|]; [|discriminate].
  intros (img & ? & ?)%ocr_pages_Some. by exists f, img.
Qed.

Lemma accepted_mrz_Some e images data :
  PassportExtractor.accepted_mrz e images = Some data ->
  PassportExtractor._extract_mrz e images = Some data
  /\ truthy (PassportData.passport_number data) = true.
Proof.
  unfold PassportExtractor.accepted_mrz.
  destruct (PassportExtractor._extract_mrz e images) as [d|]; [|discriminate].
  destruct (truthy _) eqn:H; [|discriminate]. by intros [= <-].
Qed.

(** X2.  The method and the confidence of a passport record come in four
    pairs, LLM_OPENAI and MRZ with 0.95, OCR+NLP with 0.7, FAILED with 0.0,
    and every record other than the [FAILED] one holds a passport number or
    a last name. *)
Theorem passport_result_shape e use_llm r :
  PassportExtractor.extract e use_llm = Ok r ->
  ((PassportData.extraction_method r = Some "LLM_OPENAI"
    /\ PassportData.confidence_score r = Some (95 # 100))
   \/ (PassportData.extraction_method r = Some "MRZ"
       /\ PassportData.confidence_score r = Some (95 # 100))
   \/ (PassportData.extraction_method r = Some "OCR+NLP"
       /\ PassportData.confidence_score r = Some (7 # 10))
   \/ r = PassportExtractor.FAILED)
  /\ (r <> PassportExtractor.FAILED ->
      truthy (PassportData.passport_number r) = true
      \/ truthy (PassportData.last_name r) = true)
  /\ (use_llm = false -> PassportData.extraction_method r <> Some "LLM_OPENAI").
Proof.
  intros Hr. destruct (passport_extract_outcome e use_llm) as (r' & Hr' & Ho).
  rewrite Hr in Hr'. injection Hr' as <-.
  destruct Ho as [r Hl | d Hl Hm | d Hl Hm Ho | Hl Hm Ho].
  - apply try_llm_Some in Hl as (-> & Hx & Hacc).
    apply llm_extract_inv in Hx as (_ & Hm & Hc).
    split; [left; by split|]. split; [|discriminate].
    intros _. apply orb_true_iff, Hacc.
  - apply accepted_mrz_Some in Hm as [_ Hpn].
    split; [right; left; by split|]. split; [by left | discriminate].
  - apply extract_via_ocr_Some in Ho as (f & img & _ & _ & text & _ & _ & _ & Hf).
    split; [right; right; left; by split|]. split; [by intros _ | discriminate].
  - split; [by right; right; right|]. split; [done | discriminate].
Qed.

Lemma passport_result_shape_witness :
  ((PassportData.extraction_method ocr_record = Some "LLM_OPENAI"
    /\ PassportData.confidence_score ocr_record = Some (95 # 100))
   \/ (PassportData.extraction_method ocr_record = Some "MRZ"
       /\ PassportData.confidence_score ocr_record = Some (95 # 100))
   \/ (PassportData.extraction_method ocr_record = Some "OCR+NLP"
       /\ PassportData.confidence_score ocr_record = Some (7 # 10))
   \/ ocr_record = PassportExtractor.FAILED)
  /\ (ocr_record <> PassportExtractor.FAILED ->
      truthy (PassportData.passport_number ocr_record) = true
      \/ truthy (PassportData.last_name ocr_record) = true)
  /\ (true = false -> PassportData.extraction_method ocr_record <> Some "LLM_OPENAI").
Proof.
  apply (passport_result_shape env_ocr_only true ocr_record).
  vm_compute. reflexivity.
Defined.

(** ** What the representative orchestrator can return *)

Lemma beneficiary_entry_passport_number form_fields setter names d :
  (forall v x, PassportData.passport_number (setter v x) = PassportData.passport_number x) ->
  PassportData.passport_number (G28Extractor.apply_entry form_fields d (setter, names))
  = PassportData.passport_number d.
Proof.
  intros Hs. unfold G28Extractor.apply_entry. cbn [fst snd].
  revert d. induction names as [|name rest IH]; intros d; [reflexivity|].
  cbn [fold_left]. rewrite IH.
  destruct (G28Extractor.first_usable _ _); [apply Hs | reflexivity].
Qed.

Lemma beneficiary_has_no_passport_number form_fields :
  PassportData.passport_number
    (G28Extractor.apply_mappings form_fields G28Extractor.beneficiary_mappings
       PassportData.empty) = None.
Proof.
  unfold G28Extractor.apply_mappings, G28Extractor.beneficiary_mappings.
  cbn [fold_left].
  rewrite !beneficiary_entry_passport_number by reflexivity. reflexivity.
Qed.

Lemma tag_beneficiary_passport_number x ben :
  G28Extractor.tag_beneficiary x = Some ben ->
  PassportData.passport_number ben = PassportData.passport_number x.
Proof.
  unfold G28Extractor.tag_beneficiary. destruct (_ || _); [|discriminate].
  by intros [= <-].
Qed.

Lemma from_form_fields_score form_fields :
  exists d,
    (G28Extractor.from_form_fields form_fields).1
    = AttorneyData.set_confidence_score
        (Some (G28Extractor._calculate_confidence d)) d.
Proof. eexists. reflexivity. Qed.

Lemma g28_outcome_score e r :
  g28_outcome e r ->
  AttorneyData.confidence_score r.1
  = Some (G28Extractor._calculate_confidence r.1).
Proof.
  destruct 1 as [form_data b Hs Hf Ht | Hp Ht data | Hp Ht]; cbn [fst].
  - apply pdf_form_fields_inv in Hf as (ff & -> & _).
    destruct (from_form_fields_score ff) as (d & ->). reflexivity.
  - clearbody data. reflexivity.
  - reflexivity.
Qed.

Lemma g28_outcome_method e r :
  g28_outcome e r ->
  (AttorneyData.extraction_method r.1 = Some "PDF_FORM_FIELDS"
   /\ (3 # 10 < G28Extractor._calculate_confidence r.1)%Q)
  \/ (AttorneyData.extraction_method r.1 = Some "OCR+NLP" /\ r.2 = None)
  \/ (r.1 = G28Extractor.FAILED /\ r.2 = None).
Proof.
  destruct 1 as [form_data b Hs Hf Ht | Hp Ht data | Hp Ht]; cbn [fst snd].
  - left. split; [reflexivity|]. apply above_threshold_spec in Ht.
    by rewrite (proj2 (proj2 (confidence_ignores_provenance form_data
                                (Some "PDF_FORM_FIELDS") None))).
  - right. left. subst data. split; reflexivity.
  - right. right. by split.
Qed.

Lemma g28_outcome_beneficiary e r ben :
  g28_outcome e r -> r.2 = Some ben ->
  AttorneyData.extraction_method r.1 = Some "PDF_FORM_FIELDS"
  /\ PassportData.extraction_method ben = Some "G28_BENEFICIARY"
  /\ PassportData.confidence_score ben = Some (5 # 10)
  /\ (truthy (PassportData.last_name ben)
      || truthy (PassportData.first_name ben)) = true
  /\ PassportData.passport_number ben = None.
Proof.
  destruct 1 as [form_data b Hs Hf Ht | Hp Ht data | Hp Ht]; cbn [fst snd];
    [|discriminate|discriminate].
  intros ->. split; [reflexivity|].
  apply pdf_form_fields_inv in Hf as (ff & _ & Hb).
  symmetry in Hb. unfold G28Extractor.from_form_fields in Hb. cbn [snd] in Hb.
  destruct (tag_beneficiary_Some _ _ Hb) as (? & ? & ?).
  repeat (split; [assumption|]).
  rewrite (tag_beneficiary_passport_number _ _ Hb).
  apply beneficiary_has_no_passport_number.
Qed.

(** X3.  A record returned for a G-28 is tagged PDF_FORM_FIELDS and then scores
    above 0.3, or OCR+NLP, or is the [FAILED] record; its stored score is
    always the score of its own fields.  A beneficiary record comes only
    with PDF_FORM_FIELDS; it is tagged G28_BENEFICIARY with confidence 0.5,
    holds a first or a last name and never a passport number. *)
Theorem g28_result_shape e data beneficiary :
  G28Extractor.extract e = Ok (data, beneficiary) ->
  ((AttorneyData.extraction_method data = Some "PDF_FORM_FIELDS"
    /\ (3 # 10 < G28Extractor._calculate_confidence data)%Q)
   \/ (AttorneyData.extraction_method data = Some "OCR+NLP" /\ beneficiary = None)
   \/ (data = G28Extractor.FAILED /\ beneficiary = None))
  /\ AttorneyData.confidence_score data
     = Some (G28Extractor._calculate_confidence data)
  /\ (forall ben, beneficiary = Some ben ->
        AttorneyData.extraction_method data = Some "PDF_FORM_FIELDS"
        /\ PassportData.extraction_method ben = Some "G28_BENEFICIARY"
        /\ PassportData.confidence_score ben = Some (5 # 10)
        /\ (truthy (PassportData.last_name ben)
            || truthy (PassportData.first_name ben)) = true
        /\ PassportData.passport_number ben = None).
Proof.
  intros Hr. destruct (g28_extract_outcome e) as (r' & Hr' & Ho).
  rewrite Hr in Hr'. injection Hr' as <-.
  split; [exact (g28_outcome_method _ _ Ho)|].
  split; [exact (g28_outcome_score _ _ Ho)|].
  intros ben Hb. exact (g28_outcome_beneficiary _ _ ben Ho Hb).
Qed.

(** A fillable G-28 with the names of the representative and the family
    name of the beneficiary. *)
Definition env_pdf_names : G28Extractor.env := {|
  G28Extractor.re := re_nothing;
  G28Extractor.suffix := ".PDF";
  G28Extractor.pdf_widgets := Ok [
    (Some "Pt1Line2a_FamilyName[0]", Some " Smith ");
    (Some "Pt1Line2b_GivenName[0]", Some "John");
    (Some "Pt1Line2c_MiddleName[0]", Some "N/A");
    (Some "Pt3Line5a_FamilyName[0]", Some "Silva")];
  G28Extractor.load_images := Ok [];
  G28Extractor.pytesseract := None
|}.

Definition smith_record : AttorneyData.t :=
  AttorneyData.mk (Some "Smith") (Some "John") None None None None None None
    None None None None None None None None (Some "PDF_FORM_FIELDS")
    (Some (1 # 2)).

Definition silva_record : PassportData.t :=
  PassportData.mk (Some "Silva") None None None None None None None None None
    None (Some "G28_BENEFICIARY") (Some (5 # 10)).

Lemma g28_result_shape_witness :
  ((AttorneyData.extraction_method smith_record = Some "PDF_FORM_FIELDS"
    /\ (3 # 10 < G28Extractor._calculate_confidence smith_record)%Q)
   \/ (AttorneyData.extraction_method smith_record = Some "OCR+NLP"
       /\ Some silva_record = None)
   \/ (smith_record = G28Extractor.FAILED /\ Some silva_record = None))
  /\ AttorneyData.confidence_score smith_record
     = Some (G28Extractor._calculate_confidence smith_record)
  /\ (forall ben, Some silva_record = Some ben ->
        AttorneyData.extraction_method smith_record = Some "PDF_FORM_FIELDS"
        /\ PassportData.extraction_method ben = Some "G28_BENEFICIARY"
        /\ PassportData.confidence_score ben = Some (5 # 10)
        /\ (truthy (PassportData.last_name ben)
            || truthy (PassportData.first_name ben)) = true
        /\ PassportData.passport_number ben = None).
Proof.
  apply (g28_result_shape env_pdf_names smith_record (Some silva_record)).
  vm_compute. reflexivity.
Defined.

(** The environment of a document with other form widgets. *)
Definition with_pdf_widgets (w : Exc (list (option string * option string)))
    (e : G28Extractor.env) : G28Extractor.env := {|
  G28Extractor.re := G28Extractor.re e;
  G28Extractor.suffix := G28Extractor.suffix e;
  G28Extractor.pdf_widgets := w;
  G28Extractor.load_images := G28Extractor.load_images e;
  G28Extractor.pytesseract := G28Extractor.pytesseract e
|}.

(** X4.  A G-28 that is not a PDF is read by OCR alone: the form-field reader
    has no influence on the result, and no beneficiary record is
    returned. *)
Theorem image_upload_skips_form_fields e w :
  PyStr.lower (G28Extractor.suffix e) <> ".pdf" ->
  G28Extractor.extract (with_pdf_widgets w e) = G28Extractor.extract e
  /\ exists data, G28Extractor.extract e = Ok (data, None).
Proof.
  intros Hs.
  assert (Hp : forall e', G28Extractor.suffix e' = G28Extractor.suffix e ->
                 G28Extractor.try_pdf_form_fields e' = None).
  { intros e' He'. unfold G28Extractor.try_pdf_form_fields.
    rewrite He'. by rewrite bool_decide_eq_false_2. }
  unfold G28Extractor.extract. rewrite !Hp by reflexivity. split; [reflexivity|].
  unfold G28Extractor.extract_via_ocr. cbv zeta.
  destruct (PyStr.nonempty _); eexists; reflexivity.
Qed.

Lemma image_upload_skips_form_fields_witness :
  G28Extractor.extract (with_pdf_widgets (Ok jane_widgets) env_png_no_fields)
  = G28Extractor.extract env_png_no_fields
  /\ exists data, G28Extractor.extract env_png_no_fields = Ok (data, None).
Proof.
  apply (image_upload_skips_form_fields env_png_no_fields (Ok jane_widgets)).
  vm_compute. discriminate.
Defined.

(** ** The dictionary of form fields *)

(** The name and the value of a widget that the reader keeps. *)
Definition widget_entry (w : option string * option string)
    : option (string * string) :=
  match w with
  | (Some n, Some v) =>
      if PyStr.nonempty n && PyStr.nonempty v then Some (n, v) else None
  | _ => None
  end.

Lemma lookup_add_widget (m : gmap string string) w k :
  G28Extractor.add_widget m w !! k
  = match widget_entry w with
    | Some (n, v) =>
        if bool_decide (k = n \/ k = PyStr.lower n) then Some v else m !! k
    | None => m !! k
    end.
Proof.
  unfold G28Extractor.add_widget, widget_entry.
  destruct w as [[n|] [v|]]; try reflexivity.
  destruct (PyStr.nonempty n && PyStr.nonempty v); [|reflexivity].
  destruct (decide (k = PyStr.lower n)) as [->|Hl].
  - rewrite lookup_insert_eq. by rewrite bool_decide_eq_true_2 by auto.
  - rewrite lookup_insert_ne by done.
    destruct (decide (k = n)) as [->|Hn].
    + rewrite lookup_insert_eq. by rewrite bool_decide_eq_true_2 by auto.
    + rewrite lookup_insert_ne by done.
      by rewrite bool_decide_eq_false_2 by tauto.
Qed.

Lemma read_form_fields_snoc ws w :
  G28Extractor.read_form_fields (ws ++ [w])
  = G28Extractor.add_widget (G28Extractor.read_form_fields ws) w.
Proof. unfold G28Extractor.read_form_fields. by rewrite fold_left_app. Qed.

Lemma read_form_fields_source ws k v :
  G28Extractor.read_form_fields ws !! k = Some v ->
  exists n, (Some n, Some v) ∈ ws /\ (k = n \/ k = PyStr.lower n)
            /\ n <> "" /\ v <> "".
Proof.
  induction ws as [|w ws IH] using rev_ind;
    [unfold G28Extractor.read_form_fields; cbn [fold_left]; by rewrite lookup_empty|].
  rewrite read_form_fields_snoc, lookup_add_widget.
  destruct (widget_entry w) as [[n v']|] eqn:Hw.
  - case_bool_decide as Hk.
    + intros [= ->]. exists n. unfold widget_entry in Hw.
      destruct w as [[n0|] [v0|]]; try discriminate.
      destruct (PyStr.nonempty n0 && PyStr.nonempty v0) eqn:Hne; [|discriminate].
      injection Hw as -> ->. apply andb_true_iff in Hne as [Hn Hv].
      split; [apply elem_of_app; right; apply list_elem_of_singleton; reflexivity|].
      split; [exact Hk|]. split; intros ->; discriminate.
    + intros (n' & ? & ? & ? & ?)%IH. exists n'.
      split; [apply elem_of_app; by left | done].
  - intros (n' & ? & ? & ? & ?)%IH. exists n'.
    split; [apply elem_of_app; by left | done].
Qed.

Lemma read_form_fields_empty ws :
  Forall (fun w => widget_entry w = None) ws ->
  G28Extractor.read_form_fields ws = ∅.
Proof.
  intros H. apply map_eq. intros k. rewrite lookup_empty.
  destruct (G28Extractor.read_form_fields ws !! k) as [v|] eqn:Hk; [|reflexivity].
  apply read_form_fields_source in Hk as (n & Hin & _ & Hn & Hv).
  rewrite Forall_forall in H. specialize (H _ Hin). unfold widget_entry in H.
  destruct n; [done|]. destruct v; [done|]. discriminate.
Qed.

(** X5.  The dictionary read from the widgets of a form: a widget with a
    non-empty name and a non-empty value is stored under its name and under
    its lower-cased name, a later widget overriding an earlier one; any
    other widget is ignored.  So every value of the dictionary is the value
    of such a widget, and a form without any yields no record at all. *)
Theorem form_fields_dictionary :
  (forall ws w k,
     G28Extractor.read_form_fields (ws ++ [w]) !! k
     = match widget_entry w with
       | Some (n, v) =>
           if bool_decide (k = n \/ k = PyStr.lower n) then Some v
           else G28Extractor.read_form_fields ws !! k
       | None => G28Extractor.read_form_fields ws !! k
       end)
  /\ (forall ws k v,
        G28Extractor.read_form_fields ws !! k = Some v ->
        exists n, (Some n, Some v) ∈ ws /\ (k = n \/ k = PyStr.lower n)
                  /\ n <> "" /\ v <> "")
  /\ (forall e ws,
        G28Extractor.pdf_widgets e = Ok ws ->
        Forall (fun w => widget_entry w = None) ws ->
        G28Extractor._extract_pdf_form_fields e = (None, None)).
Proof.
  split; [|split].
  - intros ws w k. by rewrite read_form_fields_snoc, lookup_add_widget.
  - apply read_form_fields_source.
  - intros e ws He Hws. unfold G28Extractor._extract_pdf_form_fields.
    rewrite He, (read_form_fields_empty ws Hws).
    by rewrite bool_decide_eq_true_2.
Qed.

Lemma form_fields_dictionary_witness :
  exists n, (Some n, Some "jane@example.com") ∈ jane_widgets
            /\ ("line7_mobiletelephonenumber[0]" = n
                \/ "line7_mobiletelephonenumber[0]" = PyStr.lower n)
            /\ n <> "" /\ "jane@example.com" <> "".
Proof.
  destruct form_fields_dictionary as (_ & H & _).
  apply (H jane_widgets "line7_mobiletelephonenumber[0]" "jane@example.com").
  vm_compute. reflexivity.
Defined.

(** ** Stripping *)

Lemma rev_onto_app s acc : PyStr.rev_onto s acc = PyStr.app (PyStr.rev s) acc.
Proof.
  unfold PyStr.rev. revert acc.
  induction s as [|c s IH]; intros acc; [reflexivity|]. cbn [PyStr.rev_onto].
  rewrite IH, (IH (String c "")).
  generalize (PyStr.rev_onto s ""). intros u.
  induction u as [|d u IHu]; simpl; [reflexivity | by rewrite IHu].
Qed.

Lemma rev_onto_of_app s t acc :
  PyStr.rev_onto (PyStr.app s t) acc = PyStr.rev_onto t (PyStr.rev_onto s acc).
Proof.
  revert acc. induction s as [|d s IH]; intros acc; [reflexivity|].
  cbn [PyStr.app PyStr.rev_onto]. apply IH.
Qed.

Lemma rev_snoc s c : PyStr.rev (PyStr.app s (String c "")) = String c (PyStr.rev s).
Proof. unfold PyStr.rev. by rewrite rev_onto_of_app. Qed.

Lemma lstrip_idempotent s : PyStr.lstrip (PyStr.lstrip s) = PyStr.lstrip s.
Proof.
  induction s as [|c s IH]; [reflexivity|]. cbn [PyStr.lstrip].
  destruct (PyStr.is_space c) eqn:Hc; [exact IH|].
  cbn [PyStr.lstrip]. by rewrite Hc.
Qed.

Lemma lstrip_keeps_last u c :
  PyStr.is_space c = false ->
  exists w, PyStr.lstrip (PyStr.app u (String c "")) = PyStr.app w (String c "").
Proof.
  intros Hc. induction u as [|d u IH].
  - exists "". cbn [PyStr.app PyStr.lstrip]. by rewrite Hc.
  - cbn [PyStr.app PyStr.lstrip]. destruct (PyStr.is_space d); [exact IH|].
    by exists (String d u).
Qed.

(** The part of [strip] that drops trailing whitespace. *)
Definition rstrip (s : string) : string := PyStr.rev (PyStr.lstrip (PyStr.rev s)).

Lemma rstrip_idempotent s : rstrip (rstrip s) = rstrip s.
Proof. unfold rstrip. by rewrite rev_involutive, lstrip_idempotent. Qed.

Lemma rstrip_keeps_head c t :
  PyStr.is_space c = false -> exists t', rstrip (String c t) = String c t'.
Proof.
  intros Hc. unfold rstrip.
  assert (Hr : PyStr.rev (String c t) = PyStr.app (PyStr.rev t) (String c "")).
  { unfold PyStr.rev at 1. cbn [PyStr.rev_onto]. apply rev_onto_app. }
  rewrite Hr. destruct (lstrip_keeps_last (PyStr.rev t) c Hc) as (w & ->).
  rewrite rev_snoc. by eexists.
Qed.

Lemma lstrip_head s :
  PyStr.lstrip s = "" \/ exists c t, PyStr.lstrip s = String c t /\ PyStr.is_space c = false.
Proof.
  induction s as [|c s IH]; [by left|]. cbn [PyStr.lstrip].
  destruct (PyStr.is_space c) eqn:Hc; [exact IH|]. right. by exists c, s.
Qed.

Lemma strip_idempotent s : PyStr.strip (PyStr.strip s) = PyStr.strip s.
Proof.
  change (rstrip (PyStr.lstrip (rstrip (PyStr.lstrip s))) = rstrip (PyStr.lstrip s)).
  assert (H : PyStr.lstrip (rstrip (PyStr.lstrip s)) = rstrip (PyStr.lstrip s)).
  { destruct (lstrip_head s) as [->|(c & t & -> & Hc)]; [reflexivity|].
    destruct (rstrip_keeps_head c t Hc) as (t' & ->).
    cbn [PyStr.lstrip]. by rewrite Hc. }
  rewrite H. apply rstrip_idempotent.
Qed.

(** ** The values taken from form fields *)

(** A value as the form-field extractor stores it: the stripped form of a
    value of the dictionary, not empty, and not the placeholder N/A. *)
Definition clean_value (form_fields : gmap string string) (v : string) : Prop :=
  (exists key raw, form_fields !! key = Some raw /\ v = PyStr.strip raw)
  /\ v <> "" /\ PyStr.strip v = v /\ PyStr.upper v <> "N/A".

Definition clean_record (form_fields : gmap string string) (d : AttorneyData.t)
    : Prop :=
  forall a v, AttorneyData.getattr a d = Some v -> clean_value form_fields v.

Lemma first_usable_clean form_fields keys v :
  G28Extractor.first_usable form_fields keys = Some v ->
  clean_value form_fields v.
Proof.
  induction keys as [|key rest IH]; [discriminate|].
  cbn [G28Extractor.first_usable].
  destruct (form_fields !! key) as [value|] eqn:Hk; [|exact IH].
  destruct (G28Extractor.usable value) eqn:Hu; [|exact IH].
  intros [= <-]. unfold G28Extractor.usable in Hu.
  apply andb_true_iff in Hu as [[_ Hne]%andb_true_iff Hna].
  apply negb_true_iff, bool_decide_eq_false in Hna.
  split; [by exists key, value|].
  split; [intros Heq; by rewrite Heq in Hne|].
  split; [apply strip_idempotent | exact Hna].
Qed.

Lemma apply_entry_clean form_fields a names d :
  clean_record form_fields d ->
  clean_record form_fields
    (G28Extractor.apply_entry form_fields d (AttorneyData.setattr a, names)).
Proof.
  unfold G28Extractor.apply_entry. cbn [fst snd]. revert d.
  induction names as [|name rest IH]; intros d Hd; [exact Hd|].
  cbn [fold_left]. apply IH.
  destruct (G28Extractor.first_usable _ _) as [v|] eqn:Hv; [|exact Hd].
  intros b w. rewrite getattr_setattr. case_bool_decide.
  - intros [= <-]. by eapply first_usable_clean.
  - apply Hd.
Qed.

Lemma empty_record_clean form_fields : clean_record form_fields AttorneyData.empty.
Proof. intros a v. destruct a; discriminate. Qed.

Lemma mappings_clean form_fields :
  clean_record form_fields
    (G28Extractor.apply_mappings form_fields G28Extractor.mappings
       AttorneyData.empty).
Proof.
  unfold G28Extractor.apply_mappings, G28Extractor.mappings. cbn [fold_left].
  repeat apply apply_entry_clean. apply empty_record_clean.
Qed.

Lemma repair_email_keeps_clean form_fields d :
  clean_record form_fields d -> clean_record form_fields (G28Extractor.repair_email d).
Proof.
  intros Hd. unfold G28Extractor.repair_email.
  destruct (AttorneyData.mobile_phone d) as [phone|] eqn:Hm; [|exact Hd].
  destruct (_ && _); [|exact Hd].
  assert (Hstep : clean_record form_fields
            (if negb (truthy (AttorneyData.email d))
             then AttorneyData.setattr AttorneyData.a_email (Some phone) d else d)).
  { destruct (negb _); [|exact Hd].
    intros b w. rewrite getattr_setattr. case_bool_decide; [|apply Hd].
    intros [= <-]. apply (Hd AttorneyData.a_mobile_phone). exact Hm. }
  intros b w. rewrite getattr_setattr. case_bool_decide; [discriminate|].
  apply Hstep.
Qed.

Lemma getattr_set_confidence_score a c d :
  AttorneyData.getattr a (AttorneyData.set_confidence_score c d)
  = AttorneyData.getattr a d.
Proof. destruct a; reflexivity. Qed.

(** X6.  Every attribute that [_extract_pdf_form_fields] fills holds the
    stripped value of a form widget: it is not empty, has no whitespace at
    either end, and is not the placeholder N/A in any letter case. *)
Theorem form_values_are_clean e ws data beneficiary a v :
  G28Extractor.pdf_widgets e = Ok ws ->
  G28Extractor._extract_pdf_form_fields e = (Some data, beneficiary) ->
  AttorneyData.getattr a data = Some v ->
  v <> "" /\ PyStr.strip v = v /\ PyStr.upper v <> "N/A"
  /\ exists n raw, (Some n, Some raw) ∈ ws /\ v = PyStr.strip raw.
Proof.
  intros Hw. unfold G28Extractor._extract_pdf_form_fields. rewrite Hw.
  case_bool_decide; [discriminate|].
  intros [= <- _]. unfold G28Extractor.from_form_fields. cbv zeta. cbn [fst].
  rewrite getattr_set_confidence_score. intros Hv.
  destruct (repair_email_keeps_clean _ _ (mappings_clean _) a v Hv)
    as ((key & raw & Hk & ->) & Hne & Hs & Hna).
  split; [exact Hne|]. split; [exact Hs|]. split; [exact Hna|].
  apply read_form_fields_source in Hk as (n & Hin & _). by exists n, raw.
Qed.

Lemma form_values_are_clean_witness :
  "Smith" <> "" /\ PyStr.strip "Smith" = "Smith" /\ PyStr.upper "Smith" <> "N/A"
  /\ exists n raw,
       (Some n, Some raw)
       ∈ [(Some "Pt1Line2a_FamilyName[0]", Some " Smith ");
          (Some "Pt1Line2b_GivenName[0]", Some "John");
          (Some "Pt1Line2c_MiddleName[0]", Some "N/A");
          (Some "Pt3Line5a_FamilyName[0]", Some "Silva")]
       /\ "Smith" = PyStr.strip raw.
Proof.
  apply (form_values_are_clean env_pdf_names _
           (AttorneyData.set_confidence_score (Some (1 # 2))
              (AttorneyData.setattr AttorneyData.a_first_name (Some "John")
                 (AttorneyData.setattr AttorneyData.a_last_name (Some "Smith")
                    AttorneyData.empty)))
           (Some silva_record) AttorneyData.a_last_name).
  - reflexivity.
  - vm_compute. reflexivity.
  - reflexivity.
Defined.

(** ** The MRZ strategy *)

Lemma find_mrz_lines_Some text l0 l1 :
  PassportExtractor._find_mrz_lines text = Some (l0, l1) ->
  (String.length l0 = 44%nat /\ PyStr.forallb PassportExtractor.mrz_char l0 = true)
  /\ (String.length l1 = 44%nat /\ PyStr.forallb PassportExtractor.mrz_char l1 = true).
Proof.
  unfold PassportExtractor._find_mrz_lines.
  pose proof (candidates_normalized (PyStr.split "010" (PyStr.upper text))) as H.
  destruct (PassportExtractor.candidates _) as [|c0 [|c1 rest]]; try discriminate.
  intros [= <- <-]. inversion H as [|? ? H0 H']; subst.
  inversion H' as [|? ? H1 _]; subst. by split.
Qed.

Lemma mrz_pages_Some e checker images data :
  PassportExtractor.mrz_pages e checker images = Some data ->
  exists img text l0 l1 fields,
    img ∈ images
    /\ PassportExtractor._ocr_image e img = Some text
    /\ PassportExtractor._find_mrz_lines text = Some (l0, l1)
    /\ checker (PyStr.app l0 (PyStr.app (String "010" "") l1))
       = Ok (Some (PassportExtractor.fields_dict fields))
    /\ PassportExtractor._parse_mrz_fields e fields = Ok data.
Proof.
  induction images as [|i rest IH]; [discriminate|].
  assert (Hrest : PassportExtractor.mrz_pages e checker rest = Some data ->
    exists img text l0 l1 fields,
      img ∈ i :: rest
      /\ PassportExtractor._ocr_image e img = Some text
      /\ PassportExtractor._find_mrz_lines text = Some (l0, l1)
      /\ checker (PyStr.app l0 (PyStr.app (String "010" "") l1))
         = Ok (Some (PassportExtractor.fields_dict fields))
      /\ PassportExtractor._parse_mrz_fields e fields = Ok data).
  { intros (img & text & l0 & l1 & fields & Hin & H)%IH.
    exists img, text, l0, l1, fields. split; [by right | exact H]. }
  cbn [PassportExtractor.mrz_pages].
  destruct (PassportExtractor._ocr_image e i) as [text|] eqn:Ho; [|exact Hrest].
  destruct (negb (PyStr.nonempty text)); [exact Hrest|].
  destruct (PassportExtractor._find_mrz_lines text) as [[l0 l1]|] eqn:Hf;
    [|exact Hrest].
  unfold catch, mbind, exc_bind, fmap, exc_fmap.
  destruct (checker _) as [[[fields|t]|]|] eqn:Hc; try exact Hrest.
  cbn [PassportExtractor.parse_checker_fields].
  destruct (PassportExtractor._parse_mrz_fields e fields) as [d|] eqn:Hp;
    [|exact Hrest].
  intros [= <-]. exists i, text, l0, l1, fields. split; [left | done].
Qed.

Lemma mrz_pages_no_dict e checker images :
  (forall s d, checker s <> Ok (Some (PassportExtractor.fields_dict d))) ->
  PassportExtractor.mrz_pages e checker images = None.
Proof.
  intros Hno.
  destruct (PassportExtractor.mrz_pages e checker images) as [d|] eqn:H;
    [|reflexivity].
  apply mrz_pages_Some in H as (_ & _ & l0 & l1 & fields & _ & _ & _ & Hc & _).
  by destruct (Hno _ _ Hc).
Qed.

(** Without a record from the MRZ strategy the orchestrator never answers
    under the method ["MRZ"]. *)
Lemma no_mrz_record_no_mrz_method e use_llm r :
  PassportExtractor._extract_mrz e (PassportExtractor._get_images e) = None ->
  PassportExtractor.extract e use_llm = Ok r ->
  PassportData.extraction_method r <> Some "MRZ".
Proof.
  intros Hm Hr.
  destruct (passport_extract_outcome e use_llm) as (r' & Hr' & Ho).
  rewrite Hr in Hr'. injection Hr' as <-.
  destruct Ho as [r Hl|d _ Hd| |]; try discriminate.
  - apply try_llm_Some in Hl as (_ & Hx & _).
    apply llm_extract_inv in Hx as (_ & -> & _). discriminate.
  - unfold PassportExtractor.accepted_mrz in Hd. by rewrite Hm in Hd.
Qed.

(** The fields that a checker finds in the specimen passport of ICAO Doc
    9303, the page as OCR reads it, and the record built from it in 2024. *)
Definition specimen_fields : gmap string string := list_to_map [
  ("surname", "ERIKSSON"); ("name", "ANNA MARIA"); ("country", "UTO");
  ("nationality", "UTO"); ("birth_date", "740812"); ("sex", "F");
  ("expiry_date", "120415"); ("document_number", "L898902C3")
].

Definition specimen_page : string :=
  PyStr.app specimen_line1 (PyStr.app (String "010" "") specimen_line2).

Definition specimen_record : PassportData.t :=
  PassportData.mk (Some "Eriksson") (Some "Anna") (Some "Maria")
    (Some "L898902C3") (Some "UTO") (Some "UTO") (Some "1974-08-12") None
    (Some "F") None (Some "2012-04-15") None None.

(** One page, on which the OCR pass of the MRZ strategy reads the two lines
    of the specimen; the checker validates them and hands over
    [answer specimen_fields]; the vision model and the text OCR give
    nothing. *)
Definition env_mrz (answer : gmap string string -> PassportExtractor.mrz_fields)
    : PassportExtractor.env := {|
  PassportExtractor.now_year := 2024;
  PassportExtractor.re := re_nothing;
  PassportExtractor.llm := llm_off;
  PassportExtractor.load_images := Ok [0%nat];
  PassportExtractor.pytesseract := Some (fun _ config =>
    if bool_decide (config = PassportExtractor.mrz_ocr_config)
    then Ok specimen_page else Ok "");
  PassportExtractor.td3_code_checker := Some (fun code =>
    if bool_decide (code = specimen_page)
    then Ok (Some (answer specimen_fields)) else Ok None);
  PassportExtractor.spacy_model := Raise;
  PassportExtractor.dateparser_parse := fun _ => Raise
|}.

Definition as_namedtuple (d : gmap string string) : PassportExtractor.mrz_fields :=
  PassportExtractor.fields_namedtuple (map_to_list d).

(** X7.  The MRZ strategy answers only with a record built from fields that the
    checker has validated and handed over as a dictionary, for two lines of
    44 characters of the MRZ alphabet found on one page.  When the checker
    is missing, or rejects or fails on every pair, the strategy answers
    nothing (there is no partial recovery).  The same holds when the
    checker never hands over a dictionary: on an object without [get], such
    as a named tuple, reading the first field raises inside the [try], the
    page is passed over, and the orchestrator never answers under the
    method ["MRZ"]. *)
Theorem mrz_strategy_is_validated e images :
  (forall data,
     PassportExtractor._extract_mrz e images = Some data ->
     exists checker img text l0 l1 fields,
       PassportExtractor.td3_code_checker e = Some checker
       /\ img ∈ images
       /\ PassportExtractor._ocr_image e img = Some text
       /\ PassportExtractor._find_mrz_lines text = Some (l0, l1)
       /\ String.length l0 = 44%nat /\ String.length l1 = 44%nat
       /\ checker (PyStr.app l0 (PyStr.app (String "010" "") l1))
          = Ok (Some (PassportExtractor.fields_dict fields))
       /\ PassportExtractor._parse_mrz_fields e fields = Ok data)
  /\ (PassportExtractor.td3_code_checker e = None ->
      PassportExtractor._extract_mrz e images = None)
  /\ (forall checker,
        PassportExtractor.td3_code_checker e = Some checker ->
        (forall s, checker s = Ok None \/ checker s = Raise) ->
        PassportExtractor._extract_mrz e images = None)
  /\ (forall checker,
        PassportExtractor.td3_code_checker e = Some checker ->
        (forall s d, checker s <> Ok (Some (PassportExtractor.fields_dict d))) ->
        PassportExtractor._extract_mrz e images = None
        /\ forall use_llm r,
             PassportExtractor.extract e use_llm = Ok r ->
             PassportData.extraction_method r <> Some "MRZ").
Proof.
  unfold PassportExtractor._extract_mrz. split; [|split; [|split]].
  - intros data. destruct (PassportExtractor.td3_code_checker e) as [checker|];
      [|discriminate].
    intros (img & text & l0 & l1 & fields & Hin & Ho & Hf & Hc & Hp)%mrz_pages_Some.
    destruct (find_mrz_lines_Some _ _ _ Hf) as [[H0 _] [H1 _]].
    by exists checker, img, text, l0, l1, fields.
  - by intros ->.
  - intros checker -> Hrej. apply mrz_pages_no_dict.
    intros s d Hs. destruct (Hrej s); congruence.
  - intros checker Hc Hno. split.
    + rewrite Hc. by apply mrz_pages_no_dict.
    + intros use_llm r. apply no_mrz_record_no_mrz_method.
      unfold PassportExtractor._extract_mrz. rewrite Hc.
      by apply mrz_pages_no_dict.
Qed.

(** At the specimen page: a checker that hands over a dictionary gives the
    record of the specimen, which the orchestrator returns under the method
    ["MRZ"]; a checker that hands over the same fields as a named tuple
    gives nothing, and the orchestrator, whose other strategies find
    nothing here, answers [FAILED]. *)
Lemma mrz_strategy_is_validated_witness :
  (exists checker img text l0 l1 fields,
     PassportExtractor.td3_code_checker (env_mrz PassportExtractor.fields_dict)
     = Some checker
     /\ img ∈ [0%nat]
     /\ PassportExtractor._ocr_image (env_mrz PassportExtractor.fields_dict) img
        = Some text
     /\ PassportExtractor._find_mrz_lines text = Some (l0, l1)
     /\ String.length l0 = 44%nat /\ String.length l1 = 44%nat
     /\ checker (PyStr.app l0 (PyStr.app (String "010" "") l1))
        = Ok (Some (PassportExtractor.fields_dict fields))
     /\ PassportExtractor._parse_mrz_fields (env_mrz PassportExtractor.fields_dict)
          fields = Ok specimen_record)
  /\ PassportExtractor.extract (env_mrz PassportExtractor.fields_dict) true
     = Ok (PassportData.set_confidence_score (Some (95 # 100))
             (PassportData.set_extraction_method (Some "MRZ") specimen_record))
  /\ PassportExtractor._extract_mrz (env_mrz as_namedtuple) [0%nat] = None
  /\ PassportExtractor.extract (env_mrz as_namedtuple) true
     = Ok PassportExtractor.FAILED.
Proof.
  split; [|split; [|split]].
  - destruct (mrz_strategy_is_validated (env_mrz PassportExtractor.fields_dict)
                [0%nat]) as (H & _).
    apply (H specimen_record). vm_compute. reflexivity.
  - vm_compute. reflexivity.
  - destruct (mrz_strategy_is_validated (env_mrz as_namedtuple) [0%nat])
      as (_ & _ & _ & H).
    refine (proj1 (H _ eq_refl _)).
    intros s d. cbn. unfold as_namedtuple. case_bool_decide; discriminate.
  - vm_compute. reflexivity.
Defined.

(** ** The record built from MRZ fields *)

Lemma replace_char_removes c s :
  PyStr.contains c (PyStr.replace (String c "") "" s) = false.
Proof.
  unfold PyStr.replace, PyStr.contains.
  induction s as [|d s IH]; [reflexivity|].
  cbn [PyStr.replace_go PyStr.is_prefix String.length Nat.sub].
  destruct (ascii_dec c d) as [->|Hne]; cbn [andb PyStr.app]; [exact IH|].
  cbn [PyStr.existsb]. destruct (ascii_dec d c) as [->|_]; [done | exact IH].
Qed.

(** The sex token of the MRZ, as the record constructor sees it. *)
Definition mrz_sex (fields : gmap string string) : string :=
  PyStr.upper (default "" (fields !! "sex")).

Lemma valid_sex_or_none s :
  PassportData.valid_sex (or_none s) = true
  <-> s = "" \/ s = "M" \/ s = "F" \/ s = "X".
Proof.
  unfold or_none, PassportData.valid_sex. destruct s as [|c s]; cbn [PyStr.nonempty].
  - split; [by left | done].
  - rewrite bool_decide_eq_true. split; [by right | by intros [|]].
Qed.

(** X8.  [_parse_mrz_fields] builds a record exactly when the sex token is empty
    or, after upper-casing, one of M, F, X; on any other token, the filler
    character included, it raises.  The record has a passport number
    without filler characters, the sex token (unset when empty), a country
    of issue that is the raw code when the table does not know it, and no
    provenance, place of birth or date of issue. *)
Theorem parse_mrz_fields_spec e fields :
  let sex := mrz_sex fields in
  ((sex = "" \/ sex = "M" \/ sex = "F" \/ sex = "X") ->
   exists d pn,
     PassportExtractor._parse_mrz_fields e fields = Ok d
     /\ PassportData.sex d = or_none sex
     /\ PassportData.passport_number d = Some pn
     /\ PyStr.contains "<" pn = false
     /\ (forall c, fields !! "country" = Some c -> COUNTRY_CODES !! c = None ->
           PassportData.country_of_issue d = Some c)
     /\ PassportData.extraction_method d = None
     /\ PassportData.confidence_score d = None
     /\ PassportData.place_of_birth d = None
     /\ PassportData.date_of_issue d = None)
  /\ (~ (sex = "" \/ sex = "M" \/ sex = "F" \/ sex = "X") ->
      PassportExtractor._parse_mrz_fields e fields = Raise).
Proof.
  intros sex. unfold PassportExtractor._parse_mrz_fields. cbv zeta.
  fold (mrz_sex fields). fold sex. split.
  - intros Hs. apply valid_sex_or_none in Hs. rewrite Hs.
    eexists. eexists. split; [reflexivity|]. cbn [PassportData.sex
      PassportData.passport_number PassportData.country_of_issue
      PassportData.extraction_method PassportData.confidence_score
      PassportData.place_of_birth PassportData.date_of_issue].
    split; [reflexivity|]. split; [reflexivity|].
    split; [apply replace_char_removes|].
    split; [|by repeat split].
    intros c Hc Hn. rewrite Hc. cbn [from_option id]. by rewrite Hn.
  - intros Hs. rewrite <- valid_sex_or_none in Hs.
    by destruct (PassportData.valid_sex (or_none sex)).
Qed.

Lemma parse_mrz_fields_spec_witness :
  PassportExtractor._parse_mrz_fields env_all_fail
    (list_to_map [("surname", "ERIKSSON"); ("name", "ANNA<MARIA");
                  ("sex", "<"); ("document_number", "L898902C3")]) = Raise.
Proof.
  destruct (parse_mrz_fields_spec env_all_fail
              (list_to_map [("surname", "ERIKSSON"); ("name", "ANNA<MARIA");
                            ("sex", "<"); ("document_number", "L898902C3")]))
    as (_ & H).
  apply H. vm_compute. intros [H1|[H1|[H1|H1]]]; discriminate H1.
Defined.

(** ** The window of the two-digit years *)

Lemma digit_val_range c :
  PyStr.is_digit c = true -> (0 <= PyStr.digit_val c <= 9)%Z.
Proof.
  assert (H : forall c, (if PyStr.is_digit c
                         then (0 <=? PyStr.digit_val c)%Z && (PyStr.digit_val c <=? 9)%Z
                         else true) = true).
  { apply forall_ascii. vm_compute. reflexivity. }
  intros Hc. specialize (H c). rewrite Hc in H.
  apply andb_true_iff in H as [H1 H2]. lia.
Qed.

(** X9.  Read during the years 2000 to 2089, a date of six digits gets a year
    between 89 years before and 10 years after the current year, with the
    two digits given: a birth date is never set more than 10 years ahead,
    and an expiry date more than 10 years ahead comes out a century
    early. *)
Theorem mrz_year_window e y1 y2 m1 m2 d1 d2 :
  PyStr.is_digit y1 = true -> PyStr.is_digit y2 = true ->
  PyStr.is_digit m1 = true -> PyStr.is_digit m2 = true ->
  PyStr.is_digit d1 = true -> PyStr.is_digit d2 = true ->
  (2000 <= PassportExtractor.now_year e <= 2089)%Z ->
  exists year,
    PassportExtractor._parse_mrz_date e (six y1 y2 m1 m2 d1 d2 "")
    = Some (PyStr.app (PyStr.fmt_0d 4 year)
              (String "-" (String m1 (String m2
                 (String "-" (String d1 (String d2 "")))))))
    /\ (PassportExtractor.now_year e - 89 <= year <= PassportExtractor.now_year e + 10)%Z
    /\ (year mod 100 = 10 * PyStr.digit_val y1 + PyStr.digit_val y2)%Z.
Proof.
  intros Hy1 Hy2 Hm1 Hm2 Hd1 Hd2 Hnow.
  destruct (int_two_digits y1 y2 Hy1 Hy2) as (Hy & _).
  destruct (int_two_digits m1 m2 Hm1 Hm2) as (Hm & Hfm & _).
  destruct (int_two_digits d1 d2 Hd1 Hd2) as (Hd & Hfd & _).
  cbv zeta in Hy, Hm, Hd, Hfm, Hfd.
  pose proof (digit_val_range y1 Hy1). pose proof (digit_val_range y2 Hy2).
  rewrite parse_mrz_date_six, Hy, Hm, Hd. cbv zeta. rewrite Hfm, Hfd.
  assert (Hp : (PassportExtractor.now_year e
                = 2000 + PassportExtractor.now_year e mod 100)%Z)
    by (Z.div_mod_to_equations; lia).
  set (yy := (10 * PyStr.digit_val y1 + PyStr.digit_val y2)%Z).
  set (pivot := (PassportExtractor.now_year e mod 100)%Z) in *.
  assert (Hyy : (0 <= yy <= 99)%Z) by (subst yy; lia).
  eexists. split; [reflexivity|].
  destruct (Z.gtb_spec yy (pivot + 10)) as [Hgt|Hle].
  - split; [lia|]. clearbody yy pivot. Z.div_mod_to_equations. lia.
  - split; [lia|]. clearbody yy pivot. Z.div_mod_to_equations. lia.
Qed.

Lemma mrz_year_window_witness :
  exists year,
    PassportExtractor._parse_mrz_date env_all_fail (six "3" "5" "0" "6" "1" "5" "")
    = Some (PyStr.app (PyStr.fmt_0d 4 year) "-06-15")
    /\ (2024 - 89 <= year <= 2024 + 10)%Z
    /\ (year mod 100 = 10 * 3 + 5)%Z.
Proof.
  apply (mrz_year_window env_all_fail "3"%char "5"%char "0"%char "6"%char
           "1"%char "5"%char); try reflexivity.
  change (PassportExtractor.now_year env_all_fail) with 2024%Z. lia.
Defined.

(** ** State normalization, once more *)

Lemma US_STATES_values_fixed k v :
  US_STATES !! k = Some v ->
  normalize_state (Some v) = Some v
  /\ String.length v = 2%nat /\ PyStr.upper v = v.
Proof.
  assert (H : map_Forall (fun _ v =>
            normalize_state (Some v) = Some v
            /\ String.length v = 2%nat /\ PyStr.upper v = v) US_STATES).
  { apply (bool_decide_unpack _). vm_compute. exact I. }
  intros Hk. exact (H k v Hk).
Qed.

Lemma short_upper_fixed a b :
  normalize_state (Some (PyStr.upper (two a b))) = Some (PyStr.upper (two a b))
  /\ normalize_state (Some (PyStr.upper (String a ""))) = Some (PyStr.upper (String a "")).
Proof.
  set (P := fun a b =>
    bool_decide (normalize_state (Some (PyStr.upper (two a b)))
                 = Some (PyStr.upper (two a b)))
    && bool_decide (normalize_state (Some (PyStr.upper (String a "")))
                    = Some (PyStr.upper (String a "")))).
  assert (H : forall a b, P a b = true).
  { apply forall_ascii2. vm_compute. reflexivity. }
  specialize (H a b). unfold P in H. apply andb_true_iff in H as [H1 H2].
  by apply bool_decide_eq_true in H1, H2.
Qed.

Lemma upper_char_idempotent c : PyStr.upper_char (PyStr.upper_char c) = PyStr.upper_char c.
Proof.
  apply (bool_decide_eq_true _).
  revert c. apply (forall_ascii (fun c =>
    bool_decide (PyStr.upper_char (PyStr.upper_char c) = PyStr.upper_char c))).
  vm_compute. reflexivity.
Qed.

Lemma upper_idempotent s : PyStr.upper (PyStr.upper s) = PyStr.upper s.
Proof.
  induction s as [|c s IH]; [reflexivity|]. unfold PyStr.upper in *.
  cbn [PyStr.map]. by rewrite upper_char_idempotent, IH.
Qed.

Lemma take_upper n s : PyStr.take n (PyStr.upper s) = PyStr.upper (PyStr.take n s).
Proof.
  revert s. induction n as [|n IH]; intros [|c s]; try reflexivity.
  unfold PyStr.upper in *. cbn [PyStr.map PyStr.take]. by rewrite IH.
Qed.

Lemma take_two_shape s :
  s <> "" ->
  (exists a, PyStr.take 2 s = String a "") \/ (exists a b, PyStr.take 2 s = two a b).
Proof.
  destruct s as [|a [|b s]]; [done | left; by exists a | right; by exists a, b].
Qed.

Lemma normalize_state_cases s :
  s <> "" ->
  (exists k v, US_STATES !! k = Some v /\ normalize_state (Some s) = Some v)
  \/ normalize_state (Some s) = Some (PyStr.upper (PyStr.take 2 s)).
Proof.
  intros Hs. unfold normalize_state. destruct s as [|c s]; [done|].
  cbn [PyStr.nonempty].
  destruct (US_STATES !! PyStr.strip (PyStr.lower (String c s))) as [v|] eqn:Hk.
  - left. by exists (PyStr.strip (PyStr.lower (String c s))), v.
  - right. cbn [from_option id]. by rewrite take_upper.
Qed.

Lemma length_upper s : String.length (PyStr.upper s) = String.length s.
Proof.
  unfold PyStr.upper. induction s as [|c s IH]; [reflexivity|].
  cbn [PyStr.map String.length]. by rewrite IH.
Qed.

(** X10.  [normalize_state] is idempotent, and what it answers has one or two
    characters, none of them a lower-case letter: normalizing again, as the
    form filler may, changes nothing. *)
Theorem normalize_state_idempotent x :
  normalize_state (normalize_state x) = normalize_state x
  /\ (forall t, normalize_state x = Some t ->
        (1 <= String.length t <= 2)%nat /\ PyStr.upper t = t).
Proof.
  destruct x as [s|]; [|split; [reflexivity | discriminate]].
  destruct (decide (s = "")) as [->|Hs]; [split; [reflexivity | discriminate]|].
  destruct (normalize_state_cases s Hs) as [(k & v & Hk & ->)| ->].
  - destruct (US_STATES_values_fixed _ _ Hk) as (Hfix & Hlen & Hup).
    split; [exact Hfix|]. intros t [= <-]. split; [lia | exact Hup].
  - split.
    + destruct (take_two_shape s Hs) as [(a & ->)|(a & b & ->)].
      * exact (proj2 (short_upper_fixed a a)).
      * exact (proj1 (short_upper_fixed a b)).
    + intros t [= <-]. split; [|apply upper_idempotent].
      rewrite length_upper.
      destruct s as [|c [|d s]]; [done | |]; cbn [String.length]; lia.
Qed.


(** ** The form filler and the extractors *)

Lemma STATE_CODES_in_US_STATES k v :
  STATE_CODES !! k = Some v -> US_STATES !! k = Some v.
Proof.
  assert (H : map_Forall (fun k v => US_STATES !! k = Some v) STATE_CODES).
  { apply (bool_decide_unpack _). vm_compute. exact I. }
  intros Hk. exact (H k v Hk).
Qed.

Lemma STATE_CODES_long_keys k v :
  STATE_CODES !! k = Some v -> (3 <= String.length k)%nat.
Proof.
  assert (H : map_Forall (fun k _ => (3 <= String.length k)%nat) STATE_CODES).
  { apply (bool_decide_unpack _). vm_compute. exact I. }
  intros Hk. exact (H k v Hk).
Qed.

Lemma length_lower s : String.length (PyStr.lower s) = String.length s.
Proof.
  unfold PyStr.lower. induction s as [|c s IH]; [reflexivity|].
  cbn [PyStr.map String.length]. by rewrite IH.
Qed.

Lemma normalize_state_output x t :
  normalize_state x = Some t ->
  (1 <= String.length t <= 2)%nat /\ PyStr.upper t = t.
Proof.
  destruct x as [s|]; [|discriminate].
  destruct (decide (s = "")) as [->|Hs]; [discriminate|].
  destruct (normalize_state_cases s Hs) as [(k & v & Hk & ->)| ->].
  - destruct (US_STATES_values_fixed _ _ Hk) as (_ & Hlen & Hup).
    intros [= <-]. split; [lia | exact Hup].
  - intros [= <-]. split; [|apply upper_idempotent].
    rewrite length_upper.
    destruct s as [|c [|d s]]; [done | |]; cbn [PyStr.take String.length]; lia.
Qed.

(** X11.  The state table of the form filler is part of the table of the
    extractors, and the form filler leaves a state that [normalize_state]
    has answered as it is; a full state name that reaches it unnormalized,
    as from a PDF form field, gets the code that [normalize_state] would
    have given. *)
Theorem form_filler_state_agrees :
  (forall k v, STATE_CODES !! k = Some v -> US_STATES !! k = Some v)
  /\ (forall x t, normalize_state x = Some t ->
        FormFiller._normalize_state_code t = t)
  /\ (forall s v, STATE_CODES !! PyStr.lower s = Some v ->
        PyStr.strip (PyStr.lower s) = PyStr.lower s ->
        FormFiller._normalize_state_code s = v
        /\ normalize_state (Some s) = Some v).
Proof.
  split; [apply STATE_CODES_in_US_STATES|]. split.
  - intros x t Ht.
    destruct (normalize_state_output x t Ht) as [Hlen Hup].
    unfold FormFiller._normalize_state_code.
    destruct (String.length t =? 2)%nat eqn:H2; [exact Hup|].
    apply Nat.eqb_neq in H2.
    destruct (STATE_CODES !! PyStr.lower t) as [v|] eqn:Hk.
    + apply STATE_CODES_long_keys in Hk. rewrite length_lower in Hk. lia.
    + cbn [from_option id]. rewrite Hup. apply take_all. lia.
  - intros s v Hk Hstrip. split.
    + unfold FormFiller._normalize_state_code.
      pose proof (STATE_CODES_long_keys _ _ Hk) as Hlen.
      rewrite length_lower in Hlen.
      destruct (String.length s =? 2)%nat eqn:H2;
        [apply Nat.eqb_eq in H2; lia|]. by rewrite Hk.
    + unfold normalize_state. destruct s as [|c s]; [discriminate|].
      cbn [PyStr.nonempty]. rewrite Hstrip.
      by rewrite (STATE_CODES_in_US_STATES _ _ Hk).
Qed.

Lemma form_filler_state_agrees_witness :
  FormFiller._normalize_state_code "New York" = "NY"
  /\ normalize_state (Some "New York") = Some "NY".
Proof.
  destruct form_filler_state_agrees as (_ & _ & H).
  apply (H "New York" "NY"); vm_compute; reflexivity.
Defined.

(** X12.  A date that the MRZ parser has produced from six digits has the shape
    that the form filler recognizes: it is written into the form as it is,
    and the date parser is not consulted. *)
Theorem mrz_dates_reach_the_form_unchanged e y1 y2 m1 m2 d1 d2 rest :
  PyStr.is_digit y1 = true -> PyStr.is_digit y2 = true ->
  PyStr.is_digit m1 = true -> PyStr.is_digit m2 = true ->
  PyStr.is_digit d1 = true -> PyStr.is_digit d2 = true ->
  exists d,
    PassportExtractor._parse_mrz_date e (six y1 y2 m1 m2 d1 d2 rest) = Some d
    /\ String.length d = 10%nat
    /\ forall dateparser_parse, FormFiller._normalize_date dateparser_parse d = d.
Proof.
  intros Hy1 Hy2 Hm1 Hm2 Hd1 Hd2.
  destruct (int_two_digits y1 y2 Hy1 Hy2) as (Hy & _ & H19 & H20).
  destruct (int_two_digits m1 m2 Hm1 Hm2) as (Hm & Hfm & _).
  destruct (int_two_digits d1 d2 Hd1 Hd2) as (Hd & Hfd & _).
  cbv zeta in Hy, Hm, Hd, Hfm, Hfd, H19, H20.
  rewrite parse_mrz_date_six, Hy, Hm, Hd. cbv zeta. rewrite Hfm, Hfd.
  destruct (_ >? _)%Z; [rewrite H19 | rewrite H20];
    (eexists; split; [reflexivity|]; split; [reflexivity|];
     intros dp; unfold FormFiller._normalize_date, FormFiller.char_at;
     cbn; by rewrite !bool_decide_eq_true_2).
Qed.

Lemma mrz_dates_reach_the_form_unchanged_witness :
  exists d,
    PassportExtractor._parse_mrz_date env_all_fail (six "7" "4" "0" "8" "1" "2" "")
    = Some d
    /\ String.length d = 10%nat
    /\ forall dateparser_parse, FormFiller._normalize_date dateparser_parse d = d.
Proof.
  apply (mrz_dates_reach_the_form_unchanged env_all_fail "7"%char "4"%char
           "0"%char "8"%char "1"%char "2"%char ""); reflexivity.
Defined.

(** * Successive uploads of a G-28 *)

Lemma fill_fill e b1 b2 :
  App.fill (App.fill e b1) b2
  = if truthy e then e else if truthy b1 then b1 else b2.
Proof.
  unfold App.fill. destruct (truthy e) eqn:He; cbn [negb].
  - by rewrite He.
  - by destruct (truthy b1).
Qed.

Lemma merge_names_fields e b :
  PassportData.last_name (App.merge_names e b)
  = App.fill (PassportData.last_name e) (PassportData.last_name b)
  /\ PassportData.first_name (App.merge_names e b)
     = App.fill (PassportData.first_name e) (PassportData.first_name b)
  /\ PassportData.middle_name (App.merge_names e b)
     = App.fill (PassportData.middle_name e) (PassportData.middle_name b).
Proof. repeat split. Qed.

Lemma passport_eq x y :
  PassportData.last_name x = PassportData.last_name y ->
  PassportData.first_name x = PassportData.first_name y ->
  PassportData.middle_name x = PassportData.middle_name y ->
  same_other_fields x y -> x = y.
Proof.
  destruct x, y. unfold same_other_fields. cbn.
  intros -> -> -> (-> & -> & -> & -> & -> & -> & -> & -> & -> & ->). reflexivity.
Qed.

Lemma merge_names_other e b : same_other_fields (App.merge_names e b) e.
Proof. repeat split. Qed.

(** X13.  Two G-28 uploads in a row for one session: each name of the stored
    passport record keeps the first populated value among the record's
    own, the first beneficiary's and the second beneficiary's, so the
    earlier document wins over the later one; uploading the same G-28 again
    changes nothing in the passport record; the attorney record is the one
    of the last upload. *)
Theorem successive_g28_uploads (existing b1 b2 : PassportData.t)
    (att1 att2 : AttorneyData.t) (sid : string)
    (st : gmap string App.ExtractedFormData) :
  let twice := App.merge_names (App.merge_names existing b1) b2 in
  PassportData.last_name twice
  = (if truthy (PassportData.last_name existing) then PassportData.last_name existing
     else if truthy (PassportData.last_name b1) then PassportData.last_name b1
     else PassportData.last_name b2)
  /\ PassportData.first_name twice
     = (if truthy (PassportData.first_name existing) then PassportData.first_name existing
        else if truthy (PassportData.first_name b1) then PassportData.first_name b1
        else PassportData.first_name b2)
  /\ PassportData.middle_name twice
     = (if truthy (PassportData.middle_name existing) then PassportData.middle_name existing
        else if truthy (PassportData.middle_name b1) then PassportData.middle_name b1
        else PassportData.middle_name b2)
  /\ same_other_fields twice existing
  /\ App.merge_names (App.merge_names existing b1) b1 = App.merge_names existing b1
  /\ App.store_g28 sid att2 (Some b2) (App.store_g28 sid att1 (Some b1) st) !! sid
     = Some {| App.passport :=
                 App.merge_beneficiary
                   (App.merge_beneficiary
                      (App.passport (default {| App.passport := None;
                                                App.attorney := None |} (st !! sid)))
                      (Some b1))
                   (Some b2);
               App.attorney := Some att2 |}.
Proof.
  intros twice. subst twice.
  split; [apply fill_fill|]. split; [apply fill_fill|]. split; [apply fill_fill|].
  split; [repeat split|]. split.
  - apply passport_eq; try apply merge_names_other.
    + cbn. rewrite fill_fill. unfold App.fill.
      destruct (truthy (PassportData.last_name existing)); cbn [negb]; [done|].
      by destruct (truthy (PassportData.last_name b1)).
    + cbn. rewrite fill_fill. unfold App.fill.
      destruct (truthy (PassportData.first_name existing)); cbn [negb]; [done|].
      by destruct (truthy (PassportData.first_name b1)).
    + cbn. rewrite fill_fill. unfold App.fill.
      destruct (truthy (PassportData.middle_name existing)); cbn [negb]; [done|].
      by destruct (truthy (PassportData.middle_name b1)).
  - unfold App.store_g28. by rewrite !lookup_insert_eq.
Qed.


(** ** The stores that the endpoints can build *)

(** One request that changes the store, or leaves it as it is. *)
Inductive store_step (st st' : gmap string App.ExtractedFormData) : Prop :=
| step_upload_passport e rq r :
    Endpoints.upload_passport e rq st = (r, st') -> store_step st st'
| step_upload_g28 e rq r :
    Endpoints.upload_g28 e rq st = (r, st') -> store_step st st'
| step_delete_session sid r :
    Endpoints.delete_session sid st = (r, st') -> store_step st st'.

(** The stores reached from the empty one. *)
Definition reachable (st : gmap string App.ExtractedFormData) : Prop :=
  rtc store_step ∅ st.

Definition passport_ok (p : PassportData.t) : Prop :=
  is_Some (PassportData.extraction_method p)
  /\ is_Some (PassportData.confidence_score p).

Definition attorney_ok (a : AttorneyData.t) : Prop :=
  is_Some (AttorneyData.extraction_method a)
  /\ is_Some (AttorneyData.confidence_score a)
  /\ forall phone, AttorneyData.mobile_phone a = Some phone ->
       PyStr.contains "@" phone = false.

Definition entry_ok (d : App.ExtractedFormData) : Prop :=
  (is_Some (App.passport d) \/ is_Some (App.attorney d))
  /\ (forall p, App.passport d = Some p -> passport_ok p)
  /\ (forall a, App.attorney d = Some a -> attorney_ok a).

Definition store_ok (st : gmap string App.ExtractedFormData) : Prop :=
  map_Forall (fun _ d => entry_ok d) st.

Lemma passport_extract_ok e use_llm p :
  PassportExtractor.extract e use_llm = Ok p -> passport_ok p.
Proof.
  intros Hp. destruct (passport_extract_outcome e use_llm) as (r & Hr & Ho).
  rewrite Hp in Hr. injection Hr as <-.
  by apply passport_outcome_provenance in Ho.
Qed.

Lemma g28_extract_ok e a b :
  G28Extractor.extract e = Ok (a, b) ->
  attorney_ok a /\ forall ben, b = Some ben -> passport_ok ben.
Proof.
  intros Hx. destruct (g28_extract_outcome e) as (r & Hr & Ho).
  rewrite Hx in Hr. injection Hr as <-.
  apply g28_outcome_provenance in Ho as (Hm & Hc & Hb). cbn [fst snd] in *.
  split; [|exact Hb]. split; [exact Hm|]. split; [exact Hc|].
  intros phone. by eapply g28_extract_clean.
Qed.

Lemma merge_beneficiary_ok stored b :
  (forall p, stored = Some p -> passport_ok p) ->
  (forall ben, b = Some ben -> passport_ok ben) ->
  forall p, App.merge_beneficiary stored b = Some p -> passport_ok p.
Proof.
  intros Hs Hb p. unfold App.merge_beneficiary.
  destruct b as [ben|]; [|apply Hs].
  destruct stored as [existing|].
  - intros [= <-]. exact (Hs existing eq_refl).
  - intros [= <-]. exact (Hb ben eq_refl).
Qed.

Lemma lookup_entry_ok st sid :
  store_ok st ->
  (forall p, App.passport (default Endpoints.empty_entry (st !! sid)) = Some p ->
     passport_ok p)
  /\ (forall a, App.attorney (default Endpoints.empty_entry (st !! sid)) = Some a ->
        attorney_ok a).
Proof.
  intros Hst. destruct (st !! sid) as [d|] eqn:Hd; cbn [from_option id].
  - destruct (Hst sid d Hd) as (_ & ? & ?). by split.
  - split; discriminate.
Qed.

Lemma store_passport_ok sid p st :
  store_ok st -> passport_ok p -> store_ok (Endpoints.store_passport sid p st).
Proof.
  intros Hst Hp. unfold Endpoints.store_passport. cbv zeta.
  apply map_Forall_insert_2; [|exact Hst].
  destruct (lookup_entry_ok st sid Hst) as [_ Ha].
  split; [left; by eexists|]. split; [by intros p' [= <-] | exact Ha].
Qed.

Lemma store_g28_ok sid a b st :
  store_ok st -> attorney_ok a -> (forall ben, b = Some ben -> passport_ok ben) ->
  store_ok (App.store_g28 sid a b st).
Proof.
  intros Hst Ha Hb. unfold App.store_g28. cbv zeta.
  apply map_Forall_insert_2; [|exact Hst].
  destruct (lookup_entry_ok st sid Hst) as [Hp _].
  split; [right; by eexists|]. split; [|by intros a' [= <-]].
  by apply merge_beneficiary_ok.
Qed.

Lemma store_step_ok st st' : store_step st st' -> store_ok st -> store_ok st'.
Proof.
  intros [e rq r H | e rq r H | sid r H] Hst.
  - unfold Endpoints.upload_passport in H. cbv zeta in H.
    destruct (negb _); [by injection H as _ <-|].
    destruct (Endpoints.save_file rq); [|by injection H as _ <-].
    destruct (PassportExtractor.extract e true) as [p|] eqn:Hp;
      [|by injection H as _ <-].
    apply passport_extract_ok in Hp.
    destruct (Endpoints.remove_file rq); injection H as _ <-;
      by apply store_passport_ok.
  - unfold Endpoints.upload_g28 in H. cbv zeta in H.
    destruct (negb _); [by injection H as _ <-|].
    destruct (Endpoints.save_file rq); [|by injection H as _ <-].
    destruct (G28Extractor.extract _) as [[att ben]|] eqn:Hx;
      [|by injection H as _ <-].
    apply g28_extract_ok in Hx as [Ha Hb].
    destruct (Endpoints.remove_file rq); injection H as _ <-;
      by apply store_g28_ok.
  - unfold Endpoints.delete_session in H.
    destruct (st !! sid); injection H as _ <-; [|exact Hst].
    by apply map_Forall_delete.
Qed.

Lemma reachable_ok st : reachable st -> store_ok st.
Proof.
  unfold reachable. intros H.
  assert (Hgen : forall s s', rtc store_step s s' -> store_ok s -> store_ok s').
  { induction 1 as [|s s1 s2 Hstep _ IH]; [done|].
    intros Hs. apply IH. by eapply store_step_ok. }
  apply (Hgen ∅ st H). apply map_Forall_empty.
Qed.

(** X14.  In every store that uploads and deletions can build from the empty
    one, each session holds a passport record or an attorney record, every
    stored record has its method and its confidence set, and no stored
    attorney record keeps an address in the mobile-phone field.  So
    [fill_form] never answers "No data available": a known session always
    passes its checks. *)
Theorem reachable_stores st sid :
  reachable st ->
  store_ok st
  /\ (forall data, st !! sid = Some data ->
        Endpoints.fill_form_refusal sid st = None)
  /\ (st !! sid = None ->
        Endpoints.fill_form_refusal sid st = Some Endpoints.not_found).
Proof.
  intros Hr. pose proof (reachable_ok st Hr) as Hst.
  split; [exact Hst|]. unfold Endpoints.fill_form_refusal. split.
  - intros data Hd. rewrite Hd. destruct (Hst sid data Hd) as ([[p Hp]|[a Ha]] & _).
    + by rewrite Hp.
    + rewrite Ha. by destruct (App.passport data).
  - by intros ->.
Qed.

(** A photograph of a passport, sent without session identifier. *)
Definition rq_png : Endpoints.request := {|
  Endpoints.filename_suffix := ".PNG";
  Endpoints.session_id := None;
  Endpoints.fresh_session_id := "20240101_120000_000000";
  Endpoints.save_file := Ok tt;
  Endpoints.remove_file := Ok tt
|}.

(** A word-processor file. *)
Definition rq_docx : Endpoints.request := {|
  Endpoints.filename_suffix := ".docx";
  Endpoints.session_id := Some "s1";
  Endpoints.fresh_session_id := "20240101_120000_000000";
  Endpoints.save_file := Ok tt;
  Endpoints.remove_file := Ok tt
|}.

(** The store after the passport of [env_ocr_only] has been uploaded. *)
Definition store_one_passport : gmap string App.ExtractedFormData :=
  (Endpoints.upload_passport env_ocr_only rq_png ∅).2.

Lemma reachable_stores_witness :
  store_ok store_one_passport
  /\ (forall data, store_one_passport !! "20240101_120000_000000" = Some data ->
        Endpoints.fill_form_refusal "20240101_120000_000000" store_one_passport = None)
  /\ (store_one_passport !! "20240101_120000_000000" = None ->
        Endpoints.fill_form_refusal "20240101_120000_000000" store_one_passport
        = Some Endpoints.not_found).
Proof.
  apply (reachable_stores store_one_passport "20240101_120000_000000").
  eapply rtc_l; [|apply rtc_refl].
  eapply (step_upload_passport _ _ env_ocr_only rq_png).
  unfold store_one_passport. apply surjective_pairing.
Defined.

(** ** Requests that are turned down *)

(** X15.  A file whose extension is not one of .pdf, .jpg, .jpeg, .png (in any
    letter case) is answered by a 400 before anything is stored, whatever
    the extractors would have found; an upload that cannot be saved
    stores nothing; deleting or reading an unknown
    session is answered by a 404 and changes nothing; after a deletion the
    session is unknown and the other sessions are as before. *)
Theorem refused_requests_change_nothing :
  (forall rq st,
     PyStr.lower (Endpoints.filename_suffix rq) ∉ Endpoints.allowed_extensions ->
     (forall e, Endpoints.upload_passport e rq st = (Endpoints.unsupported, st))
     /\ (forall e, Endpoints.upload_g28 e rq st = (Endpoints.unsupported, st)))
  /\ (forall rq st,
        Endpoints.save_file rq = Raise ->
        (forall e, (Endpoints.upload_passport e rq st).2 = st)
        /\ (forall e, (Endpoints.upload_g28 e rq st).2 = st))
  /\ (forall sid st,
        st !! sid = None ->
        Endpoints.delete_session sid st = (Endpoints.not_found, st)
        /\ Endpoints.get_extraction sid st = Endpoints.not_found)
  /\ (forall sid st data,
        st !! sid = Some data ->
        exists st',
          Endpoints.delete_session sid st = (Endpoints.Deleted, st')
          /\ Endpoints.get_extraction sid st' = Endpoints.not_found
          /\ Endpoints.fill_form_refusal sid st' = Some Endpoints.not_found
          /\ forall sid', sid' <> sid -> st' !! sid' = st !! sid').
Proof.
  split; [|split; [|split]].
  - intros rq st Hext.
    split; intros e; [unfold Endpoints.upload_passport | unfold Endpoints.upload_g28];
      cbv zeta; by rewrite bool_decide_eq_false_2.
  - intros rq st Hsave.
    split; intros e; [unfold Endpoints.upload_passport | unfold Endpoints.upload_g28];
      cbv zeta; rewrite Hsave; by destruct (negb _).
  - intros sid st Hs. unfold Endpoints.delete_session, Endpoints.get_extraction.
    by rewrite Hs.
  - intros sid st data Hs. exists (delete sid st).
    unfold Endpoints.delete_session, Endpoints.get_extraction,
      Endpoints.fill_form_refusal.
    rewrite Hs, lookup_delete_eq. repeat split.
    intros sid' Hne. by rewrite lookup_delete_ne.
Qed.

Lemma refused_requests_change_nothing_witness :
  (forall e, Endpoints.upload_passport e rq_docx store_one_passport
             = (Endpoints.unsupported, store_one_passport))
  /\ (forall e, Endpoints.upload_g28 e rq_docx store_one_passport
                = (Endpoints.unsupported, store_one_passport)).
Proof.
  destruct refused_requests_change_nothing as (H & _).
  apply (H rq_docx store_one_passport).
  vm_compute. intros Hin.
  repeat (apply elem_of_cons in Hin as [Hin|Hin]; [discriminate Hin|]).
  by apply elem_of_nil in Hin.
Defined.

(** ** Uploads that are answered *)

Lemma upload_passport_answered e rq st msg sid data st' :
  Endpoints.upload_passport e rq st = (Endpoints.ExtractionResponse msg sid data, st') ->
  exists p,
    PassportExtractor.extract e true = Ok p
    /\ sid = Endpoints.session_of rq
    /\ st' = Endpoints.store_passport sid p st
    /\ msg = Endpoints.extracted_message "Passport" (PassportData.extraction_method p)
    /\ data = {| App.passport := Some p;
                 App.attorney :=
                   App.attorney (default Endpoints.empty_entry (st !! sid)) |}.
Proof.
  unfold Endpoints.upload_passport. cbv zeta.
  destruct (negb _); [discriminate|].
  destruct (Endpoints.save_file rq); [|discriminate].
  destruct (PassportExtractor.extract e true) as [p|]; [|discriminate].
  destruct (Endpoints.remove_file rq); [|discriminate].
  intros [= <- <- <- <-]. exists p. repeat split.
  unfold Endpoints.store_passport. cbv zeta. by rewrite lookup_insert_eq.
Qed.

(** X16.  An answered passport upload stores the record of the extractor in
    place of whatever passport record the session held, names merged from
    an earlier G-28 included, and keeps the attorney record; this holds
    also when the extraction has failed, in which case the answer still
    reports success, with the message "Passport extracted (FAILED)".  The
    data answered are the data that a later read of the session returns,
    and no other session is touched. *)
Theorem passport_upload_round_trip e rq st msg sid data st' :
  Endpoints.upload_passport e rq st = (Endpoints.ExtractionResponse msg sid data, st') ->
  Endpoints.get_extraction sid st' = Endpoints.ExtractionResponse "Data retrieved" sid data
  /\ (exists p, PassportExtractor.extract e true = Ok p /\ App.passport data = Some p)
  /\ App.attorney data = (st !! sid) ≫= App.attorney
  /\ msg ∈ ["Passport extracted (LLM_OPENAI)"; "Passport extracted (MRZ)";
            "Passport extracted (OCR+NLP)"; "Passport extracted (FAILED)"]
  /\ (App.passport data = Some PassportExtractor.FAILED ->
      msg = "Passport extracted (FAILED)")
  /\ (forall sid', sid' <> sid -> st' !! sid' = st !! sid').
Proof.
  intros (p & Hp & -> & -> & -> & ->)%upload_passport_answered.
  set (sid := Endpoints.session_of rq).
  split.
  { unfold Endpoints.get_extraction, Endpoints.store_passport. cbv zeta.
    by rewrite lookup_insert_eq. }
  split; [by exists p|].
  split; [cbn [App.attorney]; by destruct (st !! sid)|].
  split.
  { destruct (passport_extract_outcome e true) as (r & Hr & Ho).
    rewrite Hp in Hr. injection Hr as <-.
    destruct Ho as [r Hl | d Hl Hm | d Hl Hm Ho | Hl Hm Ho].
    - apply try_llm_Some in Hl as (_ & Hx & _).
      apply llm_extract_inv in Hx as (_ & -> & _). set_solver.
    - cbn. set_solver.
    - cbn. set_solver.
    - cbn. set_solver. }
  split; [by intros [= ->]|].
  intros sid' Hne. unfold Endpoints.store_passport. cbv zeta.
  by rewrite lookup_insert_ne.
Qed.

Lemma passport_upload_round_trip_witness :
  Endpoints.get_extraction "20240101_120000_000000" store_one_passport
  = Endpoints.ExtractionResponse "Data retrieved" "20240101_120000_000000"
      {| App.passport := Some ocr_record; App.attorney := None |}
  /\ (exists p, PassportExtractor.extract env_ocr_only true = Ok p
                /\ Some ocr_record = Some p)
  /\ None = (∅ : gmap string App.ExtractedFormData) !! "20240101_120000_000000"
            ≫= App.attorney
  /\ "Passport extracted (OCR+NLP)"
     ∈ ["Passport extracted (LLM_OPENAI)"; "Passport extracted (MRZ)";
        "Passport extracted (OCR+NLP)"; "Passport extracted (FAILED)"]
  /\ (Some ocr_record = Some PassportExtractor.FAILED ->
      "Passport extracted (OCR+NLP)" = "Passport extracted (FAILED)")
  /\ (forall sid', sid' <> "20240101_120000_000000" ->
        store_one_passport !! sid' = (∅ : gmap string App.ExtractedFormData) !! sid').
Proof.
  apply (passport_upload_round_trip env_ocr_only rq_png ∅
           "Passport extracted (OCR+NLP)" "20240101_120000_000000"
           {| App.passport := Some ocr_record; App.attorney := None |}
           store_one_passport).
  unfold store_one_passport.
  rewrite (surjective_pairing (Endpoints.upload_passport env_ocr_only rq_png ∅)) at 1.
  f_equal; vm_compute; reflexivity.
Defined.

Lemma lower_char_idempotent c : PyStr.lower_char (PyStr.lower_char c) = PyStr.lower_char c.
Proof.
  apply (bool_decide_eq_true _).
  revert c. apply (forall_ascii (fun c =>
    bool_decide (PyStr.lower_char (PyStr.lower_char c) = PyStr.lower_char c))).
  vm_compute. reflexivity.
Qed.

Lemma lower_idempotent s : PyStr.lower (PyStr.lower s) = PyStr.lower s.
Proof.
  induction s as [|c s IH]; [reflexivity|]. unfold PyStr.lower in *.
  cbn [PyStr.map]. by rewrite lower_char_idempotent, IH.
Qed.

Lemma no_beneficiary_without_pdf e a b :
  PyStr.lower (G28Extractor.suffix e) <> ".pdf" ->
  G28Extractor.extract e = Ok (a, b) -> b = None.
Proof.
  intros Hs. unfold G28Extractor.extract, G28Extractor.try_pdf_form_fields.
  rewrite bool_decide_eq_false_2 by done.
  unfold G28Extractor.extract_via_ocr. cbv zeta.
  destruct (PyStr.nonempty _); by intros [= _ <-].
Qed.

Lemma upload_g28_answered e rq st msg sid data st' :
  Endpoints.upload_g28 e rq st = (Endpoints.ExtractionResponse msg sid data, st') ->
  exists a b,
    G28Extractor.extract
      (Endpoints.g28_env (PyStr.lower (Endpoints.filename_suffix rq)) e) = Ok (a, b)
    /\ sid = Endpoints.session_of rq
    /\ st' = App.store_g28 sid a b st
    /\ msg = Endpoints.extracted_message "G-28" (AttorneyData.extraction_method a)
    /\ data = {| App.passport :=
                   App.merge_beneficiary
                     (App.passport (default Endpoints.empty_entry (st !! sid))) b;
                 App.attorney := Some a |}.
Proof.
  unfold Endpoints.upload_g28. cbv zeta.
  destruct (negb _); [discriminate|].
  destruct (Endpoints.save_file rq); [|discriminate].
  destruct (G28Extractor.extract _) as [[att ben]|]; [|discriminate].
  destruct (Endpoints.remove_file rq); [|discriminate].
  intros [= <- <- <- <-]. exists att, ben. repeat split.
  unfold App.store_g28. cbv zeta. by rewrite lookup_insert_eq.
Qed.

(** X17.  An answered G-28 upload stores the attorney record of the extractor in
    place of the one the session held, and the passport record that the
    merge of the beneficiary gives; a G-28 that is not a PDF leaves the
    passport record of the session as it was.  The message names one of
    three methods, the data answered are the data that a later read
    returns, and no other session is touched. *)
Theorem g28_upload_round_trip e rq st msg sid data st' :
  Endpoints.upload_g28 e rq st = (Endpoints.ExtractionResponse msg sid data, st') ->
  Endpoints.get_extraction sid st' = Endpoints.ExtractionResponse "Data retrieved" sid data
  /\ (exists a b,
        G28Extractor.extract
          (Endpoints.g28_env (PyStr.lower (Endpoints.filename_suffix rq)) e) = Ok (a, b)
        /\ App.attorney data = Some a
        /\ App.passport data = App.merge_beneficiary ((st !! sid) ≫= App.passport) b)
  /\ (PyStr.lower (Endpoints.filename_suffix rq) <> ".pdf" ->
      App.passport data = (st !! sid) ≫= App.passport)
  /\ msg ∈ ["G-28 extracted (PDF_FORM_FIELDS)"; "G-28 extracted (OCR+NLP)";
            "G-28 extracted (FAILED)"]
  /\ (forall sid', sid' <> sid -> st' !! sid' = st !! sid').
Proof.
  intros (a & b & Hx & -> & -> & -> & ->)%upload_g28_answered.
  set (sid := Endpoints.session_of rq).
  assert (Hold : App.passport (default Endpoints.empty_entry (st !! sid))
                 = (st !! sid) ≫= App.passport) by (by destruct (st !! sid)).
  split.
  { unfold Endpoints.get_extraction, App.store_g28. cbv zeta.
    by rewrite lookup_insert_eq. }
  split; [exists a, b; cbn [App.attorney App.passport]; by rewrite Hold|].
  split.
  { intros Hext. cbn [App.passport]. rewrite Hold.
    rewrite (no_beneficiary_without_pdf _ a b) with (2 := Hx); [reflexivity|].
    cbn [Endpoints.g28_env G28Extractor.suffix]. by rewrite lower_idempotent. }
  split.
  { destruct (g28_extract_outcome
                (Endpoints.g28_env (PyStr.lower (Endpoints.filename_suffix rq)) e))
      as (r & Hr & Ho).
    rewrite Hx in Hr. injection Hr as <-.
    destruct (g28_outcome_method _ _ Ho) as [[Hm _]|[[Hm _]|[Hm _]]];
      cbn [fst] in Hm; [rewrite Hm | rewrite Hm | rewrite Hm]; cbn; set_solver. }
  intros sid' Hne. unfold App.store_g28. cbv zeta. by rewrite lookup_insert_ne.
Qed.

(** A scanned G-28 sent for the session of [store_one_passport]. *)
Definition rq_png_same_session : Endpoints.request := {|
  Endpoints.filename_suffix := ".png";
  Endpoints.session_id := Some "20240101_120000_000000";
  Endpoints.fresh_session_id := "20240101_130000_000000";
  Endpoints.save_file := Ok tt;
  Endpoints.remove_file := Ok tt
|}.

Definition hello_record : AttorneyData.t :=
  AttorneyData.mk None None None None None None None None None None
    None None None None None None (Some "OCR+NLP") (Some (0 # 1)).

Lemma g28_upload_round_trip_witness :
  Endpoints.get_extraction "20240101_120000_000000"
    (Endpoints.upload_g28 env_png_no_fields rq_png_same_session store_one_passport).2
  = Endpoints.ExtractionResponse "Data retrieved" "20240101_120000_000000"
      {| App.passport := Some ocr_record; App.attorney := Some hello_record |}.
Proof.
  eapply (g28_upload_round_trip env_png_no_fields rq_png_same_session
            store_one_passport "G-28 extracted (OCR+NLP)").
  rewrite (surjective_pairing
             (Endpoints.upload_g28 env_png_no_fields rq_png_same_session
                store_one_passport)) at 1.
  f_equal; vm_compute; reflexivity.
Defined.

(** * The answer of the vision model *)

(** A vision model that answers the sex in full. *)
Definition llm_male : LLMPassportExtractor.env := {|
  LLMPassportExtractor.api_key := true;
  LLMPassportExtractor.openai_installed := true;
  LLMPassportExtractor.encode_image := Ok (Some "base64");
  LLMPassportExtractor.chat_completion := fun _ => Ok "{...}";
  LLMPassportExtractor.json_loads := fun _ =>
    Ok (list_to_map [("passport_number", "X1234567"); ("last_name", "Doe");
                     ("sex", "Male")])
|}.

Definition with_llm (l : LLMPassportExtractor.env) (e : PassportExtractor.env)
    : PassportExtractor.env := {|
  PassportExtractor.now_year := PassportExtractor.now_year e;
  PassportExtractor.re := PassportExtractor.re e;
  PassportExtractor.llm := l;
  PassportExtractor.load_images := PassportExtractor.load_images e;
  PassportExtractor.pytesseract := PassportExtractor.pytesseract e;
  PassportExtractor.td3_code_checker := PassportExtractor.td3_code_checker e;
  PassportExtractor.spacy_model := PassportExtractor.spacy_model e;
  PassportExtractor.dateparser_parse := PassportExtractor.dateparser_parse e
|}.

(** X18.  When the vision model answers a sex other than M, F or X (or no JSON
    at all), its whole answer is dropped, passport number and names
    included: the extractor returns nothing, without raising, and the
    orchestrator goes on with the MRZ. *)
Theorem llm_invalid_sex_drops_answer l :
  (forall text data,
     LLMPassportExtractor.json_loads l text = Ok data ->
     PassportData.valid_sex (data !! "sex") = false) ->
  LLMPassportExtractor.extract l = Ok None
  /\ forall e use_llm,
       PassportExtractor.extract (with_llm l e) use_llm
       = PassportExtractor.extract_without_llm (with_llm l e).
Proof.
  intros Hsex.
  assert (Hx : LLMPassportExtractor.extract l = Ok None).
  { unfold LLMPassportExtractor.extract.
    destruct (negb (LLMPassportExtractor.client l)); [reflexivity|].
    destruct (LLMPassportExtractor._prepare_image l) as [img|]; [|reflexivity].
    destruct (negb (PyStr.nonempty img)); [reflexivity|].
    unfold catch, mbind, exc_bind.
    destruct (LLMPassportExtractor.chat_completion l img) as [content|];
      [|reflexivity].
    unfold LLMPassportExtractor._parse_response. cbv zeta.
    destruct (LLMPassportExtractor.json_loads l _) as [data|] eqn:Hj;
      [|reflexivity].
    by rewrite (Hsex _ _ Hj). }
  split; [exact Hx|]. intros e use_llm.
  unfold PassportExtractor.extract.
  rewrite (proj2 (try_llm_None (with_llm l e) use_llm)); [reflexivity|].
  right. right. left. exact Hx.
Qed.

Lemma llm_invalid_sex_drops_answer_witness :
  LLMPassportExtractor.extract llm_male = Ok None
  /\ forall e use_llm,
       PassportExtractor.extract (with_llm llm_male e) use_llm
       = PassportExtractor.extract_without_llm (with_llm llm_male e).
Proof.
  apply (llm_invalid_sex_drops_answer llm_male).
  intros text data [= <-]. vm_compute. reflexivity.
Defined.

(** ** The code fence around the answer *)

Definition not_tick (c : ascii) : bool := negb (bool_decide (c = "`"%char)).

Lemma is_prefix_app sep rest : PyStr.is_prefix sep (PyStr.app sep rest) = true.
Proof.
  induction sep as [|c sep IH]; [reflexivity|].
  cbn [PyStr.app PyStr.is_prefix]. destruct (ascii_dec c c); [exact IH | done].
Qed.

Lemma split_on_go_skip sep t cur rest :
  PyStr.split_on_go sep (String.length t) cur (PyStr.app t rest)
  = PyStr.split_on_go sep 0 cur rest.
Proof.
  induction t as [|c t IH]; [reflexivity|].
  cbn [String.length PyStr.app PyStr.split_on_go]. exact IH.
Qed.

Lemma split_on_go_hit c0 sep' cur rest :
  PyStr.split_on_go (String c0 sep') 0 cur (PyStr.app (String c0 sep') rest)
  = PyStr.rev cur :: PyStr.split_on_go (String c0 sep') 0 "" rest.
Proof.
  cbn [PyStr.app PyStr.split_on_go].
  change (String c0 (PyStr.app sep' rest)) with (PyStr.app (String c0 sep') rest).
  rewrite is_prefix_app. cbn [String.length Nat.sub].
  rewrite Nat.sub_0_r. by rewrite split_on_go_skip.
Qed.

Lemma split_on_go_pre sep' u cur rest :
  PyStr.forallb not_tick u = true ->
  PyStr.split_on_go (String "`" sep') 0 cur (PyStr.app u rest)
  = PyStr.split_on_go (String "`" sep') 0 (PyStr.rev_onto u cur) rest.
Proof.
  revert cur. induction u as [|c u IH]; intros cur; [reflexivity|].
  intros [Hc Hu]%andb_true_iff. cbn [PyStr.app PyStr.split_on_go PyStr.is_prefix].
  destruct (ascii_dec "`" c) as [<-|_]; [discriminate Hc|]. cbn [andb PyStr.rev_onto].
  by apply IH.
Qed.

Lemma split_on_go_end sep' u cur :
  PyStr.forallb not_tick u = true ->
  PyStr.split_on_go (String "`" sep') 0 cur u
  = [PyStr.rev (PyStr.rev_onto u cur)].
Proof.
  intros Hu. rewrite <- (app_empty_r u) at 1.
  by rewrite split_on_go_pre.
Qed.

Lemma contains_sub_no_tick sep' u :
  PyStr.forallb not_tick u = true ->
  PyStr.contains_sub (String "`" sep') u = false.
Proof.
  induction u as [|c u IH]; [reflexivity|].
  intros [Hc Hu]%andb_true_iff. cbn [PyStr.contains_sub PyStr.is_prefix].
  destruct (ascii_dec "`" c) as [<-|_]; [discriminate Hc|]. by apply IH.
Qed.

Lemma contains_sub_pre sep u rest :
  sep <> "" ->
  PyStr.contains_sub sep (PyStr.app u (PyStr.app sep rest)) = true.
Proof.
  intros Hsep. induction u as [|c u IH].
  - cbn [PyStr.app]. destruct sep as [|c0 sep']; [done|].
    cbn [PyStr.app PyStr.contains_sub].
    change (String c0 (PyStr.app sep' rest)) with (PyStr.app (String c0 sep') rest).
    by rewrite is_prefix_app.
  - cbn [PyStr.app PyStr.contains_sub]. by rewrite IH, orb_true_r.
Qed.

Lemma rev_rev_onto body : PyStr.rev (PyStr.rev_onto body "") = body.
Proof. apply rev_involutive. Qed.

Lemma is_prefix_same c p s :
  PyStr.is_prefix (String c p) (String c s) = PyStr.is_prefix p s.
Proof. cbn [PyStr.is_prefix]. by destruct (ascii_dec c c). Qed.

Lemma is_prefix_tick p s :
  PyStr.forallb not_tick s = true -> PyStr.is_prefix (String "`" p) s = false.
Proof.
  destruct s as [|c s]; [reflexivity|]. intros [Hc _]%andb_true_iff.
  cbn [PyStr.is_prefix]. by destruct (ascii_dec "`" c) as [<-|_].
Qed.

Lemma is_prefix_split p s :
  PyStr.is_prefix p s = true -> exists rest, s = PyStr.app p rest.
Proof.
  revert s. induction p as [|c p IH]; intros s; [by exists s|].
  destruct s as [|d s]; [discriminate|]. cbn [PyStr.is_prefix].
  destruct (ascii_dec c d) as [<-|_]; [|discriminate]. cbn [andb].
  intros (rest & ->)%IH. by exists rest.
Qed.

Lemma contains_sub_app_no_tick sep' u rest :
  PyStr.forallb not_tick u = true ->
  PyStr.contains_sub (String "`" sep') (PyStr.app u rest)
  = PyStr.contains_sub (String "`" sep') rest.
Proof.
  induction u as [|c u IH]; [reflexivity|].
  intros [Hc Hu]%andb_true_iff. cbn [PyStr.app PyStr.contains_sub PyStr.is_prefix].
  destruct (ascii_dec "`" c) as [<-|_]; [discriminate Hc|]. by apply IH.
Qed.

Lemma split_on_go_none sep cur s :
  PyStr.contains_sub sep s = false ->
  PyStr.split_on_go sep 0 cur s = [PyStr.rev (PyStr.rev_onto s cur)].
Proof.
  revert cur. induction s as [|c s IH]; intros cur; [reflexivity|].
  cbn [PyStr.contains_sub PyStr.split_on_go PyStr.rev_onto].
  intros [-> Hs]%orb_false_iff. by apply IH.
Qed.

(** The first piece of what follows the opening fence, cut at the closing
    fence. *)
Lemma first_piece_of_fenced body post :
  PyStr.forallb not_tick body = true ->
  PyStr.forallb not_tick post = true ->
  default "" (head (PyStr.split_on LLMPassportExtractor.fence
    (default "" (head (PyStr.split_on LLMPassportExtractor.fence_json
       (PyStr.app body (PyStr.app LLMPassportExtractor.fence post)))))))
  = body.
Proof.
  intros Hb Hp.
  assert (Hcut : forall x,
            default "" (head (PyStr.split_on LLMPassportExtractor.fence
              (PyStr.app body (PyStr.app LLMPassportExtractor.fence x)))) = body).
  { intros x. unfold PyStr.split_on, LLMPassportExtractor.fence.
    rewrite split_on_go_pre by exact Hb. rewrite split_on_go_hit.
    cbn [head from_option id]. apply rev_rev_onto. }
  destruct (PyStr.is_prefix "json" post) eqn:Hjson.
  - apply is_prefix_split in Hjson as (post' & ->).
    change (PyStr.app LLMPassportExtractor.fence (PyStr.app "json" post'))
      with (PyStr.app LLMPassportExtractor.fence_json post').
    unfold PyStr.split_on at 2. unfold LLMPassportExtractor.fence_json.
    rewrite split_on_go_pre by exact Hb. rewrite split_on_go_hit.
    cbn [head from_option id]. rewrite rev_rev_onto.
    unfold PyStr.split_on, LLMPassportExtractor.fence.
    rewrite split_on_go_end by exact Hb. cbn [head from_option id].
    apply rev_rev_onto.
  - assert (Hnone : PyStr.contains_sub LLMPassportExtractor.fence_json
                      (PyStr.app body (PyStr.app LLMPassportExtractor.fence post))
                    = false).
    { unfold LLMPassportExtractor.fence_json.
      rewrite contains_sub_app_no_tick by exact Hb.
      unfold LLMPassportExtractor.fence.
      cbn [PyStr.app PyStr.contains_sub].
      rewrite !is_prefix_same, Hjson.
      rewrite !is_prefix_tick by exact Hp.
      by rewrite contains_sub_no_tick. }
    unfold PyStr.split_on at 2. rewrite (split_on_go_none _ _ _ Hnone).
    cbn [head from_option id]. rewrite rev_rev_onto. apply Hcut.
Qed.

(** X19.  An answer in which the JSON object stands between an opening fence
    marked json and a closing fence, with no other backquote before,
    inside or after, is cut down to what stands between the fences; an
    answer without backquote is taken as it is. *)
Theorem fenced_answer_is_unwrapped :
  (forall pre body post,
     PyStr.forallb not_tick pre = true ->
     PyStr.forallb not_tick body = true ->
     PyStr.forallb not_tick post = true ->
     LLMPassportExtractor.strip_fences
       (PyStr.app pre (PyStr.app LLMPassportExtractor.fence_json
          (PyStr.app body (PyStr.app LLMPassportExtractor.fence post))))
     = body)
  /\ (forall text,
        PyStr.forallb not_tick text = true ->
        LLMPassportExtractor.strip_fences text = text).
Proof.
  split.
  - intros pre body post Hpre Hb Hp. unfold LLMPassportExtractor.strip_fences.
    rewrite contains_sub_pre by discriminate.
    replace (PyStr.split_on LLMPassportExtractor.fence_json
               (PyStr.app pre (PyStr.app LLMPassportExtractor.fence_json
                  (PyStr.app body (PyStr.app LLMPassportExtractor.fence post))))
             !! 1%nat)
      with (head (PyStr.split_on LLMPassportExtractor.fence_json
                    (PyStr.app body (PyStr.app LLMPassportExtractor.fence post)))).
    + by apply first_piece_of_fenced.
    + unfold PyStr.split_on at 2. unfold LLMPassportExtractor.fence_json at 2 3.
      rewrite split_on_go_pre by exact Hpre. rewrite split_on_go_hit.
      unfold PyStr.split_on, LLMPassportExtractor.fence_json.
      by destruct (PyStr.split_on_go _ 0 "" _).
  - intros text Ht. unfold LLMPassportExtractor.strip_fences,
      LLMPassportExtractor.fence_json, LLMPassportExtractor.fence.
    by rewrite !contains_sub_no_tick.
Qed.

Lemma fenced_answer_is_unwrapped_witness :
  LLMPassportExtractor.strip_fences
    (PyStr.app "Here it is: " (PyStr.app LLMPassportExtractor.fence_json
       (PyStr.app "{}" (PyStr.app LLMPassportExtractor.fence " Done."))))
  = "{}".
Proof.
  destruct fenced_answer_is_unwrapped as (H & _).
  apply (H "Here it is: " "{}" " Done."); reflexivity.
Defined.

(** * The text around the MRZ *)

(** X20.  The scanner looks at the lines one by one and in order, without regard
    to letter case: the text of a page before which other lines stand that
    hold no candidate gives the same pair as without them, what stands
    after two candidates is not looked at, and a text gives the same pair
    as its upper-cased form. *)
Theorem scanner_ignores_surrounding_text :
  (forall a b,
     text_candidates a = [] ->
     PassportExtractor._find_mrz_lines (PyStr.app a (String "010" b))
     = PassportExtractor._find_mrz_lines b)
  /\ (forall a b pair,
        PassportExtractor._find_mrz_lines a = Some pair ->
        PassportExtractor._find_mrz_lines (PyStr.app a (String "010" b)) = Some pair)
  /\ (forall text,
        PassportExtractor._find_mrz_lines (PyStr.upper text)
        = PassportExtractor._find_mrz_lines text).
Proof.
  split; [|split].
  - intros a b Ha. unfold PassportExtractor._find_mrz_lines.
    fold (text_candidates (PyStr.app a (String "010" b))). fold (text_candidates b).
    by rewrite text_candidates_lines, Ha.
  - intros a b pair. unfold PassportExtractor._find_mrz_lines.
    fold (text_candidates (PyStr.app a (String "010" b))). fold (text_candidates a).
    rewrite text_candidates_lines.
    by destruct (text_candidates a) as [|c0 [|c1 rest]].
  - intros text. unfold PassportExtractor._find_mrz_lines.
    by rewrite upper_idempotent.
Qed.

Lemma scanner_ignores_surrounding_text_witness :
  PassportExtractor._find_mrz_lines
    (PyStr.app "PASSPORT"
       (String "010" (PyStr.app specimen_line1 (String "010" specimen_line2))))
  = PassportExtractor._find_mrz_lines
      (PyStr.app specimen_line1 (String "010" specimen_line2)).
Proof.
  destruct scanner_ignores_surrounding_text as (H & _).
  apply (H "PASSPORT"). reflexivity.
Defined.

(** * The records of the text extractors *)

Lemma lower_title_go p s : PyStr.lower (PyStr.title_go p s) = PyStr.lower s.
Proof.
  assert (Hc : forall c,
             PyStr.lower_char (PyStr.upper_char c) = PyStr.lower_char c
             \/ PyStr.is_alpha c = false).
  { intros c.
    assert (H : orb (bool_decide (PyStr.lower_char (PyStr.upper_char c)
                                  = PyStr.lower_char c))
                    (negb (PyStr.is_alpha c)) = true).
    { revert c. apply (forall_ascii (fun c =>
        orb (bool_decide (PyStr.lower_char (PyStr.upper_char c)
                          = PyStr.lower_char c))
            (negb (PyStr.is_alpha c)))).
      vm_compute. reflexivity. }
    apply orb_prop in H as [H|H].
    - left. exact (bool_decide_unpack _ (Is_true_true_2 _ H)).
    - right. by apply negb_true_iff. }
  unfold PyStr.lower. revert p. induction s as [|c s IH]; intros p; [reflexivity|].
  cbn [PyStr.title_go PyStr.map]. rewrite IH. f_equal.
  destruct (PyStr.is_alpha c) eqn:Ha; [|reflexivity].
  destruct p; [apply lower_char_idempotent|].
  destruct (Hc c) as [H|H]; [exact H | congruence].
Qed.

Lemma lower_title s : PyStr.lower (PyStr.title s) = PyStr.lower s.
Proof. apply lower_title_go. Qed.

(** A name that the text extractor of the G-28 has stored: the title-cased
    form of a stripped match that is no label word. *)
Definition name_from_match (v : string) : Prop :=
  exists raw,
    v = PyStr.title (PyStr.strip raw)
    /\ PyStr.lower (PyStr.strip raw) ∉ G28Extractor.label_words.

Lemma name_pattern_sets re text d entry v :
  AttorneyData.getattr entry.2 (G28Extractor.apply_name_pattern re text d entry)
  = Some v ->
  AttorneyData.getattr entry.2 d = Some v \/ name_from_match v.
Proof.
  unfold G28Extractor.apply_name_pattern.
  destruct (negb _); [|by left].
  destruct (re_search _ _ _ _) as [m|]; [|by left].
  case_bool_decide as Hl; [by left|].
  rewrite getattr_setattr, bool_decide_eq_true_2 by reflexivity.
  intros [= <-]. right. by exists (group1 m).
Qed.

Lemma text_names re text a v :
  a ∈ [AttorneyData.a_last_name; AttorneyData.a_first_name;
       AttorneyData.a_middle_name] ->
  AttorneyData.getattr a (G28Extractor._extract_from_text re text) = Some v ->
  name_from_match v.
Proof.
  intros Ha. unfold G28Extractor._extract_from_text. cbv zeta.
  assert (Hne : a <> AttorneyData.a_country /\ a <> AttorneyData.a_street_address
                /\ a <> AttorneyData.a_city /\ a <> AttorneyData.a_state
                /\ a <> AttorneyData.a_zip_code /\ a <> AttorneyData.a_email
                /\ a <> AttorneyData.a_bar_number
                /\ a <> AttorneyData.a_licensing_authority
                /\ a <> AttorneyData.a_law_firm_name).
  { set_unfold in Ha. destruct Ha as [-> | [-> | [-> | []]]]; repeat split; discriminate. }
  destruct Hne as (H1 & H2 & H3 & H4 & H5 & H6 & H7 & H8 & H9).
  rewrite getattr_infer_country_ne by congruence.
  rewrite !getattr_set_from_match_ne by congruence.
  cbn [fold_left G28Extractor.name_patterns].
  set_unfold in Ha. destruct Ha as [-> | [-> | [-> | []]]].
  - rewrite !getattr_name_pattern_ne by discriminate.
    intros H. by apply (name_pattern_sets _ _ _ (_, _)) in H as [H|H].
  - rewrite getattr_name_pattern_ne by discriminate.
    intros H. apply (name_pattern_sets _ _ _ (_, _)) in H as [H|H]; [|done].
    by rewrite getattr_name_pattern_ne in H by discriminate.
  - intros H. apply (name_pattern_sets _ _ _ (_, _)) in H as [H|H]; [|done].
    by rewrite !getattr_name_pattern_ne in H by discriminate.
Qed.


(** The fields that no attribute assignment reaches. *)
Definition rest_unset (d : AttorneyData.t) : Prop :=
  AttorneyData.online_account_number d = None
  /\ AttorneyData.extraction_method d = None
  /\ AttorneyData.confidence_score d = None.

Lemma rest_unset_setattr a v d : rest_unset d -> rest_unset (AttorneyData.setattr a v d).
Proof. intros H. exact H. Qed.

Lemma rest_unset_set_from_match m a f d :
  rest_unset d -> rest_unset (G28Extractor.set_from_match m a f d).
Proof. intros H. destruct m; [by apply rest_unset_setattr | exact H]. Qed.

Lemma rest_unset_name_pattern re text d entry :
  rest_unset d -> rest_unset (G28Extractor.apply_name_pattern re text d entry).
Proof.
  intros H. unfold G28Extractor.apply_name_pattern.
  destruct (negb _); [|exact H].
  destruct (re_search _ _ _ _); [|exact H].
  case_bool_decide; [exact H | by apply rest_unset_setattr].
Qed.

Lemma text_rest_unset re text : rest_unset (G28Extractor._extract_from_text re text).
Proof.
  unfold G28Extractor._extract_from_text. cbv zeta.
  unfold G28Extractor.infer_country.
  assert (H0 : rest_unset
                 (fold_left (G28Extractor.apply_name_pattern re text)
                            G28Extractor.name_patterns AttorneyData.empty)).
  { cbn [fold_left G28Extractor.name_patterns].
    do 3 apply rest_unset_name_pattern. by repeat split. }
  destruct (_ && _); [apply rest_unset_setattr|];
    by do 8 apply rest_unset_set_from_match.
Qed.

Lemma text_unset_attr re text a :
  a ∈ [AttorneyData.a_apt_ste_flr; AttorneyData.a_daytime_phone;
       AttorneyData.a_mobile_phone] ->
  AttorneyData.getattr a (G28Extractor._extract_from_text re text) = None.
Proof.
  intros Ha. unfold G28Extractor._extract_from_text. cbv zeta.
  set_unfold in Ha.
  destruct Ha as [-> | [-> | [-> | []]]];
    rewrite getattr_infer_country_ne by discriminate;
    rewrite !getattr_set_from_match_ne by discriminate;
    by rewrite getattr_name_patterns_ne.
Qed.

Lemma text_street_address re text v :
  AttorneyData.street_address (G28Extractor._extract_from_text re text) = Some v ->
  (String.length v <= 100)%nat.
Proof.
  change (AttorneyData.street_address ?d)
    with (AttorneyData.getattr AttorneyData.a_street_address d).
  unfold G28Extractor._extract_from_text. cbv zeta.
  rewrite getattr_infer_country_ne by discriminate.
  rewrite !getattr_set_from_match_ne by discriminate.
  destruct (re_search re G28Extractor.street_pattern true text).
  - rewrite set_from_match_Some, getattr_setattr, bool_decide_eq_true_2 by reflexivity.
    intros Hv. apply (inj Some) in Hv. rewrite <- Hv, length_take. lia.
  - rewrite set_from_match_None. by rewrite getattr_name_patterns_ne.
Qed.

Lemma text_email re text v :
  AttorneyData.email (G28Extractor._extract_from_text re text) = Some v ->
  PyStr.lower v = v.
Proof.
  change (AttorneyData.email ?d) with (AttorneyData.getattr AttorneyData.a_email d).
  unfold G28Extractor._extract_from_text. cbv zeta.
  rewrite getattr_infer_country_ne by discriminate.
  rewrite !getattr_set_from_match_ne by discriminate.
  destruct (re_search re G28Extractor.email_pattern false text).
  - rewrite set_from_match_Some, getattr_setattr, bool_decide_eq_true_2 by reflexivity.
    intros [= <-]. apply lower_idempotent.
  - rewrite set_from_match_None.
    rewrite !getattr_set_from_match_ne by discriminate.
    by rewrite getattr_name_patterns_ne.
Qed.

(** X21.  What the text extractor of the G-28 can put into a record, whatever the
    regular expressions match.
    - A name (last, first, middle) is the title-cased form of a stripped
      match, and in no letter case one of the label words {name, last,
      first, given, family, middle}.
    - The street address has at most 100 characters; the state has one or
      two characters, none of them a lower-case letter; the e-mail address
      has no upper-case letter.
    - The country is "United States" when a state was found and unset
      otherwise.
    - The suite, both phone numbers, the online account number, the
      extraction method and the confidence score are left unset. *)
Theorem g28_text_record_shape re text :
  let d := G28Extractor._extract_from_text re text in
  (forall a v,
      a ∈ [AttorneyData.a_last_name; AttorneyData.a_first_name;
           AttorneyData.a_middle_name] ->
      AttorneyData.getattr a d = Some v ->
      name_from_match v /\ PyStr.lower v ∉ G28Extractor.label_words)
  /\ (forall v, AttorneyData.street_address d = Some v ->
        (String.length v <= 100)%nat)
  /\ (forall v, AttorneyData.state d = Some v ->
        (1 <= String.length v <= 2)%nat /\ PyStr.upper v = v)
  /\ (forall v, AttorneyData.email d = Some v -> PyStr.lower v = v)
  /\ AttorneyData.country d
     = (if truthy (AttorneyData.state d) then Some "United States" else None)
  /\ AttorneyData.apt_ste_flr d = None
  /\ AttorneyData.daytime_phone d = None
  /\ AttorneyData.mobile_phone d = None
  /\ AttorneyData.online_account_number d = None
  /\ AttorneyData.extraction_method d = None
  /\ AttorneyData.confidence_score d = None.
Proof.
  cbv zeta.
  split; [|split; [|split; [|split; [|split; [|split; [|split; [|split]]]]]]].
  - intros a v Ha Hv. pose proof (text_names _ _ _ _ Ha Hv) as Hn.
    split; [exact Hn|].
    destruct Hn as (raw & -> & Hraw). by rewrite lower_title.
  - apply text_street_address.
  - intros v. rewrite text_state.
    destruct (re_search _ _ _ _); [apply normalize_state_output | discriminate].
  - apply text_email.
  - apply text_country.
  - apply (text_unset_attr re text AttorneyData.a_apt_ste_flr). set_solver.
  - apply (text_unset_attr re text AttorneyData.a_daytime_phone). set_solver.
  - apply (text_unset_attr re text AttorneyData.a_mobile_phone). set_solver.
  - apply text_rest_unset.
Qed.

Lemma g28_text_record_shape_witness :
  (1 <= String.length "ZZ" <= 2)%nat /\ PyStr.upper "ZZ" = "ZZ".
Proof.
  destruct (g28_text_record_shape re_state_ZZ "State: ZZ 00000")
    as (_ & _ & H & _).
  apply H. reflexivity.
Defined.

Lemma rev_onto_nonempty s acc : acc <> "" -> PyStr.rev_onto s acc <> "".
Proof.
  revert acc. induction s as [|c s IH]; intros acc H; [exact H|].
  cbn [PyStr.rev_onto]. by apply IH.
Qed.

Lemma words_go_nonempty cur s w : w ∈ PyStr.words_go cur s -> w <> "".
Proof.
  revert cur. induction s as [|c s IH]; intros cur; cbn [PyStr.words_go].
  - destruct cur as [|a cur]; cbn [PyStr.nonempty]; [set_solver|].
    intros H. set_unfold in H. destruct H as [-> | []].
    unfold PyStr.rev. cbn [PyStr.rev_onto]. by apply rev_onto_nonempty.
  - destruct (PyStr.is_space c); [|apply IH].
    destruct cur as [|a cur]; cbn [PyStr.nonempty]; [apply IH|].
    intros H. set_unfold in H.
    destruct H as [-> | H]; [|by apply IH in H].
    unfold PyStr.rev. cbn [PyStr.rev_onto]. by apply rev_onto_nonempty.
Qed.

(** The names of a record after the entity block. *)
Definition names_shape (d : PassportData.t) : Prop :=
  (PassportData.first_name d = None /\ PassportData.last_name d = None
   /\ PassportData.middle_name d = None)
  \/ (truthy (PassportData.first_name d) = true
      /\ truthy (PassportData.last_name d) = true).

Lemma apply_persons_names persons d :
  PassportData.first_name d = None -> PassportData.last_name d = None ->
  PassportData.middle_name d = None ->
  names_shape (PassportExtractor.apply_persons persons d).
Proof.
  intros Hf Hl Hm. unfold PassportExtractor.apply_persons.
  destruct persons as [|person _]; [by left|]. cbv zeta.
  destruct (2 <=? length (PyStr.words person))%nat eqn:Hlen; [|by left].
  right.
  assert (Hw : forall w, w ∈ PyStr.words person -> w <> "")
    by (intros w; apply words_go_nonempty).
  assert (Hh : truthy (head (PyStr.words person)) = true).
  { destruct (PyStr.words person) as [|w ws]; [discriminate|].
    apply truthy_Some_nonempty, Hw. left. }
  assert (Hla : truthy (last (PyStr.words person)) = true).
  { destruct (last (PyStr.words person)) as [w|] eqn:E.
    - apply truthy_Some_nonempty, Hw. by apply last_Some_elem_of.
    - apply last_None in E. by rewrite E in Hlen. }
  destruct (2 <? length (PyStr.words person))%nat; by split.
Qed.

(** The record before the entity block, and the two steps after it. *)
Definition text_head (e : PassportExtractor.env) (text : string) : PassportData.t :=
  match first_match (PassportExtractor.re e)
          PassportExtractor.passport_number_patterns true text with
  | Some m => PassportData.set_passport_number (Some (PyStr.upper (group1 m)))
                PassportData.empty
  | None => PassportData.empty
  end.

Definition text_tail (e : PassportExtractor.env) (text : string)
    (data : PassportData.t) : PassportData.t :=
  let data :=
    match first_match (PassportExtractor.re e)
            PassportExtractor.date_of_birth_patterns true text with
    | Some m => PassportData.set_date_of_birth
                  (Some (PassportExtractor._normalize_date e (group1 m))) data
    | None => data
    end in
  match re_search (PassportExtractor.re e) PassportExtractor.sex_pattern true text with
  | Some m =>
      let sex := PyStr.upper (group1 m) in
      PassportData.set_sex
        (Some (if bool_decide (sex = "M" \/ sex = "MALE") then "M"
               else if bool_decide (sex = "F" \/ sex = "FEMALE") then "F"
               else "X")) data
  | None => data
  end.

Lemma extract_from_text_steps e text :
  PassportExtractor._extract_from_text e text
  = (nlp ← PassportExtractor.spacy_model e;
     data ← match nlp with
            | Some model =>
                ents ← model (PyStr.take 2000 text);
                Ok (PassportExtractor.apply_persons
                      (filter (fun ent => snd ent = "PERSON") ents).*1
                      (text_head e text))
            | None => Ok (text_head e text)
            end;
     Ok (text_tail e text data)).
Proof. reflexivity. Qed.

(** The shape of a record of the text extractor. *)
Definition text_shape (d : PassportData.t) : Prop :=
  PassportData.valid_sex (PassportData.sex d) = true
  /\ (forall v, PassportData.passport_number d = Some v -> PyStr.upper v = v)
  /\ names_shape d
  /\ PassportData.country_of_issue d = None
  /\ PassportData.nationality d = None
  /\ PassportData.place_of_birth d = None
  /\ PassportData.date_of_issue d = None
  /\ PassportData.date_of_expiration d = None
  /\ PassportData.extraction_method d = None
  /\ PassportData.confidence_score d = None.

Lemma text_head_fields e text :
  (forall v, PassportData.passport_number (text_head e text) = Some v ->
             PyStr.upper v = v)
  /\ PassportData.first_name (text_head e text) = None
  /\ PassportData.last_name (text_head e text) = None
  /\ PassportData.middle_name (text_head e text) = None
  /\ forall d,
       PassportData.passport_number d = PassportData.passport_number (text_head e text) ->
       names_shape d ->
       PassportData.sex d = PassportData.sex (text_head e text) ->
       PassportData.country_of_issue d = PassportData.country_of_issue (text_head e text) ->
       PassportData.nationality d = PassportData.nationality (text_head e text) ->
       PassportData.place_of_birth d = PassportData.place_of_birth (text_head e text) ->
       PassportData.date_of_issue d = PassportData.date_of_issue (text_head e text) ->
       PassportData.date_of_expiration d
       = PassportData.date_of_expiration (text_head e text) ->
       PassportData.extraction_method d = PassportData.extraction_method (text_head e text) ->
       PassportData.confidence_score d = PassportData.confidence_score (text_head e text) ->
       text_shape d.
Proof.
  assert (Hp : forall v, PassportData.passport_number (text_head e text) = Some v ->
                         PyStr.upper v = v).
  { unfold text_head. destruct (first_match _ _ _ _) as [m|]; [|discriminate].
    cbn [PassportData.passport_number PassportData.set_passport_number].
    intros v Hv. apply (inj Some) in Hv. rewrite <- Hv. apply upper_idempotent. }
  split; [exact Hp|].
  split; [by unfold text_head; destruct (first_match _ _ _ _)|].
  split; [by unfold text_head; destruct (first_match _ _ _ _)|].
  split; [by unfold text_head; destruct (first_match _ _ _ _)|].
  intros d H0 Hn H1 H2 H3 H4 H5 H6 H7 H8.
  unfold text_shape.
  rewrite H0, H1, H2, H3, H4, H5, H6, H7, H8.
  split; [by unfold text_head; destruct (first_match _ _ _ _)|].
  split; [exact Hp|]. split; [exact Hn|].
  unfold text_head; destruct (first_match _ _ _ _); by repeat split.
Qed.

Lemma apply_persons_other persons d :
  PassportData.passport_number (PassportExtractor.apply_persons persons d)
  = PassportData.passport_number d
  /\ PassportData.sex (PassportExtractor.apply_persons persons d) = PassportData.sex d
  /\ PassportData.country_of_issue (PassportExtractor.apply_persons persons d)
     = PassportData.country_of_issue d
  /\ PassportData.nationality (PassportExtractor.apply_persons persons d)
     = PassportData.nationality d
  /\ PassportData.place_of_birth (PassportExtractor.apply_persons persons d)
     = PassportData.place_of_birth d
  /\ PassportData.date_of_issue (PassportExtractor.apply_persons persons d)
     = PassportData.date_of_issue d
  /\ PassportData.date_of_expiration (PassportExtractor.apply_persons persons d)
     = PassportData.date_of_expiration d
  /\ PassportData.extraction_method (PassportExtractor.apply_persons persons d)
     = PassportData.extraction_method d
  /\ PassportData.confidence_score (PassportExtractor.apply_persons persons d)
     = PassportData.confidence_score d.
Proof.
  unfold PassportExtractor.apply_persons.
  destruct persons as [|person _]; [by repeat split|]. cbv zeta.
  destruct (2 <=? _)%nat; [|by repeat split].
  destruct (2 <? _)%nat; by repeat split.
Qed.

Lemma text_tail_shape e text d :
  text_shape d -> PassportData.sex d = None -> text_shape (text_tail e text d).
Proof.
  intros (Hv & Hp & Hn & H1 & H2 & H3 & H4 & H5 & H6 & H7) Hs.
  unfold text_tail, text_shape. cbv zeta.
  destruct (re_search _ _ _ _) as [m|];
    destruct (first_match _ _ _ _) as [m0|];
    cbn [PassportData.sex PassportData.set_sex PassportData.set_date_of_birth
         PassportData.passport_number PassportData.country_of_issue
         PassportData.nationality PassportData.place_of_birth
         PassportData.date_of_issue PassportData.date_of_expiration
         PassportData.extraction_method PassportData.confidence_score];
    (split; [first [ exact Hv | repeat case_bool_decide; reflexivity ] |]);
    (split; [exact Hp|]);
    (split; [exact Hn | by repeat split]).
Qed.

(** X22.  What the text extractor of the passport can put into a record,
    whatever the regular expressions and the entity recognizer answer.
    - It raises exactly when spaCy cannot be imported or the model raises
      on the text; a missing model is no error.
    - The sex is unset or one of M, F, X; the passport number has no
      lower-case letter.
    - Either no name is set, or the first and the last name are both set
      and non-empty.
    - The country of issue, the nationality, the place of birth, the dates
      of issue and of expiration, the extraction method and the confidence
      score are left unset. *)
Theorem passport_text_record_shape e text :
  (PassportExtractor._extract_from_text e text = Raise
   <-> PassportExtractor.spacy_model e = Raise
       \/ exists model,
            PassportExtractor.spacy_model e = Ok (Some model)
            /\ model (PyStr.take 2000 text) = Raise)
  /\ (forall d,
        PassportExtractor._extract_from_text e text = Ok d ->
        PassportData.valid_sex (PassportData.sex d) = true
        /\ (forall v, PassportData.passport_number d = Some v -> PyStr.upper v = v)
        /\ names_shape d
        /\ PassportData.country_of_issue d = None
        /\ PassportData.nationality d = None
        /\ PassportData.place_of_birth d = None
        /\ PassportData.date_of_issue d = None
        /\ PassportData.date_of_expiration d = None
        /\ PassportData.extraction_method d = None
        /\ PassportData.confidence_score d = None).
Proof.
  rewrite extract_from_text_steps.
  destruct (text_head_fields e text) as (Hp & Hf & Hl & Hm & Hshape).
  assert (Hsex : PassportData.sex (text_head e text) = None)
    by (unfold text_head; destruct (first_match _ _ _ _); reflexivity).
  destruct (PassportExtractor.spacy_model e) as [[model|]|] eqn:Hmodel.
  - cbn [mbind exc_bind].
    destruct (model (PyStr.take 2000 text)) as [ents|] eqn:Hents.
    + cbn [mbind exc_bind]. split.
      * split; [discriminate|].
        intros [H | (model' & H & H')]; [discriminate|]. congruence.
      * intros d Hd. injection Hd as Hd. subst d.
        set (persons := (filter _ ents).*1).
        destruct (apply_persons_other persons (text_head e text))
          as (E0 & E1 & E2 & E3 & E4 & E5 & E6 & E7 & E8).
        apply text_tail_shape; [|by rewrite E1].
        apply Hshape; try assumption.
        by apply apply_persons_names.
    + cbn [mbind exc_bind]. split; [|discriminate].
      split; [|done]. intros _. right. by exists model.
  - cbn [mbind exc_bind]. split.
    + split; [discriminate|]. intros [H | (model' & H & _)]; discriminate.
    + intros d Hd. injection Hd as Hd. subst d.
      apply text_tail_shape; [|exact Hsex].
      apply Hshape; try reflexivity. by left.
  - cbn [mbind exc_bind]. split; [|discriminate]. split; [by left | done].
Qed.

(** The record that the text extractor builds from [page_text]. *)
Definition jane_text_record : PassportData.t :=
  PassportData.set_last_name (Some "Doe")
    (PassportData.set_first_name (Some "Jane") PassportData.empty).

Lemma passport_text_record_shape_witness :
  PassportExtractor._extract_from_text env_ocr_only page_text = Ok jane_text_record
  /\ names_shape jane_text_record.
Proof.
  assert (H : PassportExtractor._extract_from_text env_ocr_only page_text
              = Ok jane_text_record) by (vm_compute; reflexivity).
  split; [exact H|].
  destruct (passport_text_record_shape env_ocr_only page_text) as (_ & Hs).
  destruct (Hs _ H) as (_ & _ & Hn & _). exact Hn.
Defined.
